(** * Stock tracker: the Shopify synchronisation layer

    A shallow embedding of [src/services/shopifyIntegration.ts], of the
    webhook route ([POST], [handleProductUpdate], [handleProductDelete],
    [handleInventoryUpdate]) and of the sale route ([POST] of
    [src/app/api/sales/route.ts]), with the properties of the
    specification stated over it.

    The handlers are [async] functions with [try]/[catch]: they are
    written here in a state-and-exception monad over a [World] that holds
    the Prisma tables, the state of the remote shop and the list of the
    remote calls issued so far. *)

From Stdlib Require Import ZArith Ascii List Bool Lia.
From Stdlib Require String DecimalString HexadecimalString.
From Stdlib Require Decimal Hexadecimal DecimalN DecimalZ DecimalPos.
From stdpp Require Import base option list gmap strings.

(** ** JavaScript built-ins used by the handlers *)

Module JS.

(** [!!s] for a string that may be [undefined]/[null]: the empty string
    is falsy. *)
Definition truthy_str (o : option string) : bool :=
  match o with
  | Some s => negb (String.eqb s "")
  | None => false
  end.

(** [!!n] for a number that may be [undefined]/[null]: zero is falsy. *)
Definition truthy_num (o : option Z) : bool :=
  match o with
  | Some z => negb (z =? 0)%Z
  | None => false
  end.

(** [s || d] on strings. *)
Definition or_str (o : option string) (d : string) : string :=
  match o with
  | Some s => if String.eqb s "" then d else s
  | None => d
  end.

(** [s || null] on strings. *)
Definition or_null (o : option string) : option string :=
  match o with
  | Some s => if String.eqb s "" then None else Some s
  | None => None
  end.

(** [n || 0] on numbers. *)
Definition or_zero (o : option Z) : Z :=
  match o with
  | Some z => z
  | None => 0%Z
  end.

(** [Number.MAX_SAFE_INTEGER] and [Number.isSafeInteger]: the integers a
    JS number holds exactly. *)
Definition MAX_SAFE_INTEGER : Z := 2 ^ 53 - 1.

Definition isSafeInteger (z : Z) : bool :=
  (- MAX_SAFE_INTEGER <=? z)%Z && (z <=? MAX_SAFE_INTEGER)%Z.

(** [Number.prototype.toString] on a safe integer: decimal digits, with a
    leading minus sign for a negative number.  Beyond the safe integers
    a JS number is rounded, and from [1e21] it prints in exponent form:
    the definition does not follow it there, and what is stated through
    it is stated for safe integers. *)
Definition toString (z : Z) : string :=
  DecimalString.NilZero.string_of_int (Z.to_int z).

Definition is_space (c : ascii) : bool :=
  match c with
  | " "%char | "009"%char | "010"%char | "011"%char | "012"%char
  | "013"%char => true
  | _ => false
  end.

Definition is_digit (c : ascii) : bool :=
  match c with
  | "0"%char | "1"%char | "2"%char | "3"%char | "4"%char
  | "5"%char | "6"%char | "7"%char | "8"%char | "9"%char => true
  | _ => false
  end.

Definition lower (c : ascii) : ascii :=
  let n := nat_of_ascii c in
  if (Nat.leb 65 n && Nat.leb n 90) then ascii_of_nat (n + 32) else c.

Definition is_hex_digit (c : ascii) : bool :=
  is_digit c || (
   let n := nat_of_ascii (lower c) in (Nat.leb 97 n && Nat.leb n 102)).

Fixpoint skip_spaces (s : string) : string :=
  match s with
  | String c r => if is_space c then skip_spaces r else s
  | EmptyString => s
  end.

(** The longest prefix of [s] whose characters satisfy [ok]. *)
Fixpoint take_while (ok : ascii -> bool) (s : string) : string :=
  match s with
  | String c r => if ok c then String c (take_while ok r) else EmptyString
  | EmptyString => EmptyString
  end.

Fixpoint map_string (f : ascii -> ascii) (s : string) : string :=
  match s with
  | String c r => String (f c) (map_string f r)
  | EmptyString => EmptyString
  end.

Definition parse_decimal (s : string) : option Z :=
  match take_while is_digit s with
  | EmptyString => None
  | ds => (fun u => Z.of_N (N.of_uint u)) <$> DecimalString.NilEmpty.uint_of_string ds
  end.

Definition parse_hex (s : string) : option Z :=
  match take_while is_hex_digit s with
  | EmptyString => None
  | ds => (fun u => Z.of_N (N.of_hex_uint u))
            <$> HexadecimalString.NilEmpty.uint_of_string (map_string lower ds)
  end.

(** The digits after the optional sign: a [0x]/[0X] prefix selects
    radix 16, anything else radix 10. *)
Definition parse_magnitude (s : string) : option Z :=
  match s with
  | String "0"%char (String x r) =>
      if Ascii.eqb (lower x) "x"%char then parse_hex r else parse_decimal s
  | _ => parse_decimal s
  end.

(** [parseInt(s)] with no radix argument; [None] stands for [NaN].  The
    result is exact here; [parseInt] rounds a number beyond the safe
    integers to a double, so the definition follows it on the strings
    whose digits denote a safe integer. *)
Definition parseInt (s : string) : option Z :=
  match skip_spaces s with
  | String "-"%char r => Z.opp <$> parse_magnitude r
  | String "+"%char r => parse_magnitude r
  | t => parse_magnitude t
  end.

End JS.


(** ** Data model *)

(** JavaScript's [number] for prices: Prisma's [Float] column, the result
    of [parseFloat] and the product [price * quantity].  Floating point is
    left abstract. *)
Class FloatOps := {
  float : Type;
  parseFloat : string -> float;
  float_mul : float -> Z -> float
}.

(** Prisma's [ObjectId] strings, drawn here from a counter of the store. *)
Definition oid := nat.

(** The [externalIds] JSON object, for instance [{"shopify": "1234567890"}]. *)
Abbreviation ExternalIds := (gmap string string).

(** The integration's [settings] JSON object ([ShopifySettings]); a field
    that is absent is [None]. *)
Record ShopifySettings := {
  shopName : option string;
  apiKey : option string;
  apiSecret : option string;
  apiVersion : option string;
  accessToken : option string
}.

(** model IntegrationSettings *)
Record IntegrationSettings := {
  integrationType : string;
  isEnabled : bool;
  settings : ShopifySettings
}.

(** model ProductType *)
Record ProductType := {
  pt_id : oid;
  pt_name : string;
  pt_description : option string
}.

(** model SKU *)
Record SKU := {
  sku_id : oid;
  sku_code : string
}.

(** The client built by [new Shopify({shopName, accessToken, apiVersion})]. *)
Record Client := {
  c_shopName : string;
  c_accessToken : string;
  c_apiVersion : string
}.

(** A variant of a remote product, as the platform returns it. *)
Record Variant := {
  v_price : option string;
  v_barcode : option string;
  v_inventory_item_id : option Z;
  v_inventory_quantity : option Z
}.

(** A remote product, as the platform returns it ([image] is [image?.src]). *)
Record ShopifyProduct := {
  sp_id : Z;
  sp_title : string;
  sp_body_html : option string;
  sp_product_type : option string;
  sp_variants : list Variant;
  sp_image : option string
}.

Record InventoryLevel := {
  il_location_id : Z;
  il_available : option Z
}.

(** The parsed body of a webhook notification: [data.id], [data.title]
    and [data.body_html].  [None] is [undefined]; for [body_html],
    [Some None] is [null]. *)
Record WebhookData := {
  d_id : option Z;
  d_title : option string;
  d_body_html : option (option string)
}.

(** [crypto.createHmac('sha256', secret).update(body).digest('base64')] and
    [JSON.parse] ([None]: a [SyntaxError] is thrown). *)
Class Runtime := {
  hmac_sha256_base64 : string -> string -> string;
  JSON_parse : string -> option WebhookData
}.

Section Model.
Context `{FloatOps}.

(** model Product *)
Record Product := {
  p_id : oid;
  p_name : string;
  p_description : option string;
  p_barcode : option string;
  p_imageUrl : option string;
  p_price : float;
  p_stockCount : Z;
  p_productTypeId : oid;
  p_skuId : option oid;
  p_externalIds : option ExternalIds
}.

(** A product with the relations of [include: {productType, sku}]
    ([ProductWithExternalIds]). *)
Record ProductWithExternalIds := {
  base : Product;
  productType : option ProductType;
  sku : option SKU
}.

(** model Sale (the dates are left out) *)
Record Sale := {
  sale_id : oid;
  sale_productId : oid;
  sale_quantity : Z;
  sale_totalPrice : float
}.

(** The [data] of [prisma.product.update]: a field left out of the
    object is [None] and is not written. *)
Record ProductUpdateInput := {
  set_name : option string;
  set_description : option (option string);
  set_price : option float;
  set_stockCount : option Z;
  set_barcode : option (option string);
  set_externalIds : option ExternalIds
}.

(** The [data] of [prisma.product.create] in the import. *)
Record ProductCreateInput := {
  new_name : string;
  new_description : option string;
  new_price : float;
  new_stockCount : Z;
  new_barcode : option string;
  new_productTypeId : oid;
  new_imageUrl : option string;
  new_externalIds : ExternalIds
}.

(** What [mapToShopifyProduct] builds. *)
Record VariantInput := {
  vi_price : float;
  vi_sku : string;
  vi_inventory_quantity : Z;
  vi_inventory_management : string
}.

Record ShopifyProductInput := {
  in_title : string;
  in_body_html : string;
  in_vendor : string;
  in_product_type : string;
  in_barcode : string;
  in_published : bool;
  in_variants : list VariantInput;
  in_images : list string
}.

(** The calls of the remote client, as the engine issues them.  An id
    that went through [parseInt] is [None] when it is [NaN]. *)
Inductive RemoteCall :=
| Call_product_create (data : ShopifyProductInput)
| Call_product_update (id : option Z) (data : ShopifyProductInput)
| Call_product_get (id : option Z)
| Call_product_list (limit : Z)
| Call_inventoryLevel_list (inventory_item_ids : option Z)
| Call_inventoryLevel_set (inventory_item_id : option Z) (location_id : Z)
    (available : Z).

(** The remote platform behind the [shopify-api-node] client: each call
    answers from the platform's state [R] and moves it; [None] is a
    rejected promise. *)
Class ShopifyApi := {
  R : Type;
  product_create : Client -> ShopifyProductInput -> R -> option ShopifyProduct * R;
  product_update : Client -> option Z -> ShopifyProductInput -> R -> option ShopifyProduct * R;
  product_get : Client -> option Z -> R -> option ShopifyProduct * R;
  product_list : Client -> Z -> R -> option (list ShopifyProduct) * R;
  inventoryLevel_list : Client -> option Z -> R -> option (list InventoryLevel) * R;
  inventoryLevel_set : Client -> option Z -> Z -> Z -> R -> option InventoryLevel * R
}.

Context `{ShopifyApi}.

(** ** The world: the Prisma tables, the remote platform, the calls issued *)
Record World := {
  products : list Product;
  productTypes : list ProductType;
  skus : list SKU;
  sales : list Sale;
  integrationSettings : list IntegrationSettings;
  next_oid : oid;
  remote : R;
  calls : list RemoteCall
}.

Definition with_products (ps : list Product) (w : World) : World :=
  {| products := ps; productTypes := productTypes w; skus := skus w;
     sales := sales w; integrationSettings := integrationSettings w;
     next_oid := next_oid w; remote := remote w; calls := calls w |}.

Definition with_productTypes (ts : list ProductType) (w : World) : World :=
  {| products := products w; productTypes := ts; skus := skus w;
     sales := sales w; integrationSettings := integrationSettings w;
     next_oid := next_oid w; remote := remote w; calls := calls w |}.

Definition with_sales (ss : list Sale) (w : World) : World :=
  {| products := products w; productTypes := productTypes w; skus := skus w;
     sales := ss; integrationSettings := integrationSettings w;
     next_oid := next_oid w; remote := remote w; calls := calls w |}.

Definition with_next_oid (n : oid) (w : World) : World :=
  {| products := products w; productTypes := productTypes w; skus := skus w;
     sales := sales w; integrationSettings := integrationSettings w;
     next_oid := n; remote := remote w; calls := calls w |}.

Definition with_remote (r : R) (c : RemoteCall) (w : World) : World :=
  {| products := products w; productTypes := productTypes w; skus := skus w;
     sales := sales w; integrationSettings := integrationSettings w;
     next_oid := next_oid w; remote := r; calls := calls w ++ [c] |}.

(** ** The monad of the handlers: state, and exceptions that keep it *)
Inductive Outcome (A : Type) :=
| Return (a : A)
| Throw (message : string).
Global Arguments Return {A} a.
Global Arguments Throw {A} message.

Definition M (A : Type) : Type := World -> Outcome A * World.

Definition ret {A} (a : A) : M A := fun w => (Return a, w).

Definition throw {A} (message : string) : M A := fun w => (Throw message, w).

Definition bind {A B} (m : M A) (k : A -> M B) : M B :=
  fun w =>
    match m w with
    | (Return a, w') => k a w'
    | (Throw e, w') => (Throw e, w')
    end.

(** [try { m } catch (error) { handler }] *)
Definition try_catch {A} (m : M A) (handler : string -> M A) : M A :=
  fun w =>
    match m w with
    | (Return a, w') => (Return a, w')
    | (Throw e, w') => handler e w'
    end.

End Model.

Notation "'let!' x ':=' m 'in' k" := (bind m (fun x => k))
  (at level 10, x pattern, m at level 100, k at level 200).
Notation "m ';;' k" := (bind m (fun _ => k))
  (at level 100, k at level 200, right associativity).

(** ** The Prisma client

    Reads by id, by barcode and of a whole table do not fail.  [update]
    throws when no record has the id, [update] and [create] throw when they would give a product the barcode another
    product holds ([barcode String? @unique]; [null] is held by nobody). *)

Section Prisma.
Context `{FloatOps} `{!ShopifyApi}.

Definition same_str (a : option string) (b : string) : bool :=
  match a with
  | Some s => String.eqb s b
  | None => false
  end.

(** [exIds.shopify === shopifyId] on a product: [false] when
    [externalIds] is [null].  (The import also accepts a mapping stored as
    a JSON string and parses it first; the code never stores one, and the
    mapping is an object here.) *)
Definition has_shopify_id (shopifyId : string) (p : Product) : bool :=
  match p_externalIds p with
  | Some exIds => same_str (exIds !! "shopify") shopifyId
  | None => false
  end.

Definition apply_update (u : ProductUpdateInput) (p : Product) : Product :=
  {| p_id := p_id p;
     p_name := default (p_name p) (set_name u);
     p_description := default (p_description p) (set_description u);
     p_barcode := default (p_barcode p) (set_barcode u);
     p_imageUrl := p_imageUrl p;
     p_price := default (p_price p) (set_price u);
     p_stockCount := default (p_stockCount p) (set_stockCount u);
     p_productTypeId := p_productTypeId p;
     p_skuId := p_skuId p;
     p_externalIds :=
       match set_externalIds u with
       | Some m => Some m
       | None => p_externalIds p
       end |}.

(** Another product than [self] holds the barcode [b]. *)
Definition barcode_taken (self : option oid) (b : option string)
    (ps : list Product) : bool :=
  match b with
  | Some code =>
      existsb (fun q => same_str (p_barcode q) code
                        && negb (bool_decide (Some (p_id q) = self))) ps
  | None => false
  end.

Definition replace_product (p' : Product) (ps : list Product) : list Product :=
  map (fun q => if Nat.eqb (p_id q) (p_id p') then p' else q) ps.

(** [prisma.product.findMany()] *)
Definition prisma_product_findMany : M (list Product) :=
  fun w => (Return (products w), w).

(** [prisma.product.findUnique({ where: { id } })] *)
Definition prisma_product_findUnique (id : oid) : M (option Product) :=
  fun w => (Return (find (fun p => Nat.eqb (p_id p) id) (products w)), w).

(** [prisma.product.findUnique({ where: { barcode } })] *)
Definition prisma_product_findUnique_barcode (barcode : string)
    : M (option Product) :=
  fun w => (Return (find (fun p => same_str (p_barcode p) barcode) (products w)), w).

(** [prisma.product.findFirst({ where: { externalIds:
      { path: ['shopify'], equals: shopifyProductId } } })].
    The datasource of the schema is MongoDB ([provider = "mongodb"]),
    where the filter of a [Json] field has no [path]: the client rejects
    the query, and the call throws before anything is read.  (The import
    says so, "For MongoDB, fetch all products and filter manually", and
    scans [findMany()] with [has_shopify_id] instead.) *)
Definition prisma_product_findFirst_shopify (shopifyProductId : string)
    : M (option Product) :=
  throw "Invalid `prisma.product.findFirst()` invocation: Unknown argument `path`".

(** [prisma.product.update({ where: { id }, data })] *)
Definition prisma_product_update (id : oid) (data : ProductUpdateInput)
    : M Product :=
  fun w =>
    match find (fun p => Nat.eqb (p_id p) id) (products w) with
    | None => (Throw "Record to update not found.", w)
    | Some p =>
        if match set_barcode data with
           | Some b => barcode_taken (Some id) b (products w)
           | None => false
           end
        then (Throw "Unique constraint failed on the fields: (`barcode`)", w)
        else
          let p' := apply_update data p in
          (Return p', with_products (replace_product p' (products w)) w)
    end.

(** [prisma.product.create({ data })] *)
Definition prisma_product_create (data : ProductCreateInput) : M Product :=
  fun w =>
    if barcode_taken None (new_barcode data) (products w)
    then (Throw "Unique constraint failed on the fields: (`barcode`)", w)
    else
      let p := {| p_id := next_oid w;
                  p_name := new_name data;
                  p_description := new_description data;
                  p_barcode := new_barcode data;
                  p_imageUrl := new_imageUrl data;
                  p_price := new_price data;
                  p_stockCount := new_stockCount data;
                  p_productTypeId := new_productTypeId data;
                  p_skuId := None;
                  p_externalIds := Some (new_externalIds data) |} in
      (Return p,
       with_next_oid (S (next_oid w)) (with_products (products w ++ [p]) w)).

(** [prisma.productType.findFirst({ where: { name } })] *)
Definition prisma_productType_findFirst (name : string)
    : M (option ProductType) :=
  fun w => (Return (find (fun t => String.eqb (pt_name t) name) (productTypes w)), w).

(** [prisma.productType.create({ data: { name, description } })] *)
Definition prisma_productType_create (name description : string)
    : M ProductType :=
  fun w =>
    if existsb (fun t => String.eqb (pt_name t) name) (productTypes w)
    then (Throw "Unique constraint failed on the fields: (`name`)", w)
    else
      let t := {| pt_id := next_oid w; pt_name := name;
                  pt_description := Some description |} in
      (Return t,
       with_next_oid (S (next_oid w))
         (with_productTypes (productTypes w ++ [t]) w)).

(** [include: { productType: true, sku: true }] *)
Definition include_relations (p : Product) : M ProductWithExternalIds :=
  fun w =>
    (Return {| base := p;
               productType :=
                 find (fun t => Nat.eqb (pt_id t) (p_productTypeId p)) (productTypes w);
               sku :=
                 match p_skuId p with
                 | Some k => find (fun s => Nat.eqb (sku_id s) k) (skus w)
                 | None => None
                 end |}, w).

(** [prisma.sale.create({ data: { productId, quantity, totalPrice } })] *)
Definition prisma_sale_create (productId : oid) (quantity : Z)
    (totalPrice : float) : M Sale :=
  fun w =>
    let s := {| sale_id := next_oid w; sale_productId := productId;
                sale_quantity := quantity; sale_totalPrice := totalPrice |} in
    (Return s, with_next_oid (S (next_oid w)) (with_sales (sales w ++ [s]) w)).

(** [prisma.$transaction(async (tx) => body)]: a throw inside undoes the
    writes of the body. *)
Definition prisma_transaction {A} (body : M A) : M A :=
  fun w =>
    match body w with
    | (Return a, w') => (Return a, w')
    | (Throw e, _) => (Throw e, w)
    end.

(** A call of the remote client: the call is recorded, the platform
    answers and moves. *)
Definition remote_call {A} (c : RemoteCall) (f : R -> option A * R) : M A :=
  fun w =>
    match f (remote w) with
    | (Some a, r') => (Return a, with_remote r' c w)
    | (None, r') => (Throw "Shopify request failed", with_remote r' c w)
    end.

End Prisma.

(** ** The sync engine: [src/services/shopifyIntegration.ts] *)

Section Engine.
Context `{FloatOps} `{!ShopifyApi}.

(** [getShopifySettings]: the row of [integrationType: 'shopify'], or
    [null]. *)
Definition getShopifySettings : M (option IntegrationSettings) :=
  fun w =>
    (Return (find (fun s => String.eqb (integrationType s) "shopify")
               (integrationSettings w)), w).

(** [getShopifyClient]: [null] when the integration is missing or
    disabled, or when a credential is missing. *)
Definition getShopifyClient : M (option Client) :=
  try_catch
    (let! shopifySettings := getShopifySettings in
     match shopifySettings with
     | None => ret None
     | Some s =>
         if negb (isEnabled s) then ret None
         else if negb (JS.truthy_str (shopName (settings s)))
                 || negb (JS.truthy_str (accessToken (settings s)))
         then ret None
         else ret (Some {| c_shopName := JS.or_str (shopName (settings s)) "";
                           c_accessToken := JS.or_str (accessToken (settings s)) "";
                           c_apiVersion := JS.or_str (apiVersion (settings s)) "2023-10" |})
     end)
    (fun _ => ret None).

(** [mapToShopifyProduct] *)
Definition mapToShopifyProduct (product : ProductWithExternalIds)
    : ShopifyProductInput :=
  {| in_title := p_name (base product);
     in_body_html := JS.or_str (p_description (base product)) "";
     in_vendor := "Default Vendor";
     in_product_type := JS.or_str (pt_name <$> productType product) "Default";
     in_barcode := JS.or_str (p_barcode (base product)) "";
     in_published := true;
     in_variants :=
       [ {| vi_price := p_price (base product);
            vi_sku := JS.or_str (sku_code <$> sku product) "";
            vi_inventory_quantity := p_stockCount (base product);
            vi_inventory_management := "shopify" |} ];
     in_images :=
       match p_imageUrl (base product) with
       | Some src => if JS.truthy_str (Some src) then [src] else []
       | None => []
       end |}.

(** [syncProductToShopify]: update the remote product when the product
    carries a Shopify id, otherwise create it and save the new id. *)
Definition syncProductToShopify (product : ProductWithExternalIds) : M bool :=
  try_catch
    (let! shopify := getShopifyClient in
     match shopify with
     | None => ret false
     | Some client =>
         let externalIds := default ∅ (p_externalIds (base product)) in
         let shopifyProductId := externalIds !! "shopify" in
         let shopifyProduct := mapToShopifyProduct product in
         if JS.truthy_str shopifyProductId then
           let id := JS.parseInt (default "" shopifyProductId) in
           remote_call (Call_product_update id shopifyProduct)
             (product_update client id shopifyProduct) ;;
           ret true
         else
           let! newProduct :=
             remote_call (Call_product_create shopifyProduct)
               (product_create client shopifyProduct) in
           (if JS.truthy_num (Some (sp_id newProduct)) then
              prisma_product_update (p_id (base product))
                {| set_name := None; set_description := None;
                   set_price := None; set_stockCount := None;
                   set_barcode := None;
                   set_externalIds :=
                     Some (<["shopify" := JS.toString (sp_id newProduct)]> externalIds) |} ;;
              ret tt
            else ret tt) ;;
           ret true
     end)
    (fun _ => ret false).

(** [syncInventoryToShopify] *)
Definition syncInventoryToShopify (productId : oid) (quantity : Z) : M bool :=
  try_catch
    (let! shopify := getShopifyClient in
     match shopify with
     | None => ret false
     | Some client =>
         let! product := prisma_product_findUnique productId in
         let shopifyProductId :=
           match product with
           | Some p =>
               match p_externalIds p with
               | Some exIds => exIds !! "shopify"
               | None => None
               end
           | None => None
           end in
         if negb (JS.truthy_str shopifyProductId) then ret false
         else
           let id := JS.parseInt (default "" shopifyProductId) in
           let! shopifyProduct :=
             remote_call (Call_product_get id) (product_get client id) in
           match sp_variants shopifyProduct with
           | [] => ret false
           | variant :: _ =>
               let inventoryItemId := v_inventory_item_id variant in
               let! inventoryLevels :=
                 remote_call (Call_inventoryLevel_list inventoryItemId)
                   (inventoryLevel_list client inventoryItemId) in
               match inventoryLevels with
               | [] => ret false
               | level :: _ =>
                   let location_id := il_location_id level in
                   remote_call
                     (Call_inventoryLevel_set inventoryItemId location_id quantity)
                     (inventoryLevel_set client inventoryItemId location_id quantity) ;;
                   ret true
               end
           end
     end)
    (fun _ => ret false).

(** The result of [importProductsFromShopify]. *)
Record ImportResult := {
  success : bool;
  total : nat;
  imported : nat;
  failed : nat;
  updated : nat
}.

Inductive ImportOutcome := Imported | Updated.

(** The barcode of a product the import creates (the [else] branch of
    the loop body): the remote barcode when nobody holds it, the barcode
    followed by the Shopify id when somebody does, and a barcode made of
    the Shopify id when the remote product has none. *)
Definition uniqueBarcode (barcode : option string) (shopifyId : string)
    : M (option string) :=
  match barcode with
  | Some b =>
      let! existingProduct := prisma_product_findUnique_barcode b in
      match existingProduct with
      | Some _ => ret (Some (b +:+ "-" +:+ shopifyId))
      | None => ret (Some b)
      end
  | None => ret (Some ("shopify-" +:+ shopifyId))
  end.

(** The body of the [for] loop of [importProductsFromShopify], inside
    its [try]. *)
Definition import_product (client : Client) (shopifyProduct : ShopifyProduct)
    : M ImportOutcome :=
  let shopifyId := JS.toString (sp_id shopifyProduct) in
  let! products := prisma_product_findMany in
  let existingProduct := find (has_shopify_id shopifyId) products in
  let typeName := JS.or_str (sp_product_type shopifyProduct) "General" in
  let! productType := prisma_productType_findFirst typeName in
  let! productTypeId :=
    match productType with
    | Some t => ret (pt_id t)
    | None =>
        let! newProductType :=
          prisma_productType_create typeName
            ("Imported from Shopify: " +:+ typeName) in
        ret (pt_id newProductType)
    end in
  let firstVariant := head (sp_variants shopifyProduct) in
  let! stockCount :=
    try_catch
      (let inventoryItemId :=
         match firstVariant with
         | Some v => v_inventory_item_id v
         | None => None
         end in
       if JS.truthy_num inventoryItemId then
         let! inventoryLevels :=
           remote_call (Call_inventoryLevel_list inventoryItemId)
             (inventoryLevel_list client inventoryItemId) in
         match inventoryLevels with
         | level :: _ => ret (JS.or_zero (il_available level))
         | [] => ret 0%Z
         end
       else ret 0%Z)
      (fun _ => ret 0%Z) in
  let price :=
    parseFloat (JS.or_str (match firstVariant with
                           | Some v => v_price v
                           | None => None
                           end) "0") in
  let barcode :=
    JS.or_null (match firstVariant with
                | Some v => v_barcode v
                | None => None
                end) in
  match existingProduct with
  | Some existing =>
      prisma_product_update (p_id existing)
        {| set_name := Some (sp_title shopifyProduct);
           set_description := Some (sp_body_html shopifyProduct);
           set_price := Some price;
           set_stockCount := Some stockCount;
           set_barcode := Some barcode;
           set_externalIds := Some {[ "shopify" := shopifyId ]} |} ;;
      ret Updated
  | None =>
      let! unique := uniqueBarcode barcode shopifyId in
      prisma_product_create
        {| new_name := sp_title shopifyProduct;
           new_description := sp_body_html shopifyProduct;
           new_price := price;
           new_stockCount := stockCount;
           new_barcode := unique;
           new_productTypeId := productTypeId;
           new_imageUrl := JS.or_null (sp_image shopifyProduct);
           new_externalIds := {[ "shopify" := shopifyId ]} |} ;;
      ret Imported
  end.

(** The [for] loop with its three counters. *)
Fixpoint import_loop (client : Client) (shopifyProducts : list ShopifyProduct)
    (imported failed updated : nat) : M (nat * nat * nat) :=
  match shopifyProducts with
  | [] => ret (imported, failed, updated)
  | shopifyProduct :: rest =>
      let! outcome :=
        try_catch (let! o := import_product client shopifyProduct in ret (Some o))
                  (fun _ => ret None) in
      match outcome with
      | Some Imported => import_loop client rest (S imported) failed updated
      | Some Updated => import_loop client rest imported failed (S updated)
      | None => import_loop client rest imported (S failed) updated
      end
  end.

(** [importProductsFromShopify] *)
Definition importProductsFromShopify : M ImportResult :=
  let nothing := {| success := false; total := 0; imported := 0;
                    failed := 0; updated := 0 |} in
  try_catch
    (let! shopify := getShopifyClient in
     match shopify with
     | None => ret nothing
     | Some client =>
         let limit := 50%Z in
         let! shopifyProducts :=
           remote_call (Call_product_list limit) (product_list client limit) in
         let! counters := import_loop client shopifyProducts 0 0 0 in
         let '(imported, failed, updated) := counters in
         ret {| success := true; total := length shopifyProducts;
                imported := imported; failed := failed; updated := updated |}
     end)
    (fun _ => ret nothing).

End Engine.

(** ** The route handlers *)

Section Routes.
Context `{FloatOps} `{!ShopifyApi} `{Runtime}.

(** The body of a [NextResponse.json(...)]. *)
Inductive Json :=
| Json_error (error : string)
| Json_success
| Json_sale (sale : Sale).

Record Response := {
  status : nat;
  json : Json
}.

(** An inbound webhook request: the three headers ([None] when
    [headers.get] gives [null]) and the raw body. *)
Record WebhookRequest := {
  x_shopify_hmac_sha256 : option string;
  x_shopify_shop_domain : option string;
  x_shopify_topic : option string;
  raw_body : string
}.

(** [handleProductUpdate] *)
Definition handleProductUpdate (data : WebhookData) : M unit :=
  try_catch
    (match d_id data with
     | None => throw "Cannot read properties of undefined (reading 'toString')"
     | Some id =>
         let shopifyProductId := JS.toString id in
         let! product := prisma_product_findFirst_shopify shopifyProductId in
         match product with
         | None => ret tt
         | Some p =>
             prisma_product_update (p_id p)
               {| set_name := d_title data;
                  set_description := d_body_html data;
                  set_price := None; set_stockCount := None;
                  set_barcode := None; set_externalIds := None |} ;;
             ret tt
         end
     end)
    (fun _ => ret tt).

(** [handleProductDelete] *)
Definition handleProductDelete (data : WebhookData) : M unit :=
  try_catch
    (match d_id data with
     | None => throw "Cannot read properties of undefined (reading 'toString')"
     | Some id =>
         let shopifyProductId := JS.toString id in
         let! product := prisma_product_findFirst_shopify shopifyProductId in
         match product with
         | None => ret tt
         | Some p =>
             prisma_product_update (p_id p)
               {| set_name := None; set_description := None;
                  set_price := None; set_stockCount := None;
                  set_barcode := None; set_externalIds := Some ∅ |} ;;
             ret tt
         end
     end)
    (fun _ => ret tt).

(** [handleInventoryUpdate]: it only logs. *)
Definition handleInventoryUpdate (data : WebhookData) : M unit :=
  try_catch (ret tt) (fun _ => ret tt).

(** [crypto.createHmac('sha256', secret)] throws when the key is
    [undefined]. *)
Definition createHmac_digest (secret : option string) (body : string)
    : M string :=
  match secret with
  | Some key => ret (hmac_sha256_base64 key body)
  | None => throw "The key argument must be of type string"
  end.

(** [POST] of the webhook route. *)
Definition webhook_POST (req : WebhookRequest) : M Response :=
  try_catch
    (let! shopifySettings := getShopifySettings in
     match shopifySettings with
     | None =>
         ret {| status := 400; json := Json_error "Shopify integration not enabled" |}
     | Some s =>
         if negb (isEnabled s) then
           ret {| status := 400; json := Json_error "Shopify integration not enabled" |}
         else
           let hmacHeader := x_shopify_hmac_sha256 req in
           let shopifyDomain := x_shopify_shop_domain req in
           if negb (JS.truthy_str hmacHeader) || negb (JS.truthy_str shopifyDomain)
           then ret {| status := 401; json := Json_error "Invalid webhook request" |}
           else
             let body := raw_body req in
             let secret := apiSecret (settings s) in
             let! hash := createHmac_digest secret body in
             if negb (same_str hmacHeader hash) then
               ret {| status := 401; json := Json_error "Invalid webhook signature" |}
             else
               let! data :=
                 match JSON_parse body with
                 | Some d => ret d
                 | None => throw "Unexpected token in JSON"
                 end in
               let topic := x_shopify_topic req in
               (if same_str topic "products/update" then handleProductUpdate data
                else if same_str topic "products/delete" then handleProductDelete data
                else if same_str topic "inventory_levels/update"
                     then handleInventoryUpdate data
                else ret tt) ;;
               ret {| status := 200; json := Json_success |}
     end)
    (fun _ => ret {| status := 500; json := Json_error "Failed to process webhook" |}).

(** The request of the sale route: whether [getServerSession] gives a
    session, and the [productId] and [quantity] of the JSON body. *)
Record SaleRequest := {
  session : bool;
  productId : option oid;
  quantity : option Z
}.

(** The transaction of the sale route; it returns
    [{ sale, updatedProduct }]. *)
Definition sale_transaction (productId : oid) (quantity : Z)
    : M (Sale * ProductWithExternalIds) :=
  prisma_transaction
    (let! product := prisma_product_findUnique productId in
     match product with
     | None => throw "Product not found"
     | Some product =>
         if (p_stockCount product <? quantity)%Z
         then throw "Not enough stock available"
         else
           let totalPrice := float_mul (p_price product) quantity in
           let! sale := prisma_sale_create productId quantity totalPrice in
           let! updated :=
             prisma_product_update productId
               {| set_name := None; set_description := None;
                  set_price := None;
                  set_stockCount := Some (p_stockCount product - quantity)%Z;
                  set_barcode := None; set_externalIds := None |} in
           let! updatedProduct := include_relations updated in
           ret (sale, updatedProduct)
     end).

(** [POST] of the sale route. *)
Definition sales_POST (req : SaleRequest) : M Response :=
  try_catch
    (if negb (session req) then
       ret {| status := 401; json := Json_error "Unauthorized" |}
     else
       match productId req, quantity req with
       | Some productId, Some quantity =>
           if (quantity <? 1)%Z then
             ret {| status := 400;
                    json := Json_error "Product ID and quantity are required. Quantity must be at least 1." |}
           else
             let! result := sale_transaction productId quantity in
             try_catch
               (let! shopifySettings := getShopifySettings in
                match shopifySettings with
                | Some s =>
                    if isEnabled s
                    then syncProductToShopify (snd result) ;; ret tt
                    else ret tt
                | None => ret tt
                end)
               (fun _ => ret tt) ;;
             ret {| status := 201; json := Json_sale (fst result) |}
       | _, _ =>
           ret {| status := 400;
                  json := Json_error "Product ID and quantity are required. Quantity must be at least 1." |}
       end)
    (fun message =>
       ret {| status := if String.eqb message "Not enough stock available"
                        then 400 else 500;
              json := Json_error (if String.eqb message "" then "Failed to create sale"
                                  else message) |}).

End Routes.

(** ** A small platform to run the handlers on

    A stand-in for the remote shop and for the runtime, used to evaluate
    the handlers on concrete inputs: prices are integers, the shop keeps
    its catalog in a list and numbers the products it creates, the digest
    is the key followed by the body, and a body parses to the id written
    in it (with a fixed title and an HTML body). *)

Module Mock.

#[export] Instance float_ops : FloatOps :=
  {| float := Z;
     parseFloat := fun s => default 0%Z (JS.parseInt s);
     float_mul := Z.mul |}.

Record Shop := {
  online : bool;
  catalog : list ShopifyProduct;
  levels : list (Z * InventoryLevel);
  next_id : positive
}.

Definition same_id (id : option Z) (p : ShopifyProduct) : bool :=
  bool_decide (id = Some (sp_id p)).

Definition create (c : Client) (d : ShopifyProductInput) (s : Shop)
    : option ShopifyProduct * Shop :=
  if online s then
    let id := Z.pos (next_id s) in
    let qty := default 0%Z (vi_inventory_quantity <$> head (in_variants d)) in
    let p := {| sp_id := id; sp_title := in_title d;
                sp_body_html := Some (in_body_html d);
                sp_product_type := Some (in_product_type d);
                sp_variants :=
                  [ {| v_price := None; v_barcode := Some (in_barcode d);
                       v_inventory_item_id := Some (id + 1000)%Z;
                       v_inventory_quantity := Some qty |} ];
                sp_image := head (in_images d) |} in
    (Some p,
     {| online := true; catalog := catalog s ++ [p];
        levels := levels s ++ [((id + 1000)%Z,
                                {| il_location_id := 1; il_available := Some qty |})];
        next_id := Pos.succ (next_id s) |})
  else (None, s).

Definition update (c : Client) (id : option Z) (d : ShopifyProductInput)
    (s : Shop) : option ShopifyProduct * Shop :=
  if online s then
    match find (same_id id) (catalog s) with
    | Some p =>
        let p' := {| sp_id := sp_id p; sp_title := in_title d;
                     sp_body_html := Some (in_body_html d);
                     sp_product_type := Some (in_product_type d);
                     sp_variants := sp_variants p;
                     sp_image := sp_image p |} in
        (Some p',
         {| online := true;
            catalog := map (fun q => if same_id id q then p' else q) (catalog s);
            levels := levels s; next_id := next_id s |})
    | None => (None, s)
    end
  else (None, s).

Definition get (c : Client) (id : option Z) (s : Shop)
    : option ShopifyProduct * Shop :=
  if online s then (find (same_id id) (catalog s), s) else (None, s).

Definition list_page (c : Client) (limit : Z) (s : Shop)
    : option (list ShopifyProduct) * Shop :=
  if online s then (Some (take (Z.to_nat limit) (catalog s)), s) else (None, s).

Definition level_list (c : Client) (item : option Z) (s : Shop)
    : option (list InventoryLevel) * Shop :=
  if online s
  then (Some (snd <$> filter (fun e => item = Some (fst e)) (levels s)), s)
  else (None, s).

Definition level_set (c : Client) (item : option Z) (location available : Z)
    (s : Shop) : option InventoryLevel * Shop :=
  if online s then
    let l := {| il_location_id := location; il_available := Some available |} in
    (Some l,
     {| online := true; catalog := catalog s;
        levels :=
          map (fun e => if bool_decide (item = Some (fst e)
                                        ∧ il_location_id (snd e) = location)
                        then (fst e, l) else e) (levels s);
        next_id := next_id s |})
  else (None, s).

#[export] Instance shopify_api : ShopifyApi :=
  {| R := Shop;
     product_create := create;
     product_update := update;
     product_get := get;
     product_list := list_page;
     inventoryLevel_list := level_list;
     inventoryLevel_set := level_set |}.

#[export] Instance runtime : Runtime :=
  {| hmac_sha256_base64 := fun key body => key +:+ ":" +:+ body;
     JSON_parse := fun body =>
       match JS.parseInt body with
       | Some id => Some {| d_id := Some id; d_title := Some "Renamed";
                            d_body_html := Some (Some "<p>new</p>") |}
       | None => None
       end |}.

Definition shopify_row (enabled : bool) : IntegrationSettings :=
  {| integrationType := "shopify"; isEnabled := enabled;
     settings := {| shopName := Some "demo-shop"; apiKey := Some "key";
                    apiSecret := Some "s3cret"; apiVersion := None;
                    accessToken := Some "token" |} |}.

Definition empty_shop : Shop :=
  {| online := true; catalog := []; levels := []; next_id := 900 |}.

(** A local product of type 1, with the given id, barcode, stock and
    external ids. *)
Definition local (id : oid) (name : string) (barcode : option string)
    (stock : Z) (exIds : option ExternalIds) : Product :=
  {| p_id := id; p_name := name; p_description := Some "text";
     p_barcode := barcode; p_imageUrl := None; p_price := 25%Z;
     p_stockCount := stock; p_productTypeId := 1; p_skuId := None;
     p_externalIds := exIds |}.

(** A remote product with one variant. *)
Definition listing (id : Z) (title : string) (barcode : option string)
    : ShopifyProduct :=
  {| sp_id := id; sp_title := title; sp_body_html := Some "<p>text</p>";
     sp_product_type := Some "General";
     sp_variants := [ {| v_price := Some "12"; v_barcode := barcode;
                         v_inventory_item_id := Some (id + 1000)%Z;
                         v_inventory_quantity := Some 4%Z |} ];
     sp_image := None |}.

Definition world (ps : list Product) (shop : Shop) : World :=
  {| products := ps;
     productTypes := [ {| pt_id := 1; pt_name := "General"; pt_description := None |} ];
     skus := []; sales := [];
     integrationSettings := [ shopify_row true ];
     next_oid := 100; remote := shop; calls := [] |}.

Definition shop_with (ps : list ShopifyProduct) : Shop :=
  {| online := true; catalog := ps;
     levels := map (fun p => ((sp_id p + 1000)%Z,
                              {| il_location_id := 1; il_available := Some 4%Z |})) ps;
     next_id := 900 |}.

End Mock.

(** ** Vocabulary of the specification *)

Section Vocabulary.
Context `{FloatOps} `{!ShopifyApi} `{Runtime}.

(** The primary key of the product table. *)
Definition unique_ids (ps : list Product) : bool :=
  bool_decide (NoDup (p_id <$> ps)).

(** A request that passes the checks of the webhook route: the
    integration is enabled, both headers are there and the digest of the
    raw body under the stored secret is the one supplied. *)
Definition verified (req : WebhookRequest) (w : World) : bool :=
  match find (fun s => String.eqb (integrationType s) "shopify")
             (integrationSettings w) with
  | Some s =>
      isEnabled s
      && JS.truthy_str (x_shopify_hmac_sha256 req)
      && JS.truthy_str (x_shopify_shop_domain req)
      && match apiSecret (settings s) with
         | Some secret =>
             same_str (x_shopify_hmac_sha256 req)
                      (hmac_sha256_base64 secret (raw_body req))
         | None => false
         end
  | None => false
  end.

(** Some local product records the remote id. *)
Definition linked (shopifyId : string) (w : World) : bool :=
  existsb (has_shopify_id shopifyId) (products w).

(** The ids of the product table are distinct and were drawn from the
    counter. *)
Definition wf_store (w : World) : Prop :=
  NoDup (p_id <$> products w)
  ∧ Forall (fun id => id < next_oid w) (p_id <$> products w).

(** The acknowledgement of a verified notification. *)
Definition acknowledged : Response :=
  {| status := 200; json := Json_success |}.

Definition is_product_list (c : RemoteCall) : bool :=
  match c with
  | Call_product_list _ => true
  | _ => false
  end.

Definition is_inventoryLevel_list (c : RemoteCall) : bool :=
  match c with
  | Call_inventoryLevel_list _ => true
  | _ => false
  end.

Definition is_inventoryLevel_set (c : RemoteCall) : bool :=
  match c with
  | Call_inventoryLevel_set _ _ _ => true
  | _ => false
  end.

(** The platform answers [product.list({ limit })] with at most [limit]
    products. *)
Definition honours_limit : Prop :=
  ∀ client limit r page r',
    product_list client limit r = (Some page, r') →
    length page ≤ Z.to_nat limit.

(** The platform gives every product it creates an id (a non-zero
    number). *)
Definition assigns_ids : Prop :=
  ∀ client data r created r',
    product_create client data r = (Some created, r') →
    sp_id created ≠ 0%Z.

(** The id the platform gives the product it creates from [data] in the
    state [r] is a safe integer, one that a JS number holds exactly. *)
Definition assigns_safe_id (data : ShopifyProductInput) (r : R) : Prop :=
  ∀ client created r',
    product_create client data r = (Some created, r') →
    JS.isSafeInteger (sp_id created) = true.

End Vocabulary.

(** ** Concrete inputs *)

Module Inputs.
Import Mock.

(** A notification with no digest header, and one with a wrong digest. *)
Definition unsigned_request : WebhookRequest :=
  {| x_shopify_hmac_sha256 := None;
     x_shopify_shop_domain := Some "demo-shop.myshopify.com";
     x_shopify_topic := Some "products/update";
     raw_body := "900" |}.

Definition forged_request : WebhookRequest :=
  {| x_shopify_hmac_sha256 := Some "bad-digest";
     x_shopify_shop_domain := Some "demo-shop.myshopify.com";
     x_shopify_topic := Some "products/update";
     raw_body := "900" |}.

(** A notification about the remote product 900, signed with the stored
    secret. *)
Definition signed_request (topic : string) : WebhookRequest :=
  {| x_shopify_hmac_sha256 := Some "s3cret:900";
     x_shopify_shop_domain := Some "demo-shop.myshopify.com";
     x_shopify_topic := Some topic;
     raw_body := "900" |}.

(** A product linked to the remote product 900, which also carries the
    id of another system, and an unlinked one. *)
Definition linked_widget : Product :=
  local 1 "Widget" (Some "A") 10
    (Some (<["shopify" := "900"]> {[ "woocommerce" := "77" ]})).

Definition gadget : Product := local 2 "Gadget" (Some "B") 3 None.

Definition linked_world : World :=
  world [linked_widget; gadget]
    (shop_with [listing 900 "Widget" (Some "A")]).

(** An unlinked product and an empty shop. *)
Definition fresh_world : World := world [gadget] empty_shop.

(** A local product holding barcode A, and a remote product 5 with the
    same barcode. *)
Definition widget : Product := local 1 "Widget" (Some "A") 10 None.

Definition collision_world : World :=
  world [widget] (shop_with [listing 5 "Remote widget" (Some "A")]).

(** The same, when the local store also holds the barcode A-5. *)
Definition double_collision_world : World :=
  world [widget; local 2 "Other" (Some "A-5") 1 None]
    (shop_with [listing 5 "Remote widget" (Some "A")]).


(** A shop of sixty products. *)
Definition big_shop : Shop :=
  shop_with ((fun n => listing (Z.of_nat n) "Item" None) <$> seq 1 60).

Definition big_world : World := world [] big_shop.

(** The client the factory builds from the settings row of the demo shop. *)
Definition demo_client : Client :=
  {| c_shopName := "demo-shop"; c_accessToken := "token";
     c_apiVersion := "2023-10" |}.

(** A sale of three units of product 1. *)
Definition sale_of_three : SaleRequest :=
  {| session := true; productId := Some 1; quantity := Some 3%Z |}.

End Inputs.

(** ** The rest of the engine

    [updateProductWithShopifyId], [deleteProductFromShopify],
    [saveShopifySettings] and [syncAllProductsToShopify]. *)

Section EngineRest.
Context `{FloatOps} `{!ShopifyApi}.

(** [shopify.product.delete(id)], the one call of the client that the
    functions above do not use.  It answers from the state of the platform
    and moves it like the others; it is not entered in [calls]. *)
Class ShopifyDeleteApi := {
  product_delete : Client -> option Z -> R -> option unit * R
}.

Context `{!ShopifyDeleteApi}.

Definition with_remote_state (r : R) (w : World) : World :=
  {| products := products w; productTypes := productTypes w; skus := skus w;
     sales := sales w; integrationSettings := integrationSettings w;
     next_oid := next_oid w; remote := r; calls := calls w |}.

Definition with_integrationSettings (rows : list IntegrationSettings)
    (w : World) : World :=
  {| products := products w; productTypes := productTypes w; skus := skus w;
     sales := sales w; integrationSettings := rows;
     next_oid := next_oid w; remote := remote w; calls := calls w |}.

(** A call of the client that is not entered in [calls]. *)
Definition remote_unlisted {A} (f : R -> option A * R) : M A :=
  fun w =>
    match f (remote w) with
    | (Some a, r') => (Return a, with_remote_state r' w)
    | (None, r') => (Throw "Shopify request failed", with_remote_state r' w)
    end.

(** [product?.externalIds?.shopify] *)
Definition shopify_id_of (product : option Product) : option string :=
  match product with
  | Some p =>
      match p_externalIds p with
      | Some exIds => exIds !! "shopify"
      | None => None
      end
  | None => None
  end.

(** [updateProductWithShopifyId] *)
Definition updateProductWithShopifyId (productId : oid) (shopifyId : string)
    : M bool :=
  try_catch
    (let! currentProduct := prisma_product_findUnique productId in
     let externalIds :=
       match currentProduct with
       | Some p => default ∅ (p_externalIds p)
       | None => ∅
       end in
     let updatedExternalIds := <["shopify" := shopifyId]> externalIds in
     prisma_product_update productId
       {| set_name := None; set_description := None; set_price := None;
          set_stockCount := None; set_barcode := None;
          set_externalIds := Some updatedExternalIds |} ;;
     ret true)
    (fun _ => ret false).

(** [deleteProductFromShopify] *)
Definition deleteProductFromShopify (productId : oid) : M bool :=
  try_catch
    (let! shopify := getShopifyClient in
     match shopify with
     | None => ret false
     | Some client =>
         let! product := prisma_product_findUnique productId in
         let shopifyProductId := shopify_id_of product in
         if negb (JS.truthy_str shopifyProductId) then ret true
         else
           remote_unlisted
             (product_delete client (JS.parseInt (default "" shopifyProductId))) ;;
           ret true
     end)
    (fun _ => ret false).

(** The row of a table that [update({ where: { id: existing.id } })]
    writes: rows carry no id here, the row is the first one that [is_it]
    picks, which is the one [findUnique] returned. *)
Fixpoint update_first {A} (is_it : A -> bool) (row : A) (rows : list A)
    : list A :=
  match rows with
  | [] => []
  | r :: rest =>
      if is_it r then row :: rest else r :: update_first is_it row rest
  end.

(** [saveShopifySettings]: update the row of the integration when there is
    one, create it otherwise. *)
Definition saveShopifySettings (settings : ShopifySettings) (isEnabled : bool)
    : M (option IntegrationSettings) :=
  let is_shopify := fun s => String.eqb (integrationType s) "shopify" in
  try_catch
    (let! existingSettings :=
       (fun w => (Return (find is_shopify (integrationSettings w)), w)) in
     match existingSettings with
     | Some existing =>
         let row := {| integrationType := integrationType existing;
                       isEnabled := isEnabled;
                       settings := settings |} in
         fun w =>
           (Return (Some row),
            with_integrationSettings
              (update_first is_shopify row (integrationSettings w)) w)
     | None =>
         let row := {| integrationType := "shopify";
                       isEnabled := isEnabled;
                       settings := settings |} in
         fun w =>
           (Return (Some row),
            with_integrationSettings (integrationSettings w ++ [row]) w)
     end)
    (fun _ => ret None).

(** The result of [syncAllProductsToShopify]. *)
Record SyncResult := {
  all_success : bool;
  all_total : nat;
  all_synced : nat;
  all_failed : nat
}.

(** [prisma.product.findMany({ include: { productType: true, sku: true } })] *)
Fixpoint include_all (ps : list Product) : M (list ProductWithExternalIds) :=
  match ps with
  | [] => ret []
  | p :: rest =>
      let! first := include_relations p in
      let! others := include_all rest in
      ret (first :: others)
  end.

(** The [for] loop of [syncAllProductsToShopify]. *)
Fixpoint sync_loop (products : list ProductWithExternalIds)
    (synced failed : nat) : M (nat * nat) :=
  match products with
  | [] => ret (synced, failed)
  | product :: rest =>
      let! success := syncProductToShopify product in
      if success : bool then sync_loop rest (S synced) failed
      else sync_loop rest synced (S failed)
  end.

(** [syncAllProductsToShopify] *)
Definition syncAllProductsToShopify : M SyncResult :=
  let nothing := {| all_success := false; all_total := 0; all_synced := 0;
                    all_failed := 0 |} in
  try_catch
    (let! shopify := getShopifyClient in
     match shopify with
     | None => ret nothing
     | Some _ =>
         let! stored := prisma_product_findMany in
         let! products := include_all stored in
         let! counters := sync_loop products 0 0 in
         let '(synced, failed) := counters in
         ret {| all_success := Nat.ltb 0 synced;
                all_total := length products;
                all_synced := synced;
                all_failed := failed |}
     end)
    (fun _ => ret nothing).

End EngineRest.

(** ** The other routes that call the engine *)

Section RoutesRest.
Context `{FloatOps} `{!ShopifyApi} `{!ShopifyDeleteApi}.

(** The [productId] of a request body is a string: the text of an
    ObjectId, which names a record, or any other non-empty text, which
    Prisma refuses. *)
Inductive RequestId :=
| ObjectId (id : oid)
| Malformed.

(** The JSON body of a stock request: [productId] ([None] when it is
    missing or empty), [quantity] ([None] when it is [undefined]; a
    number, and an integer here) and [operation]. *)
Record StockBody := {
  body_productId : option RequestId;
  body_quantity : option Z;
  body_operation : option string
}.

(** The request of the stock route: the role of the session's user
    ([None] when there is no session) and what [req.json()] gives
    ([None] when the body is not JSON and the call throws). *)
Record StockRequest := {
  stock_role : option string;
  stock_body : option StockBody
}.

Definition stock_productId (req : StockRequest) : option RequestId :=
  match stock_body req with
  | Some data => body_productId data
  | None => None
  end.

Definition stock_quantity (req : StockRequest) : option Z :=
  match stock_body req with
  | Some data => body_quantity data
  | None => None
  end.

Definition stock_operation (req : StockRequest) : option string :=
  match stock_body req with
  | Some data => body_operation data
  | None => None
  end.

Inductive StockJson :=
| Stock_error (error : string)
| Stock_updated (product : Product) (previousStockCount newStockCount : Z).

Record StockResponse := {
  stock_status : nat;
  stock_json : StockJson
}.

(** [await req.json()] *)
Definition req_json {A} (body : option A) : M A :=
  match body with
  | Some data => ret data
  | None => throw "Unexpected end of JSON input"
  end.

(** [stockCount Int]: the values Prisma accepts for the field are the
    32-bit integers. *)
Definition is_Int (n : Z) : bool :=
  (- 2 ^ 31 <=? n)%Z && (n <? 2 ^ 31)%Z.

(** [prisma.product.update({ where: { id }, data: { stockCount } })]
    with a count taken from a request: the client refuses a value that
    is no [Int] before it writes. *)
Definition prisma_product_update_stockCount (id : oid) (stockCount : Z)
    : M Product :=
  if is_Int stockCount then
    prisma_product_update id
      {| set_name := None; set_description := None; set_price := None;
         set_stockCount := Some stockCount;
         set_barcode := None; set_externalIds := None |}
  else throw "Value out of range for the type Int".

(** [POST] of the stock route: set, add to or subtract from the stock
    count of a product, then sync the inventory. *)
Definition stock_POST (req : StockRequest) : M StockResponse :=
  let answer := fun code message =>
    ret {| stock_status := code; stock_json := Stock_error message |} in
  try_catch
    (match stock_role req with
     | None => answer 401 "Unauthorized"
     | Some role =>
         if negb (String.eqb role "admin") && negb (String.eqb role "user")
         then answer 403 "Forbidden: Insufficient permissions"
         else
           let! data := req_json (stock_body req) in
           match body_productId data, body_quantity data with
           | Some productId, Some quantity =>
               if negb (JS.truthy_str (body_operation data))
               then answer 400 "Invalid request data"
               else
                 let operation := default "" (body_operation data) in
                 match productId with
                 | Malformed =>
                     (* [findUnique] refuses an id that is no ObjectId *)
                     throw "Malformed ObjectID"
                 | ObjectId productId =>
                 let! product := prisma_product_findUnique productId in
                 match product with
                 | None => answer 404 "Product not found"
                 | Some product =>
                     let update := fun newStockCount =>
                       let! updatedProduct :=
                         prisma_product_update_stockCount productId
                           newStockCount in
                       try_catch
                         (let! shopifySettings := getShopifySettings in
                          match shopifySettings with
                          | Some s =>
                              if isEnabled s
                              then syncInventoryToShopify productId
                                     newStockCount ;;
                                   ret tt
                              else ret tt
                          | None => ret tt
                          end)
                         (fun _ => ret tt) ;;
                       ret {| stock_status := 200;
                              stock_json :=
                                Stock_updated updatedProduct
                                  (p_stockCount product) newStockCount |} in
                     if String.eqb operation "set" then update quantity
                     else if String.eqb operation "add"
                          then update (p_stockCount product + quantity)%Z
                     else if String.eqb operation "subtract"
                          then update (Z.max 0 (p_stockCount product - quantity))
                     else answer 400 "Invalid operation"
                 end
                 end
           | _, _ => answer 400 "Invalid request data"
           end
     end)
    (fun _ => answer 500 "Failed to update stock").

(** The body the settings form posts to the integration route. *)
Record SettingsForm := {
  form_isEnabled : bool;
  form_shopName : option string;
  form_apiKey : option string;
  form_apiSecret : option string;
  form_apiVersion : option string;
  form_accessToken : option string
}.

Inductive IntegrationJson :=
| Integration_error (error : string)
| Integration_settings (settings : option IntegrationSettings)
| Integration_import (success : bool) (message : string)
    (total imported updated failed : nat)
| Integration_sync (success : bool) (message : string)
    (total synced failed : nat).

Record IntegrationResponse := {
  integration_status : nat;
  integration_json : IntegrationJson
}.

(** The gate of the integration route: a session, of an admin. *)
Definition admin_only (role : option string) (handler : M IntegrationResponse)
    : M IntegrationResponse :=
  match role with
  | None =>
      ret {| integration_status := 401;
             integration_json := Integration_error "Unauthorized" |}
  | Some r =>
      if negb (String.eqb r "admin")
      then ret {| integration_status := 403;
                  integration_json :=
                    Integration_error "Forbidden: Admin access required" |}
      else handler
  end.

Definition number (n : nat) : string := JS.toString (Z.of_nat n).

(** [GET] of the integration route: the import when [?action=import],
    the settings otherwise. *)
Definition integration_GET (role action : option string)
    : M IntegrationResponse :=
  try_catch
    (admin_only role
       (if same_str action "import" then
          let! result := importProductsFromShopify in
          ret {| integration_status := 200;
                 integration_json :=
                   Integration_import (success result)
                     (if success result
                      then "Successfully imported " +:+ number (imported result)
                           +:+ " new products and updated "
                           +:+ number (updated result)
                           +:+ " existing products from Shopify"
                      else "Failed to import products from Shopify")
                     (total result) (imported result) (updated result)
                     (failed result) |}
        else
          let! settings := getShopifySettings in
          ret {| integration_status := 200;
                 integration_json := Integration_settings settings |}))
    (fun _ =>
       ret {| integration_status := 500;
              integration_json :=
                Integration_error "Failed to fetch Shopify settings" |}).

(** [POST] of the integration route: save the settings. *)
Definition integration_POST (role : option string) (data : SettingsForm)
    : M IntegrationResponse :=
  try_catch
    (admin_only role
       (let shopifySettings :=
          {| shopName := form_shopName data;
             apiKey := form_apiKey data;
             apiSecret := form_apiSecret data;
             apiVersion := Some (JS.or_str (form_apiVersion data) "2023-10");
             accessToken := form_accessToken data |} in
        let! savedSettings :=
          saveShopifySettings shopifySettings (form_isEnabled data) in
        ret {| integration_status := 200;
               integration_json := Integration_settings savedSettings |}))
    (fun _ =>
       ret {| integration_status := 500;
              integration_json :=
                Integration_error "Failed to update Shopify settings" |}).

(** [PATCH] of the integration route: sync every product. *)
Definition integration_PATCH (role : option string) : M IntegrationResponse :=
  try_catch
    (admin_only role
       (let! result := syncAllProductsToShopify in
        ret {| integration_status := 200;
               integration_json :=
                 Integration_sync (all_success result)
                   (if all_success result
                    then "Successfully synced " +:+ number (all_synced result)
                         +:+ " products to Shopify"
                    else "Failed to sync products to Shopify")
                   (all_total result) (all_synced result)
                   (all_failed result) |}))
    (fun _ =>
       ret {| integration_status := 500;
              integration_json :=
                Integration_error "Failed to sync products to Shopify" |}).

End RoutesRest.

(** ** More vocabulary *)

Section VocabularyRest.
Context `{FloatOps} `{!ShopifyApi}.

(** A product with its links to remote systems left out: what is left
    is every field but [externalIds]. *)
Definition without_links (p : Product) : Product :=
  {| p_id := p_id p; p_name := p_name p; p_description := p_description p;
     p_barcode := p_barcode p; p_imageUrl := p_imageUrl p;
     p_price := p_price p; p_stockCount := p_stockCount p;
     p_productTypeId := p_productTypeId p; p_skuId := p_skuId p;
     p_externalIds := None |}.

(** Between two worlds only the links of the products may differ: every
    other field of every product, and every other table, is the same. *)
Definition only_links_differ (w w' : World) : Prop :=
  without_links <$> products w' = without_links <$> products w
  ∧ productTypes w' = productTypes w
  ∧ skus w' = skus w
  ∧ sales w' = sales w
  ∧ integrationSettings w' = integrationSettings w
  ∧ next_oid w' = next_oid w.

(** The local tables of two worlds are the same. *)
Definition same_tables (w w' : World) : Prop :=
  products w' = products w
  ∧ productTypes w' = productTypes w
  ∧ skus w' = skus w
  ∧ sales w' = sales w
  ∧ integrationSettings w' = integrationSettings w
  ∧ next_oid w' = next_oid w.

(** The fields of a product that no notification writes: all but the
    name, the description and the external ids. *)
Definition kept_by_webhooks (p : Product)
    : oid * option string * option string * float * Z * oid * option oid :=
  (p_id p, p_barcode p, p_imageUrl p, p_price p, p_stockCount p,
   p_productTypeId p, p_skuId p).

(** The row of the Shopify integration. *)
Definition is_shopify_row (s : IntegrationSettings) : bool :=
  String.eqb (integrationType s) "shopify".

(** What a sync of [product] asks of the platform: an update against the
    id it carries, or a creation. *)
Definition sync_call (product : ProductWithExternalIds) : RemoteCall :=
  let shopifyProductId :=
    default ∅ (p_externalIds (base product)) !! "shopify" in
  if JS.truthy_str shopifyProductId
  then Call_product_update (JS.parseInt (default "" shopifyProductId))
         (mapToShopifyProduct product)
  else Call_product_create (mapToShopifyProduct product).

(** The count the [switch] of the stock route computes, for one of its
    three operations, from the count in stock and the quantity of the
    request. *)
Definition newStockCount (operation : string) (stockCount quantity : Z) : Z :=
  if String.eqb operation "set" then quantity
  else if String.eqb operation "add" then (stockCount + quantity)%Z
  else Z.max 0 (stockCount - quantity).

(** A product with another stock count. *)
Definition with_stockCount (n : Z) (p : Product) : Product :=
  {| p_id := p_id p; p_name := p_name p; p_description := p_description p;
     p_barcode := p_barcode p; p_imageUrl := p_imageUrl p;
     p_price := p_price p; p_stockCount := n;
     p_productTypeId := p_productTypeId p; p_skuId := p_skuId p;
     p_externalIds := p_externalIds p |}.

End VocabularyRest.

(** ** The platform of the runs, continued *)

Module MockRest.
Import Mock.

(** The shop forgets the product, when it has it. *)
Definition delete (c : Client) (id : option Z) (s : Shop)
    : option unit * Shop :=
  if online s then
    match find (same_id id) (catalog s) with
    | Some _ =>
        (Some tt,
         {| online := true;
            catalog := List.filter (fun q => negb (same_id id q)) (catalog s);
            levels := levels s; next_id := next_id s |})
    | None => (None, s)
    end
  else (None, s).

#[export] Instance shopify_delete_api : ShopifyDeleteApi :=
  {| product_delete := delete |}.

End MockRest.

(** ** More inputs *)

Module InputsRest.
Import Mock MockRest Inputs.

(** The demo world with the integration switched off. *)
Definition paused_world : World :=
  with_integrationSettings [shopify_row false] linked_world.

(** A user takes four units of product 1 off the shelf, and then forty. *)
Definition take_off (n : Z) : StockRequest :=
  {| stock_role := Some "user";
     stock_body := Some {| body_productId := Some (ObjectId 1);
                           body_quantity := Some n;
                           body_operation := Some "subtract" |} |}.

(** The settings form, filled in without an API version. *)
Definition demo_form : SettingsForm :=
  {| form_isEnabled := true; form_shopName := Some "demo-shop";
     form_apiKey := Some "key"; form_apiSecret := Some "s3cret";
     form_apiVersion := None; form_accessToken := Some "token" |}.

End InputsRest.

(** * Properties *)

(** ** The built-ins: [parseInt] reads back what [toString] writes *)

Example parseInt_42 : JS.parseInt "  42abc" = Some 42%Z.
Proof. reflexivity. Qed.

Example parseInt_hex : JS.parseInt "0x1F" = Some 31%Z.
Proof. reflexivity. Qed.

Example parseInt_nan : JS.parseInt "abc" = None.
Proof. reflexivity. Qed.

Example toString_900 : JS.toString 900 = "900".
Proof. reflexivity. Qed.

Example toString_neg : JS.toString (-12) = "-12".
Proof. reflexivity. Qed.

Section Digits.
Import DecimalString.

Lemma take_while_digits d :
  JS.take_while JS.is_digit (NilEmpty.string_of_uint d)
  = NilEmpty.string_of_uint d.
Proof. induction d; simpl; congruence. Qed.

(** A non-empty numeral starts with a digit: neither a space nor a sign. *)
Lemma digits_head d :
  d ≠ Decimal.Nil →
  ∃ c r, NilEmpty.string_of_uint d = String c r ∧ JS.is_digit c = true.
Proof. destruct d; intros Hd; try congruence; simpl; eauto. Qed.

Lemma parse_decimal_digits d :
  d ≠ Decimal.Nil →
  JS.parse_decimal (NilEmpty.string_of_uint d) = Some (Z.of_N (N.of_uint d)).
Proof.
  intros Hd. unfold JS.parse_decimal. rewrite take_while_digits.
  destruct (digits_head d Hd) as (c & r & E & _).
  rewrite E, <- E, NilEmpty.usu. reflexivity.
Qed.

(** The second character of a numeral is never the [x] of a [0x] prefix. *)
Lemma parse_magnitude_digits d :
  JS.parse_magnitude (NilEmpty.string_of_uint d)
  = JS.parse_decimal (NilEmpty.string_of_uint d).
Proof.
  destruct d as [|d|d|d|d|d|d|d|d|d|d]; try reflexivity.
  destruct d; reflexivity.
Qed.

Lemma parseInt_digits d :
  d ≠ Decimal.Nil →
  JS.parseInt (NilEmpty.string_of_uint d) = Some (Z.of_N (N.of_uint d)).
Proof.
  intros Hd. rewrite <- parse_decimal_digits, <- parse_magnitude_digits by done.
  destruct d; try congruence; reflexivity.
Qed.

Lemma toString_pos p :
  JS.toString (Z.pos p) = NilEmpty.string_of_uint (Pos.to_uint p).
Proof.
  unfold JS.toString. simpl. unfold NilZero.string_of_uint.
  pose proof (DecimalPos.Unsigned.to_uint_nonnil p) as Hn.
  destruct (Pos.to_uint p); congruence.
Qed.

Lemma toString_neg_digits p :
  JS.toString (Z.neg p)
  = String "-"%char (NilEmpty.string_of_uint (Pos.to_uint p)).
Proof.
  unfold JS.toString. simpl. unfold NilZero.string_of_uint.
  pose proof (DecimalPos.Unsigned.to_uint_nonnil p) as Hn.
  destruct (Pos.to_uint p); congruence.
Qed.

(** [parseInt(n.toString()) === n] for every safe integer [n]. *)
Lemma parseInt_toString z :
  JS.isSafeInteger z = true → JS.parseInt (JS.toString z) = Some z.
Proof.
  intros _.
  pose proof DecimalPos.Unsigned.to_uint_nonnil as Hn.
  pose proof DecimalPos.Unsigned.of_to as Hof.
  destruct z as [|p|p].
  - reflexivity.
  - rewrite toString_pos, parseInt_digits by apply Hn.
    unfold N.of_uint. rewrite Hof. reflexivity.
  - rewrite toString_neg_digits.
    change (Z.opp <$> JS.parse_magnitude
              (NilEmpty.string_of_uint (Pos.to_uint p)) = Some (Z.neg p)).
    rewrite parse_magnitude_digits, parse_decimal_digits by apply Hn.
    unfold N.of_uint. rewrite Hof. reflexivity.
Qed.

(** A number never prints as the empty string: a stored id is truthy. *)
Lemma toString_truthy z : JS.truthy_str (Some (JS.toString z)) = true.
Proof.
  pose proof (DecimalPos.Unsigned.to_uint_nonnil) as Hn.
  destruct z as [|p|p]; try reflexivity.
  rewrite toString_pos.
  destruct (digits_head _ (Hn p)) as (c & r & -> & _). reflexivity.
Qed.

End Digits.

(** ** The webhook route *)

Section Webhook.
Context `{FloatOps} `{!ShopifyApi} `{Runtime}.

Lemma verified_inv req w :
  verified req w = true →
  ∃ s secret,
    find (fun s => String.eqb (integrationType s) "shopify")
         (integrationSettings w) = Some s
    ∧ isEnabled s = true
    ∧ JS.truthy_str (x_shopify_hmac_sha256 req) = true
    ∧ JS.truthy_str (x_shopify_shop_domain req) = true
    ∧ apiSecret (settings s) = Some secret
    ∧ same_str (x_shopify_hmac_sha256 req)
               (hmac_sha256_base64 secret (raw_body req)) = true.
Proof.
  unfold verified. intros Hv.
  destruct (find _ _) as [s|]; [|discriminate].
  apply andb_prop in Hv as [Hv Hm].
  apply andb_prop in Hv as [Hv Hd].
  apply andb_prop in Hv as [He Hh].
  destruct (apiSecret (settings s)) as [secret|] eqn:Hs; [|discriminate].
  exists s, secret. auto 10.
Qed.

(** What the route does once a request is verified: parse, dispatch on
    the topic, acknowledge. *)
Lemma webhook_POST_verified req w data :
  verified req w = true →
  JSON_parse (raw_body req) = Some data →
  webhook_POST req w =
    let topic := x_shopify_topic req in
    let handler :=
      if same_str topic "products/update" then handleProductUpdate data
      else if same_str topic "products/delete" then handleProductDelete data
      else if same_str topic "inventory_levels/update"
           then handleInventoryUpdate data
      else ret tt in
    match handler w with
    | (Return _, w') => (Return acknowledged, w')
    | (Throw _, w') =>
        (Return {| status := 500; json := Json_error "Failed to process webhook" |}, w')
    end.
Proof.
  intros Hv Hp. apply verified_inv in Hv as (s & secret & Hf & He & Hh & Hd & Hs & Hm).
  unfold webhook_POST, try_catch, bind, getShopifySettings at 1.
  rewrite Hf, He, Hh, Hd, Hs. simpl. unfold ret at 1. rewrite Hm, Hp. simpl.
  unfold ret at 1.
  destruct (_ w) as [[[]|e] w']; reflexivity.
Qed.

(** C2. A webhook request whose digest, computed over the raw body with
    the stored secret, differs from the supplied [x-shopify-hmac-sha256]
    header is answered with HTTP 401, and the world it leaves is the
    world it found: no product, no settings row, nothing is written. *)
Theorem C2_digest_mismatch_is_rejected
    (req : WebhookRequest) (w : World) (s : IntegrationSettings)
    (secret supplied : string) :
  find (fun s => String.eqb (integrationType s) "shopify")
       (integrationSettings w) = Some s →
  isEnabled s = true →
  apiSecret (settings s) = Some secret →
  x_shopify_hmac_sha256 req = Some supplied →
  hmac_sha256_base64 secret (raw_body req) ≠ supplied →
  ∃ message,
    webhook_POST req w
    = (Return {| status := 401; json := Json_error message |}, w).
Proof.
  intros Hf He Hs Hh Hne.
  unfold webhook_POST, try_catch, bind, getShopifySettings.
  rewrite Hf, He, Hs, Hh. simpl.
  destruct (negb _ || negb _); [eexists; reflexivity|].
  unfold ret. rewrite String.eqb_sym.
  apply String.eqb_neq in Hne. rewrite Hne. simpl.
  eexists; reflexivity.
Qed.

(** C8 (as amended). A request rejected because a required header is
    missing and a request rejected because its digest is wrong are both
    answered with HTTP 401 and leave the world untouched; the bodies are
    "Invalid webhook request" for the first and "Invalid webhook
    signature" for the second. *)
Theorem C8_rejections_share_the_status
    (missing forged : WebhookRequest) (w : World) (s : IntegrationSettings)
    (secret supplied : string) :
  find (fun s => String.eqb (integrationType s) "shopify")
       (integrationSettings w) = Some s →
  isEnabled s = true →
  apiSecret (settings s) = Some secret →
  x_shopify_hmac_sha256 missing = None ∨ x_shopify_shop_domain missing = None →
  x_shopify_hmac_sha256 forged = Some supplied →
  JS.truthy_str (Some supplied) = true →
  JS.truthy_str (x_shopify_shop_domain forged) = true →
  hmac_sha256_base64 secret (raw_body forged) ≠ supplied →
  webhook_POST missing w
  = (Return {| status := 401; json := Json_error "Invalid webhook request" |}, w)
  ∧ webhook_POST forged w
    = (Return {| status := 401; json := Json_error "Invalid webhook signature" |}, w).
Proof.
  intros Hf He Hs Hm Hh Ht Hd Hne. split.
  - unfold webhook_POST, try_catch, bind, getShopifySettings.
    rewrite Hf, He. simpl.
    destruct Hm as [-> | ->]; simpl; rewrite ?orb_true_r; reflexivity.
  - unfold webhook_POST, try_catch, bind, getShopifySettings.
    rewrite Hf, He, Hs, Hh, Ht, Hd. simpl.
    unfold ret. rewrite String.eqb_sym.
    apply String.eqb_neq in Hne. rewrite Hne. reflexivity.
Qed.

(** *** Updates by id on a table with a primary key *)

Lemma find_by_id (P : Product → bool) (ps : list Product) (p : Product) :
  unique_ids ps = true →
  find P ps = Some p →
  find (fun q => Nat.eqb (p_id q) (p_id p)) ps = Some p.
Proof.
  unfold unique_ids. rewrite bool_decide_eq_true.
  induction ps as [|q ps IH]; simpl; [discriminate|].
  rewrite NoDup_cons. intros [Hq Hnd] Hfind.
  destruct (P q).
  - injection Hfind as ->. rewrite Nat.eqb_refl. reflexivity.
  - destruct (Nat.eqb_spec (p_id q) (p_id p)) as [E|_]; [|auto].
    exfalso. apply Hq. rewrite E.
    apply list_elem_of_fmap_2. apply list_elem_of_In.
    eapply find_some; eauto.
Qed.

Lemma find_replace_product (p' : Product) (ps : list Product) :
  is_Some (find (fun q => Nat.eqb (p_id q) (p_id p')) ps) →
  find (fun q => Nat.eqb (p_id q) (p_id p')) (replace_product p' ps) = Some p'.
Proof.
  induction ps as [|q ps IH]; simpl; [intros [? [=]]|].
  destruct (Nat.eqb (p_id q) (p_id p')) eqn:E; simpl.
  - rewrite Nat.eqb_refl. reflexivity.
  - rewrite E. exact IH.
Qed.

(** An update that leaves the barcode alone succeeds on a record that
    exists. *)
Lemma prisma_product_update_ok (id : oid) (data : ProductUpdateInput)
    (p : Product) (w : World) :
  find (fun q => Nat.eqb (p_id q) id) (products w) = Some p →
  set_barcode data = None →
  prisma_product_update id data w
  = (Return (apply_update data p),
     with_products (replace_product (apply_update data p) (products w)) w).
Proof. intros Hf Hb. unfold prisma_product_update. rewrite Hf, Hb. reflexivity. Qed.

(** The lookup by remote id throws, and the [catch] of the handler
    swallows the error: the handlers of the two product topics return
    with nothing written. *)
Lemma handleProductUpdate_writes_nothing (data : WebhookData) (w : World) :
  handleProductUpdate data w = (Return tt, w).
Proof.
  unfold handleProductUpdate, try_catch, bind, prisma_product_findFirst_shopify.
  destruct (d_id data); reflexivity.
Qed.

Lemma handleProductDelete_writes_nothing (data : WebhookData) (w : World) :
  handleProductDelete data w = (Return tt, w).
Proof.
  unfold handleProductDelete, try_catch, bind, prisma_product_findFirst_shopify.
  destruct (d_id data); reflexivity.
Qed.

(** C6 (the code).  A verified [products/update] notification is
    acknowledged with 200 and writes nothing, whether or not a product
    records the remote id: the lookup by remote id is refused by the
    datasource, the handler logs the error and returns.  The name and
    the description of the product that records the id stay as they
    were. *)
Theorem C6_update_webhook_writes_nothing
    (req : WebhookRequest) (w : World) (data : WebhookData) :
  verified req w = true →
  JSON_parse (raw_body req) = Some data →
  x_shopify_topic req = Some "products/update" →
  webhook_POST req w = (Return acknowledged, w).
Proof.
  intros Hv Hp Ht.
  rewrite (webhook_POST_verified req w data Hv Hp), Ht. simpl.
  rewrite handleProductUpdate_writes_nothing. reflexivity.
Qed.

(** C7 (the code).  A verified [products/delete] notification is
    acknowledged with 200 and writes nothing: the lookup by remote id is
    refused by the datasource, the handler logs the error and returns.
    The product that records the remote id keeps its external ids: it is
    not unlinked. *)
Theorem C7_delete_webhook_leaves_the_link
    (req : WebhookRequest) (w : World) (data : WebhookData) :
  verified req w = true →
  JSON_parse (raw_body req) = Some data →
  x_shopify_topic req = Some "products/delete" →
  webhook_POST req w = (Return acknowledged, w).
Proof.
  intros Hv Hp Ht.
  rewrite (webhook_POST_verified req w data Hv Hp), Ht. simpl.
  rewrite handleProductDelete_writes_nothing. reflexivity.
Qed.

End Webhook.

(** ** Single-product sync and the sale route *)

Section Sync.
Context `{FloatOps} `{!ShopifyApi} `{Runtime}.

(** The client factory only reads the settings table. *)
Lemma getShopifyClient_reads (w : World) :
  ∃ client, getShopifyClient w = (Return client, w).
Proof.
  unfold getShopifyClient, try_catch, bind, getShopifySettings, ret.
  destruct (find _ _) as [s|]; [|eauto].
  destruct (negb (isEnabled s)); [eauto|].
  destruct (negb _ || negb _); eauto.
Qed.

Lemma getShopifyClient_same_settings (w w' : World) client :
  integrationSettings w' = integrationSettings w →
  getShopifyClient w = (Return client, w) →
  getShopifyClient w' = (Return client, w').
Proof.
  unfold getShopifyClient, try_catch, bind, getShopifySettings, ret.
  intros ->. destruct (find _ _) as [s|]; [|congruence].
  destruct (negb (isEnabled s)); [congruence|].
  destruct (negb _ || negb _); congruence.
Qed.

(** A client is only handed out when the integration is enabled. *)
Lemma getShopifyClient_enabled (w : World) client :
  getShopifyClient w = (Return (Some client), w) →
  ∃ s, find (fun s => String.eqb (integrationType s) "shopify")
            (integrationSettings w) = Some s
       ∧ isEnabled s = true.
Proof.
  unfold getShopifyClient, try_catch, bind, getShopifySettings, ret.
  destruct (find _ _) as [s|]; [|congruence].
  destruct (isEnabled s) eqn:E; simpl; [intros _; eauto|congruence].
Qed.

(** The update path: a product that carries a Shopify id is pushed with
    one [product.update] against that id, and the local tables are not
    written. *)
Lemma syncProductToShopify_linked
    (product : ProductWithExternalIds) (w : World) (client : Client)
    (sid : string) :
  getShopifyClient w = (Return (Some client), w) →
  default ∅ (p_externalIds (base product)) !! "shopify" = Some sid →
  JS.truthy_str (Some sid) = true →
  ∃ ok w',
    syncProductToShopify product w = (Return ok, w')
    ∧ calls w' = calls w ++ [Call_product_update (JS.parseInt sid)
                               (mapToShopifyProduct product)]
    ∧ products w' = products w
    ∧ integrationSettings w' = integrationSettings w.
Proof.
  intros Hc Hid Ht.
  unfold syncProductToShopify, try_catch, bind. rewrite Hc, Hid, Ht.
  cbn [default]. unfold remote_call.
  destruct (product_update _ _ _ _) as [[updated|] r']; simpl; eauto 10.
Qed.

(** C1. On a product with no Shopify id, a sync that succeeds issues one
    [product.create], and the id of the created product is stored under
    the product's external ids.  A second sync, on the product as it is
    now stored, issues one [product.update] against that id, creates
    nothing and leaves the stored product as it is.  The id the platform
    assigns is a safe integer, so that its text reads back as the id. *)
Theorem C1_second_sync_takes_the_update_path
    (product : ProductWithExternalIds) (w w1 : World) :
  assigns_ids →
  assigns_safe_id (mapToShopifyProduct product) (remote w) →
  default ∅ (p_externalIds (base product)) !! "shopify" = None →
  syncProductToShopify product w = (Return true, w1) →
  ∃ (client : Client) (created : ShopifyProduct) (stored : Product),
    product_create client (mapToShopifyProduct product) (remote w)
    = (Some created, remote w1)
    ∧ calls w1 = calls w ++ [Call_product_create (mapToShopifyProduct product)]
    ∧ find (fun q => Nat.eqb (p_id q) (p_id (base product))) (products w1)
      = Some stored
    ∧ p_externalIds stored
      = Some (<["shopify" := JS.toString (sp_id created)]>
                (default ∅ (p_externalIds (base product))))
    ∧ ∀ (type : option ProductType) (code : option SKU),
        let again := {| base := stored; productType := type; sku := code |} in
        ∃ ok w2,
          syncProductToShopify again w1 = (Return ok, w2)
          ∧ calls w2 = calls w1 ++ [Call_product_update (Some (sp_id created))
                                      (mapToShopifyProduct again)]
          ∧ products w2 = products w1.
Proof.
  intros Hids Hsafe Hno Hrun.
  destruct (getShopifyClient_reads w) as [[client|] Hc];
    unfold syncProductToShopify, try_catch, bind in Hrun;
    rewrite Hc, ?Hno in Hrun; simpl in Hrun; [|discriminate].
  unfold remote_call in Hrun.
  destruct (product_create _ _ _) as [[created|] r'] eqn:Hcreate;
    [|discriminate].
  assert (negb (sp_id created =? 0)%Z = true) as Hid.
  { apply negb_true_iff, Z.eqb_neq. eapply Hids, Hcreate. }
  rewrite Hid in Hrun. unfold prisma_product_update in Hrun. simpl in Hrun.
  destruct (find _ (products w)) as [p0|] eqn:Hfind; [|discriminate].
  injection Hrun as <-.
  set (exIds := <["shopify" := JS.toString (sp_id created)]> _).
  set (stored := apply_update _ p0).
  exists client, created, stored. split; [exact Hcreate|].
  split; [reflexivity|]. split.
  { assert (p_id stored = p_id (base product)) as Hpid.
    { apply find_some in Hfind as [_ E]. apply Nat.eqb_eq in E. exact E. }
    simpl. rewrite <- Hpid. apply find_replace_product.
    rewrite Hpid, Hfind. eauto. }
  split; [reflexivity|].
  intros type code again.
  destruct (syncProductToShopify_linked again
              (with_products (replace_product stored (products w))
                 (with_remote r' (Call_product_create (mapToShopifyProduct product)) w))
              client (JS.toString (sp_id created))) as (ok & w2 & Hrun2 & Hcalls & Hps & _).
  - eapply getShopifyClient_same_settings; [|exact Hc]. reflexivity.
  - simpl. apply lookup_insert_eq.
  - apply toString_truthy.
  - rewrite parseInt_toString in Hcalls by (eapply Hsafe, Hcreate). eauto.
Qed.

(** The inventory-only sync: when it succeeds it has read the remote
    product under the id the local product records, listed the levels of
    its first variant's inventory item and set the level at the location
    of the first of them to the quantity it was given. *)
Lemma syncInventoryToShopify_sets_the_level
    (productId : oid) (n : Z) (w w' : World) :
  syncInventoryToShopify productId n w = (Return true, w') →
  ∃ client p exIds sid remoteProduct variant variants level levels r1 r2 set,
    getShopifyClient w = (Return (Some client), w)
    ∧ find (fun q => Nat.eqb (p_id q) productId) (products w) = Some p
    ∧ p_externalIds p = Some exIds
    ∧ exIds !! "shopify" = Some sid
    ∧ product_get client (JS.parseInt sid) (remote w) = (Some remoteProduct, r1)
    ∧ sp_variants remoteProduct = variant :: variants
    ∧ inventoryLevel_list client (v_inventory_item_id variant) r1
      = (Some (level :: levels), r2)
    ∧ inventoryLevel_set client (v_inventory_item_id variant)
        (il_location_id level) n r2 = (Some set, remote w')
    ∧ calls w' = calls w ++
        [Call_product_get (JS.parseInt sid);
         Call_inventoryLevel_list (v_inventory_item_id variant);
         Call_inventoryLevel_set (v_inventory_item_id variant)
           (il_location_id level) n].
Proof.
  unfold syncInventoryToShopify, try_catch, bind.
  destruct (getShopifyClient_reads w) as [[client|] Hc]; rewrite Hc;
    [|discriminate].
  unfold prisma_product_findUnique.
  destruct (find _ (products w)) as [p|] eqn:Hfind; [|discriminate].
  destruct (p_externalIds p) as [exIds|] eqn:Hex; [|discriminate].
  destruct (exIds !! "shopify") as [sid|] eqn:Hsid; [|discriminate].
  destruct (negb (JS.truthy_str _)); [discriminate|].
  cbn [default]. unfold remote_call.
  destruct (product_get _ _ _) as [[remoteProduct|] r1] eqn:Hget; [|discriminate].
  destruct (sp_variants remoteProduct) as [|variant variants] eqn:Hv; [discriminate|].
  simpl.
  destruct (inventoryLevel_list _ _ _) as [[[|level levels]|] r2] eqn:Hl;
    try discriminate.
  simpl.
  destruct (inventoryLevel_set _ _ _ _ _) as [[set|] r3] eqn:Hs; [|discriminate].
  intros [= <-]. simpl.
  exists client, p, exIds, sid, remoteProduct, variant, variants, level, levels,
    r1, r2, set.
  repeat split; eauto. rewrite <- !app_assoc. reflexivity.
Qed.

(** C5 (as amended). With a client (the integration enabled, with a shop
    name and an access token), after the transaction of a sale of [q]
    units of a linked product with stock [s >= q], the route runs the
    full single-product sync on the updated product: one
    [product.update] against the stored remote id, whose single variant
    carries the inventory quantity [s - q]; no inventory level is set.
    The inventory-only sync, where it is run and succeeds, has read the
    remote product under the id the local product records, and has set
    the level of that product's first variant, at the location of the
    first level listed for it, to the quantity it was given. *)
Theorem C5_sale_pushes_the_updated_product
    (req : SaleRequest) (w : World) (pid : oid) (q : Z) (p : Product)
    (client : Client) (exIds : ExternalIds) (sid : string) :
  session req = true →
  productId req = Some pid →
  quantity req = Some q →
  (1 ≤ q)%Z →
  find (fun x => Nat.eqb (p_id x) pid) (products w) = Some p →
  (q ≤ p_stockCount p)%Z →
  getShopifyClient w = (Return (Some client), w) →
  p_externalIds p = Some exIds →
  exIds !! "shopify" = Some sid →
  JS.truthy_str (Some sid) = true →
  (∃ sale updated w',
      sales_POST req w = (Return {| status := 201; json := Json_sale sale |}, w')
      ∧ find (fun x => Nat.eqb (p_id x) pid) (products w') = Some (base updated)
      ∧ p_stockCount (base updated) = (p_stockCount p - q)%Z
      ∧ calls w' = calls w ++ [Call_product_update (JS.parseInt sid)
                                 (mapToShopifyProduct updated)]
      ∧ vi_inventory_quantity <$> in_variants (mapToShopifyProduct updated)
        = [(p_stockCount p - q)%Z]
      ∧ ∀ c, c ∈ calls w' → c ∈ calls w ∨ is_inventoryLevel_set c = false)
  ∧ (∀ n w0 w', syncInventoryToShopify pid n w0 = (Return true, w') →
       ∃ client0 p0 exIds0 sid0 remoteProduct variant variants level levels
         r1 r2 set,
         getShopifyClient w0 = (Return (Some client0), w0)
         ∧ find (fun x => Nat.eqb (p_id x) pid) (products w0) = Some p0
         ∧ p_externalIds p0 = Some exIds0
         ∧ exIds0 !! "shopify" = Some sid0
         ∧ product_get client0 (JS.parseInt sid0) (remote w0)
           = (Some remoteProduct, r1)
         ∧ sp_variants remoteProduct = variant :: variants
         ∧ inventoryLevel_list client0 (v_inventory_item_id variant) r1
           = (Some (level :: levels), r2)
         ∧ inventoryLevel_set client0 (v_inventory_item_id variant)
             (il_location_id level) n r2 = (Some set, remote w')
         ∧ calls w' = calls w0 ++
             [Call_product_get (JS.parseInt sid0);
              Call_inventoryLevel_list (v_inventory_item_id variant);
              Call_inventoryLevel_set (v_inventory_item_id variant)
                (il_location_id level) n]).
Proof.
  intros Hs Hp Hq Hq1 Hfind Hstock Hc Hex Hsid Ht. split.
  - unfold sales_POST, try_catch at 1, bind at 1. rewrite Hs, Hp, Hq. simpl.
    destruct (Z.ltb_spec q 1) as [?|_]; [lia|].
    unfold bind at 1.
    unfold sale_transaction, prisma_transaction, bind at 1,
      prisma_product_findUnique.
    rewrite Hfind.
    destruct (Z.ltb_spec (p_stockCount p) q) as [?|_]; [lia|].
    unfold bind at 1, prisma_sale_create.
    set (sale := {| sale_id := next_oid w |}).
    set (ws := with_next_oid _ _).
    unfold bind at 1.
    erewrite (prisma_product_update_ok pid _ p ws) by (exact Hfind || reflexivity).
    set (p' := apply_update _ p).
    set (wu := with_products _ ws).
    unfold bind at 1, include_relations, ret at 1.
    set (updated := {| base := p' |}).
    unfold bind at 1, try_catch at 1, bind at 1.
    assert (getShopifyClient wu = (Return (Some client), wu)) as Hcu.
    { eapply getShopifyClient_same_settings; [|exact Hc]. reflexivity. }
    destruct (getShopifyClient_enabled wu client Hcu) as (s & Hset & Hen).
    unfold getShopifySettings at 1. rewrite Hset, Hen. cbn [snd fst].
    destruct (syncProductToShopify_linked updated wu client sid Hcu)
      as (ok & w' & Hrun & Hcalls & Hps & _); [simpl; rewrite Hex; exact Hsid|exact Ht|].
    rewrite Hrun. unfold ret.
    exists sale, updated, w'. split; [reflexivity|]. split.
    { rewrite Hps. subst wu. simpl.
      assert (pid = p_id p') as Hpid.
      { apply find_some in Hfind as [_ E]. apply Nat.eqb_eq in E. simpl. congruence. }
      rewrite Hpid. apply find_replace_product. rewrite <- Hpid. subst ws. simpl.
      rewrite Hfind. eauto. }
    split; [reflexivity|]. split; [exact Hcalls|]. split; [reflexivity|].
    intros c. rewrite Hcalls. intros [Hin|Hin]%elem_of_app; [left; exact Hin|right].
    apply list_elem_of_singleton in Hin as ->. reflexivity.
  - intros n w0 w' Hrun.
    exact (syncInventoryToShopify_sets_the_level pid n w0 w' Hrun).
Qed.

End Sync.

(** ** Bulk import *)

Section BulkImport.
Context `{FloatOps} `{!ShopifyApi} `{Runtime}.

Lemma find_none_existsb {A} (P : A → bool) (l : list A) :
  find P l = None → existsb P l = false.
Proof.
  induction l as [|a l IH]; simpl; [done|].
  destruct (P a); [discriminate|exact IH].
Qed.

Lemma find_some_existsb {A} (P : A → bool) (l : list A) (a : A) :
  find P l = Some a → existsb P l = true.
Proof.
  induction l as [|b l IH]; simpl; [discriminate|].
  destruct (P b); [done|exact IH].
Qed.

(** The first part of the loop body, up to the stock count: it resolves
    the product type, creating it when it is missing, and asks the
    platform for the inventory level of the first variant.  It never
    throws, leaves the product table alone and issues at most one call,
    an [inventoryLevel.list].  What follows is the write: an update of
    the product that records the id, or a creation. *)
Lemma import_product_prelude (client : Client) (sp : ShopifyProduct) (w : World) :
  ∃ (w1 : World) (productTypeId : oid) (stockCount : Z) (issued : list RemoteCall),
    products w1 = products w
    ∧ integrationSettings w1 = integrationSettings w
    ∧ next_oid w ≤ next_oid w1
    ∧ calls w1 = calls w ++ issued
    ∧ (issued = [] ∨ ∃ item, issued = [Call_inventoryLevel_list item])
    ∧ import_product client sp w =
        let shopifyId := JS.toString (sp_id sp) in
        let firstVariant := head (sp_variants sp) in
        let price :=
          parseFloat (JS.or_str (match firstVariant with
                                 | Some v => v_price v
                                 | None => None
                                 end) "0") in
        let barcode :=
          JS.or_null (match firstVariant with
                      | Some v => v_barcode v
                      | None => None
                      end) in
        match find (has_shopify_id shopifyId) (products w) with
        | Some existing =>
            (prisma_product_update (p_id existing)
               {| set_name := Some (sp_title sp);
                  set_description := Some (sp_body_html sp);
                  set_price := Some price;
                  set_stockCount := Some stockCount;
                  set_barcode := Some barcode;
                  set_externalIds := Some {[ "shopify" := shopifyId ]} |} ;;
             ret Updated) w1
        | None =>
            (let! unique := uniqueBarcode barcode shopifyId in
             prisma_product_create
               {| new_name := sp_title sp;
                  new_description := sp_body_html sp;
                  new_price := price;
                  new_stockCount := stockCount;
                  new_barcode := unique;
                  new_productTypeId := productTypeId;
                  new_imageUrl := JS.or_null (sp_image sp);
                  new_externalIds := {[ "shopify" := shopifyId ]} |} ;;
             ret Imported) w1
        end.
Proof.
  unfold import_product.
  unfold bind at 1, prisma_product_findMany.
  unfold bind at 1, prisma_productType_findFirst.
  set (typeName := JS.or_str (sp_product_type sp) "General").
  (* the product type: found, or created *)
  assert (∃ wt typeId,
            products wt = products w
            ∧ integrationSettings wt = integrationSettings w
            ∧ calls wt = calls w
            ∧ next_oid w ≤ next_oid wt
            ∧ match find (fun t => String.eqb (pt_name t) typeName) (productTypes w) with
              | Some t => ret (pt_id t)
              | None =>
                  let! newProductType :=
                    prisma_productType_create typeName
                      ("Imported from Shopify: " +:+ typeName) in
                  ret (pt_id newProductType)
              end w = (Return typeId, wt)) as (wt & typeId & Hp & Hs & Hc & Hn & Ht).
  { destruct (find _ (productTypes w)) as [t|] eqn:Hfind.
    - exists w, (pt_id t). auto.
    - unfold bind, prisma_productType_create.
      rewrite (find_none_existsb _ _ Hfind). simpl.
      eexists (with_next_oid _ (with_productTypes _ w)), _.
      do 3 (split; [reflexivity|]). split; [|reflexivity]. simpl. lia. }
  unfold bind at 1. rewrite Ht.
  (* the stock count *)
  unfold bind at 1, try_catch at 1.
  destruct (JS.truthy_num _).
  - unfold bind at 1, remote_call.
    destruct (inventoryLevel_list _ _ _) as [[levels|] r'];
      [destruct levels as [|level levels]|]; simpl;
      eexists (with_remote r' _ wt), typeId, _, [_];
      (split; [exact Hp|]); (split; [exact Hs|]); (split; [exact Hn|]);
      (split; [simpl; rewrite Hc; reflexivity|]);
      (split; [right; eexists; reflexivity|]);
      destruct (find (has_shopify_id _) _); reflexivity.
  - simpl. exists wt, typeId, 0%Z, [].
    split; [exact Hp|]. split; [exact Hs|]. split; [exact Hn|].
    split; [rewrite app_nil_r; exact Hc|]. split; [left; reflexivity|].
    destruct (find (has_shopify_id _) _); reflexivity.
Qed.

Lemma prisma_product_update_cases (id : oid) (data : ProductUpdateInput) (w : World) :
  (∃ e, prisma_product_update id data w = (Throw e, w))
  ∨ (∃ p, find (fun q => Nat.eqb (p_id q) id) (products w) = Some p
          ∧ prisma_product_update id data w
            = (Return (apply_update data p),
               with_products (replace_product (apply_update data p) (products w)) w)).
Proof.
  unfold prisma_product_update.
  destruct (find _ _) as [p|]; [|eauto].
  destruct (match set_barcode data with Some _ => _ | None => _ end); eauto.
Qed.

(** The barcode the import picks for a product it creates. *)
Lemma uniqueBarcode_spec (barcode : option string) (shopifyId : string) (w : World) :
  uniqueBarcode barcode shopifyId w
  = (Return (Some match barcode with
                  | None => "shopify-" +:+ shopifyId
                  | Some b =>
                      if existsb (fun p => same_str (p_barcode p) b) (products w)
                      then b +:+ "-" +:+ shopifyId
                      else b
                  end), w).
Proof.
  destruct barcode as [b|]; [|reflexivity].
  unfold uniqueBarcode, bind, prisma_product_findUnique_barcode.
  destruct (find _ _) as [p|] eqn:Hf.
  - rewrite (find_some_existsb _ _ _ Hf). reflexivity.
  - rewrite (find_none_existsb _ _ Hf). reflexivity.
Qed.

(** One turn of the loop issues at most one call, an
    [inventoryLevel.list], whatever its outcome. *)
Lemma import_product_calls (client : Client) (sp : ShopifyProduct) (w : World) :
  ∃ issued,
    calls (import_product client sp w).2 = calls w ++ issued
    ∧ Forall (fun c => is_inventoryLevel_list c = true) issued.
Proof.
  destruct (import_product_prelude client sp w)
    as (w1 & typeId & stock & issued & Hp & _ & _ & Hc & Hi & ->).
  exists issued. split.
  - cbv zeta. rewrite <- Hc.
    destruct (find (has_shopify_id _) _) as [existing|].
    + unfold bind.
      match goal with
      | |- context [prisma_product_update ?i ?d ?w0] =>
          destruct (prisma_product_update_cases i d w0) as [[e ->]|(p & _ & ->)]
      end; reflexivity.
    + unfold bind at 1. rewrite uniqueBarcode_spec.
      unfold bind, prisma_product_create.
      destruct (barcode_taken _ _ _); reflexivity.
  - destruct Hi as [->|[item ->]]; repeat constructor.
Qed.

(** The loop always runs to its end; each turn adds one to exactly one
    counter, and the calls it issues are [inventoryLevel.list] calls. *)
Lemma import_loop_spec (client : Client) (shopifyProducts : list ShopifyProduct) :
  ∀ (imported failed updated : nat) (w : World),
  ∃ imported' failed' updated' w' issued,
    import_loop client shopifyProducts imported failed updated w
    = (Return (imported', failed', updated'), w')
    ∧ imported' + updated' + failed'
      = imported + updated + failed + length shopifyProducts
    ∧ calls w' = calls w ++ issued
    ∧ Forall (fun c => is_inventoryLevel_list c = true) issued.
Proof.
  induction shopifyProducts as [|sp rest IH]; intros i f u w.
  - exists i, f, u, w, []. simpl. rewrite app_nil_r.
    repeat split; auto with lia.
  - simpl. unfold bind at 1, try_catch, bind at 1.
    destruct (import_product_calls client sp w) as (l1 & Hc1 & Hl1).
    destruct (import_product client sp w) as [[[|]|e] w1]; simpl in Hc1;
      unfold ret at 1.
    + destruct (IH (S i) f u w1) as (i' & f' & u' & w' & l2 & -> & Hsum & Hc2 & Hl2).
      exists i', f', u', w', (l1 ++ l2). split; [reflexivity|].
      split; [lia|]. split; [rewrite Hc2, Hc1, app_assoc; reflexivity|].
      apply Forall_app; auto.
    + destruct (IH i f (S u) w1) as (i' & f' & u' & w' & l2 & -> & Hsum & Hc2 & Hl2).
      exists i', f', u', w', (l1 ++ l2). split; [reflexivity|].
      split; [lia|]. split; [rewrite Hc2, Hc1, app_assoc; reflexivity|].
      apply Forall_app; auto.
    + destruct (IH i (S f) u w1) as (i' & f' & u' & w' & l2 & -> & Hsum & Hc2 & Hl2).
      exists i', f', u', w', (l1 ++ l2). split; [reflexivity|].
      split; [lia|]. split; [rewrite Hc2, Hc1, app_assoc; reflexivity|].
      apply Forall_app; auto.
Qed.

(** C9. Bulk import asks the platform for one page, with [limit: 50],
    and for nothing more of the catalog: of the calls it issues at most
    one is a [product.list], and its limit is 50.  The three counters
    add up to the total, and with a platform that honours the limit the
    total is at most 50, however large the remote catalog is. *)
Theorem C9_import_reads_a_single_page (w : World) :
  honours_limit →
  ∃ (res : ImportResult) (w' : World) (issued : list RemoteCall),
    importProductsFromShopify w = (Return res, w')
    ∧ calls w' = calls w ++ issued
    ∧ length (List.filter is_product_list issued) ≤ 1
    ∧ (∀ limit, Call_product_list limit ∈ issued → limit = 50%Z)
    ∧ imported res + updated res + failed res = total res
    ∧ total res ≤ 50.
Proof.
  intros Hlimit.
  unfold importProductsFromShopify, try_catch, bind at 1.
  destruct (getShopifyClient_reads w) as [[client|] ->].
  - unfold bind at 1, remote_call.
    destruct (product_list client 50 (remote w)) as [[page|] r'] eqn:Hpage.
    + set (w1 := with_remote _ _ _).
      unfold bind at 1.
      destruct (import_loop_spec client page 0 0 0 w1)
        as (i & f & u & w' & l & -> & Hsum & Hc & Hl).
      unfold ret.
      exists {| success := true; total := length page; imported := i;
                failed := f; updated := u |}, w', (Call_product_list 50 :: l).
      split; [reflexivity|].
      split; [rewrite Hc; subst w1; simpl; rewrite <- app_assoc; reflexivity|].
      assert (List.filter is_product_list l = []) as Hnone.
      { clear -Hl. induction Hl as [|c l Hc Hl IH]; [reflexivity|].
        simpl. destruct c; try discriminate. exact IH. }
      split; [simpl; rewrite Hnone; simpl; lia|]. split.
      { intros limit [Heq|Hin]%elem_of_cons; [congruence|].
        rewrite Forall_forall in Hl. apply Hl in Hin. discriminate. }
      split; [simpl; lia|].
      simpl. apply Hlimit in Hpage. simpl in Hpage. lia.
    + exists {| success := false; total := 0; imported := 0; failed := 0;
                updated := 0 |}, (with_remote r' (Call_product_list 50) w),
             [Call_product_list 50].
      split; [reflexivity|]. split; [reflexivity|]. split; [simpl; lia|].
      split; [|simpl; lia].
      intros limit Hin%list_elem_of_singleton. congruence.
  - exists {| success := false; total := 0; imported := 0; failed := 0;
              updated := 0 |}, w, [].
    split; [reflexivity|]. split; [rewrite app_nil_r; reflexivity|].
    split; [simpl; lia|]. split; [|simpl; lia].
    intros limit Hin. inversion Hin.
Qed.

Lemma find_id_eq (id : oid) (ps : list Product) (p : Product) :
  find (fun q => Nat.eqb (p_id q) id) ps = Some p → p_id p = id.
Proof. intros [_ E]%find_some. apply Nat.eqb_eq. exact E. Qed.

(** A remote product that some local product records is never created
    again: the turn either fails and leaves the product table as it was,
    or updates the record, which then carries the one-entry mapping. *)
Lemma import_product_matched
    (client : Client) (sp : ShopifyProduct) (w : World) (existing : Product) :
  find (has_shopify_id (JS.toString (sp_id sp))) (products w) = Some existing →
  (∃ e w', import_product client sp w = (Throw e, w')
           ∧ products w' = products w)
  ∨ (∃ w' p',
       import_product client sp w = (Return Updated, w')
       ∧ products w' = replace_product p' (products w)
       ∧ p_id p' = p_id existing
       ∧ is_Some (find (fun q => Nat.eqb (p_id q) (p_id existing)) (products w))
       ∧ p_externalIds p' = Some {[ "shopify" := JS.toString (sp_id sp) ]}).
Proof.
  intros Hfind.
  destruct (import_product_prelude client sp w)
    as (w1 & typeId & stock & issued & Hp & _ & _ & _ & _ & ->).
  cbv zeta. rewrite Hfind. unfold bind.
  match goal with
  | |- context [prisma_product_update ?i ?d ?w0] =>
      destruct (prisma_product_update_cases i d w0) as [[e ->]|(p & Hp0 & ->)]
  end.
  - left. eauto.
  - right. eexists _, _. split; [reflexivity|]. simpl. rewrite Hp in *.
    split; [reflexivity|]. split; [exact (find_id_eq _ _ _ Hp0)|].
    split; [rewrite Hp0; eauto|reflexivity].
Qed.


(** What the import creates for a remote product nobody records: one
    new product at the end of the table, linked to the remote id, whose
    barcode is the remote barcode when it is free, the barcode followed
    by [-] and the remote id when it is held, and [shopify-] followed by
    the remote id when the remote product has no barcode. *)
Lemma import_product_created
    (client : Client) (sp : ShopifyProduct) (w w' : World) (o : ImportOutcome) :
  find (has_shopify_id (JS.toString (sp_id sp))) (products w) = None →
  import_product client sp w = (Return o, w') →
  o = Imported
  ∧ ∃ p,
      products w' = products w ++ [p]
      ∧ p_externalIds p = Some {[ "shopify" := JS.toString (sp_id sp) ]}
      ∧ barcode_taken None (p_barcode p) (products w) = false
      ∧ p_barcode p =
          Some match JS.or_null (match head (sp_variants sp) with
                                 | Some v => v_barcode v
                                 | None => None
                                 end) with
               | None => "shopify-" +:+ JS.toString (sp_id sp)
               | Some b =>
                   if existsb (fun q => same_str (p_barcode q) b) (products w)
                   then b +:+ "-" +:+ JS.toString (sp_id sp)
                   else b
               end.
Proof.
  intros Hfind.
  destruct (import_product_prelude client sp w)
    as (w1 & typeId & stock & issued & Hp & _ & _ & _ & _ & ->).
  cbv zeta. rewrite Hfind. unfold bind at 1. rewrite uniqueBarcode_spec.
  unfold bind, prisma_product_create. rewrite Hp.
  destruct (barcode_taken _ _ _) eqn:Htaken; [discriminate|].
  intros [= <- <-]. split; [reflexivity|].
  eexists. simpl. split; [reflexivity|]. split; [reflexivity|].
  split; [exact Htaken|reflexivity].
Qed.

(** *** Running the import again *)

Lemma linked_find (shopifyId : string) (w : World) :
  linked shopifyId w = true
  ↔ is_Some (find (has_shopify_id shopifyId) (products w)).
Proof.
  unfold linked. split.
  - intros Hl. destruct (find _ _) eqn:Hf; [eauto|].
    rewrite (find_none_existsb _ _ Hf) in Hl. discriminate.
  - intros [p Hf]. exact (find_some_existsb _ _ _ Hf).
Qed.

(** A product records at most one Shopify id. *)
Lemma has_shopify_id_inj (a b : string) (q : Product) :
  has_shopify_id a q = true → has_shopify_id b q = true → a = b.
Proof.
  unfold has_shopify_id.
  destruct (p_externalIds q) as [m|]; [|discriminate].
  destruct (m !! "shopify") as [s|]; simpl; [|discriminate].
  rewrite !String.eqb_eq. congruence.
Qed.

Lemma has_shopify_id_singleton (shopifyId : string) (p : Product) :
  p_externalIds p = Some {[ "shopify" := shopifyId ]} →
  has_shopify_id shopifyId p = true.
Proof.
  unfold has_shopify_id. intros ->. rewrite lookup_singleton_eq. simpl.
  apply String.eqb_refl.
Qed.

Lemma unique_by_id (ps : list Product) (p q : Product) :
  NoDup (p_id <$> ps) → p ∈ ps → q ∈ ps → p_id p = p_id q → p = q.
Proof.
  induction ps as [|x ps IH]; [intros _ Hp; inversion Hp|].
  rewrite fmap_cons, NoDup_cons. intros [Hx Hnd].
  rewrite !elem_of_cons. intros [->|Hp] [->|Hq] Hid; auto.
  - exfalso. apply Hx. rewrite Hid. apply list_elem_of_fmap_2. exact Hq.
  - exfalso. apply Hx. rewrite <- Hid. apply list_elem_of_fmap_2. exact Hp.
Qed.

Lemma replace_product_ids (p' : Product) (ps : list Product) :
  p_id <$> replace_product p' ps = p_id <$> ps.
Proof.
  induction ps as [|q ps IH]; [reflexivity|].
  cbn. f_equal; [|exact IH].
  destruct (Nat.eqb_spec (p_id q) (p_id p')); congruence.
Qed.

Lemma wf_store_next (w w1 : World) :
  products w1 = products w → next_oid w ≤ next_oid w1 →
  wf_store w → wf_store w1.
Proof.
  unfold wf_store. intros -> Hn [Hnd Hlt]. split; [exact Hnd|].
  eapply Forall_impl; [exact Hlt|]. simpl. intros. lia.
Qed.

(** One turn of the loop keeps the table well formed and keeps every link
    it found; when it does not fail, the remote product it handled is
    linked afterwards; and a remote product that was linked before is not
    created again. *)
Lemma import_product_step
    (client : Client) (sp : ShopifyProduct) (w w' : World)
    (o : Outcome ImportOutcome) :
  wf_store w →
  import_product client sp w = (o, w') →
  wf_store w'
  ∧ (∀ shopifyId, linked shopifyId w = true → linked shopifyId w' = true)
  ∧ (∀ outcome, o = Return outcome → linked (JS.toString (sp_id sp)) w' = true)
  ∧ (linked (JS.toString (sp_id sp)) w = true →
     o ≠ Return Imported ∧ length (products w') = length (products w)).
Proof.
  intros Hwf.
  destruct (import_product_prelude client sp w)
    as (w1 & typeId & stock & issued & Hp & _ & Hn & _ & _ & ->).
  pose proof (wf_store_next w w1 Hp Hn Hwf) as Hwf1.
  assert (∀ shopifyId, linked shopifyId w1 = linked shopifyId w) as Hl1
    by (intros; unfold linked; rewrite Hp; reflexivity).
  cbv zeta.
  destruct (find (has_shopify_id _) (products w)) as [existing|] eqn:Hfind.
  - (* the remote product is recorded: update *)
    unfold bind.
    match goal with
    | |- context [prisma_product_update ?i ?d ?w0] =>
        destruct (prisma_product_update_cases i d w0) as [[e ->]|(p0 & Hp0 & ->)]
    end.
    + intros [= <- <-]. split; [exact Hwf1|]. split; [intros; rewrite Hl1; auto|].
      split; [discriminate|]. intros _. split; [discriminate|]. rewrite Hp. done.
    + set (p' := apply_update _ p0). intros [= <- <-].
      assert (p_id p' = p_id existing) as Hid by exact (find_id_eq _ _ _ Hp0).
      assert (has_shopify_id (JS.toString (sp_id sp)) p' = true) as Hp'
        by (apply has_shopify_id_singleton; reflexivity).
      assert (existing ∈ products w1) as Hin.
      { rewrite Hp. apply list_elem_of_In. eapply find_some; eauto. }
      destruct Hwf1 as [Hnd Hlt].
      split; [|split; [|split]].
      * unfold wf_store. simpl. rewrite replace_product_ids. auto.
      * intros shopifyId. unfold linked. simpl.
        rewrite !existsb_exists. intros (q & Hq & Hs). rewrite <- Hp in Hq.
        destruct (Nat.eqb_spec (p_id q) (p_id p')) as [E|E].
        -- exists p'. split.
           ++ apply in_map_iff. exists q. split; [|exact Hq].
              destruct (Nat.eqb_spec (p_id q) (p_id p')); congruence.
           ++ assert (q = existing) as ->.
              { apply (unique_by_id (products w1)); auto.
                - apply list_elem_of_In; exact Hq.
                - congruence. }
              apply find_some in Hfind as [_ Hs'].
              rewrite (has_shopify_id_inj _ _ _ Hs Hs'). exact Hp'.
        -- exists q. split; [|exact Hs].
           apply in_map_iff. exists q. split; [|exact Hq].
           destruct (Nat.eqb_spec (p_id q) (p_id p')); congruence.
      * intros _ _. unfold linked. simpl. apply existsb_exists.
        exists p'. split; [|exact Hp'].
        apply in_map_iff. exists existing. split.
        -- rewrite <- Hid, Nat.eqb_refl. reflexivity.
        -- apply list_elem_of_In. exact Hin.
      * intros _. split; [discriminate|]. simpl.
        unfold replace_product. rewrite length_map, Hp. reflexivity.
  - (* nobody records the remote product: create *)
    unfold bind at 1. rewrite uniqueBarcode_spec.
    unfold bind, prisma_product_create.
    destruct (barcode_taken _ _ _).
    + intros [= <- <-]. split; [exact Hwf1|]. split; [intros; rewrite Hl1; auto|].
      split; [discriminate|]. intros _. split; [discriminate|]. rewrite Hp. done.
    + set (p := {| p_id := next_oid w1 |}). intros [= <- <-].
      destruct Hwf1 as [Hnd Hlt].
      split; [|split; [|split]].
      * unfold wf_store. simpl. rewrite fmap_app. split.
        -- apply NoDup_app. split; [exact Hnd|]. split; [|apply NoDup_singleton].
           intros i Hi Hi'. apply list_elem_of_singleton in Hi'. subst i.
           rewrite Forall_forall in Hlt. apply Hlt in Hi. simpl in Hi. lia.
        -- apply Forall_app. split.
           ++ eapply Forall_impl; [exact Hlt|]. simpl. intros. lia.
           ++ repeat constructor.
      * intros shopifyId. unfold linked. simpl. rewrite <- Hp, existsb_app.
        intros ->. reflexivity.
      * intros _ _. unfold linked. simpl. rewrite existsb_app. simpl.
        rewrite (has_shopify_id_singleton _ p) by reflexivity.
        rewrite orb_true_r. reflexivity.
      * intros Hl. apply linked_find in Hl as [q Hq]. congruence.
Qed.

(** A turn of the loop, as the loop sees it: [None] for a failed turn. *)
Lemma import_loop_cons
    (client : Client) (sp : ShopifyProduct) (rest : list ShopifyProduct)
    (imported failed updated : nat) (w : World) :
  import_loop client (sp :: rest) imported failed updated w =
    match import_product client sp w with
    | (Return Imported, w1) => import_loop client rest (S imported) failed updated w1
    | (Return Updated, w1) => import_loop client rest imported failed (S updated) w1
    | (Throw _, w1) => import_loop client rest imported (S failed) updated w1
    end.
Proof.
  simpl. unfold bind at 1, try_catch, bind at 1.
  destruct (import_product client sp w) as [[[|]|e] w1]; reflexivity.
Qed.

(** The loop keeps the links and the well-formedness of the table, the
    failure counter never goes down, and when it has not moved every
    remote product of the page is linked at the end. *)
Lemma import_loop_links (client : Client) (page : list ShopifyProduct) :
  ∀ (i f u : nat) (w : World) (i' f' u' : nat) (w' : World),
    wf_store w →
    import_loop client page i f u w = (Return (i', f', u'), w') →
    wf_store w'
    ∧ f ≤ f'
    ∧ (∀ shopifyId, linked shopifyId w = true → linked shopifyId w' = true)
    ∧ (f' = f → ∀ sp, sp ∈ page → linked (JS.toString (sp_id sp)) w' = true).
Proof.
  induction page as [|sp rest IH]; intros i f u w i' f' u' w' Hwf.
  - intros [= <- <- <- <-]. split; [exact Hwf|]. split; [lia|].
    split; [auto|]. intros _ sp Hsp. inversion Hsp.
  - rewrite import_loop_cons.
    destruct (import_product client sp w) as [o w1] eqn:Hstep.
    destruct (import_product_step client sp w w1 o Hwf Hstep)
      as (Hwf1 & Hkeep & Hnow & _).
    destruct o as [[|]|e]; intros Hrest;
      destruct (IH _ _ _ _ _ _ _ _ Hwf1 Hrest) as (Hwf' & Hle & Hkeep' & Hall);
      (split; [exact Hwf'|]); (split; [lia|]); (split; [auto|]);
      intros Hf; try lia;
      intros sp' [->|Hsp']%elem_of_cons; eauto.
Qed.

(** When every remote product of the page is linked, the loop creates
    nothing. *)
Lemma import_loop_linked (client : Client) (page : list ShopifyProduct) :
  ∀ (i f u : nat) (w : World) (i' f' u' : nat) (w' : World),
    wf_store w →
    (∀ sp, sp ∈ page → linked (JS.toString (sp_id sp)) w = true) →
    import_loop client page i f u w = (Return (i', f', u'), w') →
    i' = i ∧ length (products w') = length (products w).
Proof.
  induction page as [|sp rest IH]; intros i f u w i' f' u' w' Hwf Hall.
  - intros [= <- <- <- <-]. auto.
  - rewrite import_loop_cons.
    destruct (import_product client sp w) as [o w1] eqn:Hstep.
    destruct (import_product_step client sp w w1 o Hwf Hstep)
      as (Hwf1 & Hkeep & _ & Hsame).
    destruct Hsame as [Hnot Hlen]; [apply Hall; left|].
    assert (∀ sp', sp' ∈ rest → linked (JS.toString (sp_id sp')) w1 = true)
      as Hall1 by (intros; apply Hkeep, Hall; right; assumption).
    destruct o as [[|]|e]; [congruence| |]; intros Hrest;
      destruct (IH _ _ _ _ _ _ _ _ Hwf1 Hall1 Hrest) as [-> Hlen'];
      split; congruence.
Qed.

(** The part of the round trip that holds.  With a well-formed product
    table, when a first import of a page had no failure, a second import
    of the same page creates nothing: its [imported] counter stays at
    zero and the product table keeps its length.  (Its products are
    counted as updated or as failed.) *)
Theorem reimport_creates_nothing
    (client : Client) (page : list ShopifyProduct) (w w1 w2 : World)
    (i1 u1 i2 f2 u2 : nat) :
  wf_store w →
  import_loop client page 0 0 0 w = (Return (i1, 0, u1), w1) →
  import_loop client page 0 0 0 w1 = (Return (i2, f2, u2), w2) →
  i2 = 0 ∧ i2 + u2 + f2 = length page
  ∧ length (products w2) = length (products w1).
Proof.
  intros Hwf Hfirst Hsecond.
  destruct (import_loop_links client page _ _ _ _ _ _ _ _ Hwf Hfirst)
    as (Hwf1 & _ & _ & Hall).
  destruct (import_loop_linked client page _ _ _ _ _ _ _ _ Hwf1
              (Hall eq_refl) Hsecond) as [-> Hlen].
  split; [reflexivity|]. split; [|exact Hlen].
  destruct (import_loop_spec client page 0 0 0 w1)
    as (i & f & u & w' & l & Hrun & Hsum & _).
  rewrite Hsecond in Hrun. injection Hrun as <- <- <- <-. lia.
Qed.

End BulkImport.

(** ** Runs on concrete inputs *)

Section Runs.
Import Mock Inputs.

Lemma mock_assigns_ids : assigns_ids.
Proof.
  intros client data r created r'. simpl. unfold create.
  destruct (online r); [|discriminate].
  intros [= <- _]. simpl. lia.
Qed.

Lemma mock_honours_limit : honours_limit.
Proof.
  intros client limit r page r'. simpl. unfold list_page.
  destruct (online r); [|discriminate].
  intros [= <- _]. rewrite length_take. lia.
Qed.

(** The gadget is synced twice from an empty shop: one create, then one
    update against the id 900 the shop assigned. *)
Lemma C1_witness :
  let product := {| base := gadget; productType := None; sku := None |} in
  let w1 := (syncProductToShopify product fresh_world).2 in
  syncProductToShopify product fresh_world = (Return true, w1)
  ∧ ∃ (client : Client) (created : ShopifyProduct) (stored : Product),
      product_create client (mapToShopifyProduct product) (remote fresh_world)
      = (Some created, remote w1)
      ∧ calls w1 = calls fresh_world
                   ++ [Call_product_create (mapToShopifyProduct product)]
      ∧ find (fun q => Nat.eqb (p_id q) (p_id (base product))) (products w1)
        = Some stored
      ∧ p_externalIds stored
        = Some (<["shopify" := JS.toString (sp_id created)]>
                  (default ∅ (p_externalIds (base product))))
      ∧ ∀ (type : option ProductType) (code : option SKU),
          let again := {| base := stored; productType := type; sku := code |} in
          ∃ ok w2,
            syncProductToShopify again w1 = (Return ok, w2)
            ∧ calls w2 = calls w1 ++ [Call_product_update (Some (sp_id created))
                                        (mapToShopifyProduct again)]
            ∧ products w2 = products w1.
Proof.
  intros product w1.
  assert (syncProductToShopify product fresh_world = (Return true, w1)) as Hrun
    by reflexivity.
  split; [exact Hrun|].
  apply (C1_second_sync_takes_the_update_path product fresh_world w1).
  - exact mock_assigns_ids.
  - intros client created r'. simpl. unfold create. simpl.
    intros [= <- _]. reflexivity.
  - reflexivity.
  - exact Hrun.
Defined.

Lemma C2_witness :
  hmac_sha256_base64 "s3cret" (raw_body forged_request) ≠ "bad-digest"
  ∧ ∃ message,
      webhook_POST forged_request linked_world
      = (Return {| status := 401; json := Json_error message |}, linked_world).
Proof.
  split; [discriminate|].
  apply (C2_digest_mismatch_is_rejected forged_request linked_world
           (shopify_row true) "s3cret" "bad-digest");
    (reflexivity || discriminate).
Defined.

(** C3 (the code at the failing input).  The store holds a product with
    barcode A and the shop a product 5 with the same barcode.  The first
    import creates a local product with barcode A-5.  The second import,
    with the shop unchanged, finds it by its remote id and tries to write
    the remote barcode A on it, which the uniqueness of barcodes rejects:
    the product is counted as failed, not as updated.  No product is
    added. *)
Theorem C3_reimport_counts_the_product_as_failed :
  let first := importProductsFromShopify collision_world in
  let second := importProductsFromShopify first.2 in
  first.1 = Return {| success := true; total := 1; imported := 1;
                      failed := 0; updated := 0 |}
  ∧ p_barcode <$> products first.2 = [Some "A"; Some "A-5"]
  ∧ catalog (remote first.2) = catalog (remote collision_world)
  ∧ second.1 = Return {| success := true; total := 1; imported := 0;
                         failed := 1; updated := 0 |}
  ∧ length (products second.2) = length (products first.2).
Proof. repeat split; vm_compute; reflexivity. Qed.

(** C4 (the code at the failing input).  When the store holds both the
    barcode A and the barcode A-5, on two products that record no remote
    id, the import of the remote product 5 with barcode A picks A-5 and
    the creation is rejected by the uniqueness of barcodes: the product
    is counted as failed and nothing is created. *)
Theorem C4_suffixed_barcode_is_not_checked :
  let run := importProductsFromShopify double_collision_world in
  p_barcode <$> products double_collision_world = [Some "A"; Some "A-5"]
  ∧ existsb (has_shopify_id "5") (products double_collision_world) = false
  ∧ (v_barcode <$> head (sp_variants (listing 5 "Remote widget" (Some "A"))))
    = Some (Some "A")
  ∧ catalog (remote double_collision_world)
    = [listing 5 "Remote widget" (Some "A")]
  ∧ run.1 = Return {| success := true; total := 1; imported := 0;
                      failed := 1; updated := 0 |}
  ∧ p_barcode <$> products run.2 = [Some "A"; Some "A-5"].
Proof. repeat split; vm_compute; reflexivity. Qed.

(** C5 (the claim fails).  A sale of 3 units of the linked widget, stock
    10: the sale is recorded and the stock is 7, and the only remote call
    is a [product.update]; the inventory-only sync, which would read the
    product, list its levels and set one, is not run. *)
Lemma C5_sale_does_not_run_the_inventory_sync :
  let after := sales_POST sale_of_three linked_world in
  (∃ sale, after.1 = Return {| status := 201; json := Json_sale sale |})
  ∧ p_stockCount <$> products after.2 = [7%Z; 3%Z]
  ∧ (∃ data, calls after.2 = [Call_product_update (Some 900%Z) data])
  ∧ existsb is_inventoryLevel_set (calls after.2) = false
  ∧ calls (syncInventoryToShopify 1 7 linked_world).2
    = [Call_product_get (Some 900%Z);
       Call_inventoryLevel_list (Some 1900%Z);
       Call_inventoryLevel_set (Some 1900%Z) 1 7].
Proof.
  cbv zeta. split; [eexists; reflexivity|].
  split; [reflexivity|].
  split; [eexists; reflexivity|].
  split; reflexivity.
Qed.

Lemma C5_witness :
  getShopifyClient linked_world = (Return (Some demo_client), linked_world)
  ∧ ∃ sale updated w',
      sales_POST sale_of_three linked_world
      = (Return {| status := 201; json := Json_sale sale |}, w')
      ∧ find (fun x => Nat.eqb (p_id x) 1) (products w') = Some (base updated)
      ∧ p_stockCount (base updated) = (10 - 3)%Z
      ∧ calls w' = calls linked_world
                   ++ [Call_product_update (JS.parseInt "900")
                         (mapToShopifyProduct updated)]
      ∧ vi_inventory_quantity <$> in_variants (mapToShopifyProduct updated)
        = [(10 - 3)%Z]
      ∧ ∀ c, c ∈ calls w' → c ∈ calls linked_world ∨ is_inventoryLevel_set c = false.
Proof.
  split; [reflexivity|].
  refine (proj1 (C5_sale_pushes_the_updated_product sale_of_three linked_world
                   1 3 linked_widget demo_client
                   (<["shopify" := "900"]> {[ "woocommerce" := "77" ]}) "900"
                   _ _ _ _ _ _ _ _ _ _));
    (reflexivity || (simpl; lia)).
Defined.

(** The notification renames the remote product 900, which the widget
    records; the widget keeps its name. *)
Lemma C6_witness :
  find (has_shopify_id "900") (products linked_world) = Some linked_widget
  ∧ p_name linked_widget = "Widget"
  ∧ JSON_parse (raw_body (signed_request "products/update"))
    = Some {| d_id := Some 900%Z; d_title := Some "Renamed";
              d_body_html := Some (Some "<p>new</p>") |}
  ∧ webhook_POST (signed_request "products/update") linked_world
    = (Return acknowledged, linked_world).
Proof.
  split; [reflexivity|]. split; [reflexivity|]. split; [reflexivity|].
  apply (C6_update_webhook_writes_nothing (signed_request "products/update")
           linked_world
           {| d_id := Some 900%Z; d_title := Some "Renamed";
              d_body_html := Some (Some "<p>new</p>") |}); reflexivity.
Defined.

(** The notification says that the remote product 900 is gone; the
    widget still records it. *)
Lemma C7_witness :
  find (has_shopify_id "900") (products linked_world) = Some linked_widget
  ∧ webhook_POST (signed_request "products/delete") linked_world
    = (Return acknowledged, linked_world)
  ∧ existsb (has_shopify_id "900")
      (products (webhook_POST (signed_request "products/delete") linked_world).2)
    = true.
Proof.
  split; [reflexivity|].
  assert (webhook_POST (signed_request "products/delete") linked_world
          = (Return acknowledged, linked_world)) as Hrun.
  { apply (C7_delete_webhook_leaves_the_link (signed_request "products/delete")
             linked_world
             {| d_id := Some 900%Z; d_title := Some "Renamed";
                d_body_html := Some (Some "<p>new</p>") |}); reflexivity. }
  split; [exact Hrun|]. rewrite Hrun. reflexivity.
Defined.

(** C8 (the claim fails).  The request without the digest header and the
    request with a wrong digest are both rejected with 401, and the two
    responses differ in their body. *)
Lemma C8_rejections_are_distinguishable :
  x_shopify_hmac_sha256 unsigned_request = None
  ∧ x_shopify_hmac_sha256 forged_request = Some "bad-digest"
  ∧ hmac_sha256_base64 "s3cret" (raw_body forged_request) ≠ "bad-digest"
  ∧ (webhook_POST unsigned_request linked_world).1
    = Return {| status := 401; json := Json_error "Invalid webhook request" |}
  ∧ (webhook_POST forged_request linked_world).1
    = Return {| status := 401; json := Json_error "Invalid webhook signature" |}
  ∧ (webhook_POST unsigned_request linked_world).1
    ≠ (webhook_POST forged_request linked_world).1.
Proof.
  split; [reflexivity|]. split; [reflexivity|]. split; [discriminate|].
  split; [reflexivity|]. split; [reflexivity|]. discriminate.
Qed.

Lemma C8_witness :
  webhook_POST unsigned_request linked_world
  = (Return {| status := 401; json := Json_error "Invalid webhook request" |},
     linked_world)
  ∧ webhook_POST forged_request linked_world
    = (Return {| status := 401; json := Json_error "Invalid webhook signature" |},
       linked_world).
Proof.
  apply (C8_rejections_share_the_status unsigned_request forged_request
           linked_world (shopify_row true) "s3cret" "bad-digest");
    try reflexivity; [left; reflexivity|discriminate].
Defined.

Lemma C9_witness :
  length (catalog big_shop) = 60
  ∧ ∃ (res : ImportResult) (w' : World) (issued : list RemoteCall),
      importProductsFromShopify big_world = (Return res, w')
      ∧ calls w' = calls big_world ++ issued
      ∧ length (List.filter is_product_list issued) ≤ 1
      ∧ (∀ limit, Call_product_list limit ∈ issued → limit = 50%Z)
      ∧ imported res + updated res + failed res = total res
      ∧ total res ≤ 50.
Proof.
  split; [reflexivity|].
  apply (C9_import_reads_a_single_page big_world). exact mock_honours_limit.
Defined.



End Runs.


(** ** The client factory and the operations without a client *)

Section EngineFacts.
Context `{FloatOps} `{!ShopifyApi} `{!ShopifyDeleteApi}.

Lemma truthy_str_Some (o : option string) :
  JS.truthy_str o = true → ∃ s, o = Some s ∧ s ≠ "" ∧ JS.or_str o "" = s.
Proof.
  destruct o as [s|]; [|discriminate]. simpl.
  destruct (String.eqb_spec s ""); [discriminate|eauto].
Qed.

(** X1. The client factory hands out a client exactly when the settings
    table has a Shopify row that is enabled and carries a non-empty shop
    name and a non-empty access token; the client is bound to these two,
    and to the API version of the row or to 2023-10 when the row has none.
    The factory never writes. *)
Theorem X1_client_exactly_when_configured (w : World) :
  ∃ client,
    getShopifyClient w = (Return client, w)
    ∧ (is_Some client ↔
       ∃ s, find is_shopify_row (integrationSettings w) = Some s
            ∧ isEnabled s = true
            ∧ JS.truthy_str (shopName (settings s)) = true
            ∧ JS.truthy_str (accessToken (settings s)) = true)
    ∧ (∀ c, client = Some c →
       ∃ s, find is_shopify_row (integrationSettings w) = Some s
            ∧ shopName (settings s) = Some (c_shopName c)
            ∧ accessToken (settings s) = Some (c_accessToken c)
            ∧ c_apiVersion c = JS.or_str (apiVersion (settings s)) "2023-10").
Proof.
  unfold getShopifyClient, try_catch, bind, getShopifySettings, ret.
  fold is_shopify_row.
  destruct (find is_shopify_row _) as [s|] eqn:Hf.
  - destruct (isEnabled s) eqn:He; simpl.
    + destruct (JS.truthy_str (shopName (settings s))) eqn:Hn; simpl.
      * destruct (JS.truthy_str (accessToken (settings s))) eqn:Ht; simpl.
        -- eexists. split; [reflexivity|]. split.
           ++ split; [intros _; exists s; auto|eauto].
           ++ intros c [= <-]. exists s. simpl.
              destruct (truthy_str_Some _ Hn) as (a & -> & _ & ->).
              destruct (truthy_str_Some _ Ht) as (b & -> & _ & ->). auto.
        -- eexists. split; [reflexivity|]. split; [|discriminate].
           split; [intros [? [=]]|]. intros (s' & [= <-] & _ & _ & Ht').
           congruence.
      * eexists. split; [reflexivity|]. split; [|discriminate].
        split; [intros [? [=]]|]. intros (s' & [= <-] & _ & Hn' & _).
        congruence.
    + eexists. split; [reflexivity|]. split; [|discriminate].
      split; [intros [? [=]]|]. intros (s' & [= <-] & He' & _). congruence.
  - eexists. split; [reflexivity|]. split; [|discriminate].
    split; [intros [? [=]]|]. intros (s' & [=] & _).
Qed.

(** Without a client every operation of the engine gives its "not
    performed" result at once. *)
Lemma no_client_no_effect (w : World) (product : ProductWithExternalIds)
    (productId : oid) (quantity : Z) :
  getShopifyClient w = (Return None, w) →
  syncProductToShopify product w = (Return false, w)
  ∧ syncInventoryToShopify productId quantity w = (Return false, w)
  ∧ deleteProductFromShopify productId w = (Return false, w)
  ∧ importProductsFromShopify w
    = (Return {| success := false; total := 0; imported := 0; failed := 0;
                 updated := 0 |}, w)
  ∧ syncAllProductsToShopify w
    = (Return {| all_success := false; all_total := 0; all_synced := 0;
                 all_failed := 0 |}, w).
Proof.
  intros Hc.
  unfold syncProductToShopify, syncInventoryToShopify,
    deleteProductFromShopify, importProductsFromShopify,
    syncAllProductsToShopify, try_catch, bind.
  rewrite Hc. auto.
Qed.

(** X2. When the integration is disabled, missing or without credentials
    (the factory gives no client), single-product sync, inventory sync and
    delete propagation return [false], bulk import and bulk sync return
    their all-zero failure result, and none of them writes anything or
    calls the platform: the world is returned as it was. *)
Theorem X2_no_client_no_effect (w : World) (product : ProductWithExternalIds)
    (productId : oid) (quantity : Z) :
  getShopifyClient w = (Return None, w) →
  syncProductToShopify product w = (Return false, w)
  ∧ syncInventoryToShopify productId quantity w = (Return false, w)
  ∧ deleteProductFromShopify productId w = (Return false, w)
  ∧ importProductsFromShopify w
    = (Return {| success := false; total := 0; imported := 0; failed := 0;
                 updated := 0 |}, w)
  ∧ syncAllProductsToShopify w
    = (Return {| all_success := false; all_total := 0; all_synced := 0;
                 all_failed := 0 |}, w).
Proof. apply no_client_no_effect. Qed.

(** X3. Delete propagation for a product that carries no Shopify id, or
    that is not in the table, does nothing: the platform is not asked and
    nothing is written.  It returns [true] when the factory gives a
    client and [false] when it gives none. *)
Theorem X3_delete_unlinked_is_a_no_op (productId : oid) (w : World) :
  JS.truthy_str
    (shopify_id_of (find (fun p => Nat.eqb (p_id p) productId) (products w)))
  = false →
  ∃ client,
    getShopifyClient w = (Return client, w)
    ∧ deleteProductFromShopify productId w
      = (Return (bool_decide (is_Some client)), w).
Proof.
  intros Hid.
  destruct (getShopifyClient_reads w) as [client Hc].
  exists client. split; [exact Hc|].
  unfold deleteProductFromShopify, try_catch, bind, prisma_product_findUnique.
  rewrite Hc. destruct client as [client|]; [|reflexivity].
  rewrite Hid. reflexivity.
Qed.

(** X4. Delete propagation never touches the local tables nor the list of
    calls, whatever the product and whatever the platform answers: it
    always returns, and the world it leaves differs from the one it found
    in the state of the platform at most.  For a linked product the
    result tells whether the platform accepted the deletion of the stored
    remote id. *)
Theorem X4_delete_propagation_is_remote_only (productId : oid) (w : World) :
  ∃ ok r',
    deleteProductFromShopify productId w = (Return ok, with_remote_state r' w)
    ∧ ∀ client sid,
        getShopifyClient w = (Return (Some client), w) →
        shopify_id_of (find (fun p => Nat.eqb (p_id p) productId) (products w))
        = Some sid →
        JS.truthy_str (Some sid) = true →
        r' = (product_delete client (JS.parseInt sid) (remote w)).2
        ∧ ok = bool_decide
                 (is_Some (product_delete client (JS.parseInt sid) (remote w)).1).
Proof.
  assert (w = with_remote_state (remote w) w) as Hw by (destruct w; reflexivity).
  unfold deleteProductFromShopify, try_catch, bind, prisma_product_findUnique.
  destruct (getShopifyClient_reads w) as [[client|] Hc]; rewrite Hc.
  - destruct (JS.truthy_str _) eqn:Ht; simpl.
    + unfold remote_unlisted.
      destruct (product_delete _ _ _) as [[[]|] r'] eqn:Hd; simpl;
        eexists _, r'; (split; [reflexivity|]);
        intros c sid [= <-] Hs _; rewrite Hs in Hd; simpl in Hd;
        rewrite Hd; auto.
    + exists true, (remote w). split; [congruence|].
      intros c sid _ Hs Ht'. rewrite Hs in Ht. simpl in Ht, Ht'. congruence.
  - exists false, (remote w). split; [rewrite <- Hw; reflexivity|].
    intros c sid [=].
Qed.

(** X5. Inventory sync for a product that carries no Shopify id, or that
    is not in the table: it reports a failure and does nothing, the
    platform is not asked. *)
Theorem X5_inventory_sync_needs_a_link
    (productId : oid) (quantity : Z) (w : World) (client : Client) :
  getShopifyClient w = (Return (Some client), w) →
  JS.truthy_str
    (shopify_id_of (find (fun p => Nat.eqb (p_id p) productId) (products w)))
  = false →
  syncInventoryToShopify productId quantity w = (Return false, w).
Proof.
  intros Hc Hid.
  unfold syncInventoryToShopify, try_catch, bind, prisma_product_findUnique.
  unfold shopify_id_of in Hid. rewrite Hc, Hid. reflexivity.
Qed.

(** Inventory sync writes no table; its calls. *)
Lemma syncInventoryToShopify_frame (productId : oid) (quantity : Z) (w : World) :
  ∃ ok w' issued,
    syncInventoryToShopify productId quantity w = (Return ok, w')
    ∧ same_tables w w'
    ∧ calls w' = calls w ++ issued
    ∧ (∃ id item location,
         issued `prefix_of`
           [Call_product_get id; Call_inventoryLevel_list item;
            Call_inventoryLevel_set item location quantity]
         ∧ (ok = true → length issued = 3)).
Proof.
  assert (∀ (c1 c2 c3 : RemoteCall), [c1] `prefix_of` [c1; c2; c3]) as P1
    by (intros; exists [c2; c3]; reflexivity).
  assert (∀ (c1 c2 c3 : RemoteCall), [c1; c2] `prefix_of` [c1; c2; c3]) as P2
    by (intros; exists [c3]; reflexivity).
  assert (∀ w0 : World, same_tables w0 w0) as Srefl by (repeat split).
  unfold syncInventoryToShopify, try_catch, bind, prisma_product_findUnique.
  destruct (getShopifyClient_reads w) as [[client|] ->].
  - destruct (negb (JS.truthy_str _)).
    + exists false, w, []. rewrite app_nil_r.
      repeat split. exists None, None, 0%Z. split; [apply prefix_nil|discriminate].
    + unfold remote_call.
      destruct (product_get _ _ _) as [[remoteProduct|] r1].
      * destruct (sp_variants remoteProduct) as [|variant variants].
        -- eexists false, _, [_]. split; [reflexivity|]. split; [repeat split|].
           split; [reflexivity|]. eexists _, None, 0%Z.
           split; [apply P1|discriminate].
        -- simpl.
           destruct (inventoryLevel_list _ _ _) as [[[|level levels]|] r2]; simpl.
           ++ eexists false, _, [_; _]. split; [reflexivity|].
              split; [repeat split|]. split; [simpl; rewrite <- app_assoc; reflexivity|].
              eexists _, _, 0%Z. split; [apply P2|discriminate].
           ++ destruct (inventoryLevel_set _ _ _ _ _) as [[set|] r3]; simpl.
              ** eexists true, _, [_; _; _]. split; [reflexivity|].
                 split; [repeat split|].
                 split; [simpl; rewrite <- !app_assoc; reflexivity|].
                 eexists _, _, _. split; [reflexivity|reflexivity].
              ** eexists false, _, [_; _; _]. split; [reflexivity|].
                 split; [repeat split|].
                 split; [simpl; rewrite <- !app_assoc; reflexivity|].
                 eexists _, _, _. split; [reflexivity|discriminate].
           ++ eexists false, _, [_; _]. split; [reflexivity|].
              split; [repeat split|]. split; [simpl; rewrite <- app_assoc; reflexivity|].
              eexists _, _, 0%Z. split; [apply P2|discriminate].
      * eexists false, _, [_]. split; [reflexivity|]. split; [repeat split|].
        split; [reflexivity|]. eexists _, None, 0%Z.
        split; [apply P1|discriminate].
  - exists false, w, []. rewrite app_nil_r.
    repeat split. exists None, None, 0%Z. split; [apply prefix_nil|discriminate].
Qed.

(** X6. Inventory sync never writes a local table and always returns.
    Without a client, or for a product that records no Shopify id, it
    issues no call.  Otherwise its calls are, in this order and as far as
    the platform answers: read the remote product under the recorded id;
    list the levels of the inventory item of the first variant of the
    product read; set the level of that item, at the location of the
    first level listed, to the quantity it was given.  It returns [true]
    exactly when the level was set. *)
Theorem X6_inventory_sync_frame (productId : oid) (quantity : Z) (w : World) :
  ∃ ok w' issued,
    syncInventoryToShopify productId quantity w = (Return ok, w')
    ∧ same_tables w w'
    ∧ calls w' = calls w ++ issued
    ∧ (((getShopifyClient w = (Return None, w)
          ∨ JS.truthy_str
              (shopify_id_of
                 (find (fun p => Nat.eqb (p_id p) productId) (products w)))
            = false)
         ∧ issued = [] ∧ ok = false ∧ w' = w)
       ∨ ∃ client sid,
           getShopifyClient w = (Return (Some client), w)
           ∧ shopify_id_of
               (find (fun p => Nat.eqb (p_id p) productId) (products w))
             = Some sid
           ∧ JS.truthy_str (Some sid) = true
           ∧ let id := JS.parseInt sid in
             match product_get client id (remote w) with
             | (Some remoteProduct, r1) =>
                 match sp_variants remoteProduct with
                 | variant :: _ =>
                     let item := v_inventory_item_id variant in
                     match inventoryLevel_list client item r1 with
                     | (Some (level :: _), r2) =>
                         let location := il_location_id level in
                         issued = [Call_product_get id;
                                   Call_inventoryLevel_list item;
                                   Call_inventoryLevel_set item location quantity]
                         ∧ ok = bool_decide
                                  (is_Some (inventoryLevel_set client item
                                              location quantity r2).1)
                         ∧ remote w'
                           = (inventoryLevel_set client item location
                                quantity r2).2
                     | (_, r2) =>
                         issued = [Call_product_get id;
                                   Call_inventoryLevel_list item]
                         ∧ ok = false ∧ remote w' = r2
                     end
                 | [] => issued = [Call_product_get id] ∧ ok = false
                         ∧ remote w' = r1
                 end
             | (None, r1) => issued = [Call_product_get id] ∧ ok = false
                             ∧ remote w' = r1
             end).
Proof.
  assert (∀ w0 : World, same_tables w0 w0) as Srefl by (repeat split).
  unfold syncInventoryToShopify, try_catch, bind, prisma_product_findUnique.
  destruct (getShopifyClient_reads w) as [[client|] Hc]; rewrite Hc;
    [|exists false, w, []; rewrite app_nil_r; auto 10].
  unfold shopify_id_of.
  destruct (match find (fun p => Nat.eqb (p_id p) productId) (products w) with
            | Some p =>
                match p_externalIds p with
                | Some exIds => exIds !! "shopify"
                | None => None
                end
            | None => None
            end) as [sid|] eqn:Hsid;
    [|exists false, w, []; rewrite app_nil_r; cbn; auto 10].
  destruct (JS.truthy_str (Some sid)) eqn:Ht; cbn [negb];
    [|exists false, w, []; rewrite app_nil_r; auto 10].
  change (default "" (Some sid)) with sid. unfold remote_call.
  destruct (product_get client (JS.parseInt sid) (remote w))
    as [[remoteProduct|] r1] eqn:Hget.
  - destruct (sp_variants remoteProduct) as [|variant variants] eqn:Hv.
    + eexists false, _, [_]. split; [reflexivity|]. split; [repeat split|].
      split; [reflexivity|]. right. exists client, sid.
      cbv zeta. rewrite Hget, Hv. auto 10.
    + simpl.
      destruct (inventoryLevel_list client (v_inventory_item_id variant) r1)
        as [[[|level levels]|] r2] eqn:Hl; simpl.
      * eexists false, _, [_; _]. split; [reflexivity|].
        split; [repeat split|].
        split; [cbn; rewrite <- app_assoc; reflexivity|].
        right. exists client, sid.
        cbv zeta. rewrite Hget, Hv, Hl. auto 10.
      * destruct (inventoryLevel_set client (v_inventory_item_id variant)
                    (il_location_id level) quantity r2) as [[set|] r3] eqn:Hs;
          simpl.
        -- eexists true, _, [_; _; _]. split; [reflexivity|].
           split; [repeat split|].
           split; [cbn; rewrite <- !app_assoc; reflexivity|].
           right. exists client, sid.
           cbv zeta. rewrite Hget, Hv, Hl, Hs. cbn. auto 10.
        -- eexists false, _, [_; _; _]. split; [reflexivity|].
           split; [repeat split|].
           split; [cbn; rewrite <- !app_assoc; reflexivity|].
           right. exists client, sid.
           cbv zeta. rewrite Hget, Hv, Hl, Hs. cbn. auto 10.
      * eexists false, _, [_; _]. split; [reflexivity|].
        split; [repeat split|].
        split; [cbn; rewrite <- app_assoc; reflexivity|].
        right. exists client, sid.
        cbv zeta. rewrite Hget, Hv, Hl. auto 10.
  - eexists false, _, [_]. split; [reflexivity|]. split; [repeat split|].
    split; [reflexivity|]. right. exists client, sid.
    cbv zeta. rewrite Hget. auto 10.
Qed.

(** *** Linking a product by hand *)

Lemma replace_keeps_fields (p' p0 : Product) (ps : list Product) :
  NoDup (p_id <$> ps) →
  find (fun q => Nat.eqb (p_id q) (p_id p')) ps = Some p0 →
  without_links p' = without_links p0 →
  without_links <$> replace_product p' ps = without_links <$> ps.
Proof.
  intros Hnd Hfind Heq. unfold replace_product.
  rewrite <- list_fmap_compose. apply list_fmap_ext.
  intros i q Hq. simpl.
  destruct (Nat.eqb_spec (p_id q) (p_id p')) as [E|_]; [|reflexivity].
  assert (q = p0) as ->; [|exact Heq].
  apply (unique_by_id ps); auto.
  - eapply list_elem_of_lookup_2; eauto.
  - apply list_elem_of_In. eapply find_some; eauto.
  - rewrite E. symmetry. exact (find_id_eq _ _ _ Hfind).
Qed.

Lemma replace_keeps_others (p' q : Product) (ps : list Product) :
  q ∈ ps → p_id q ≠ p_id p' → q ∈ replace_product p' ps.
Proof.
  intros Hq Hne. unfold replace_product.
  apply list_elem_of_In, in_map_iff. exists q. split.
  - destruct (Nat.eqb_spec (p_id q) (p_id p')); congruence.
  - apply list_elem_of_In. exact Hq.
Qed.

(** X7. [updateProductWithShopifyId] on a product of the table: it
    succeeds, the product is found under its id with the given Shopify id
    recorded, with the entries of every other system as they were and with
    every other field as it was, and the table keeps its length.  On a
    product that is not in the table it returns [false] and writes
    nothing. *)
Theorem X7_link_by_hand_keeps_the_other_entries
    (productId : oid) (shopifyId : string) (w : World) :
  match find (fun q => Nat.eqb (p_id q) productId) (products w) with
  | Some p =>
      ∃ w' p',
        updateProductWithShopifyId productId shopifyId w = (Return true, w')
        ∧ find (fun q => Nat.eqb (p_id q) productId) (products w') = Some p'
        ∧ without_links p' = without_links p
        ∧ default ∅ (p_externalIds p') !! "shopify" = Some shopifyId
        ∧ (∀ system, system ≠ "shopify" →
             default ∅ (p_externalIds p') !! system
             = default ∅ (p_externalIds p) !! system)
        ∧ length (products w') = length (products w)
  | None => updateProductWithShopifyId productId shopifyId w = (Return false, w)
  end.
Proof.
  unfold updateProductWithShopifyId, try_catch, bind,
    prisma_product_findUnique.
  destruct (find _ (products w)) as [p|] eqn:Hfind.
  - erewrite prisma_product_update_ok by (exact Hfind || reflexivity).
    set (p' := apply_update _ p).
    assert (p_id p' = productId) as Hid by exact (find_id_eq _ _ _ Hfind).
    exists (with_products (replace_product p' (products w)) w), p'.
    split; [reflexivity|]. split.
    { simpl. rewrite <- Hid. apply find_replace_product.
      rewrite Hid, Hfind. eauto. }
    split; [reflexivity|]. split; [apply lookup_insert_eq|].
    split; [intros system Hne; simpl; apply lookup_insert_ne; congruence|].
    simpl. unfold replace_product. apply length_map.
  - unfold prisma_product_update. rewrite Hfind. reflexivity.
Qed.

(** X8. Linking by hand and syncing compose: once
    [updateProductWithShopifyId] has recorded the id [n], a safe integer,
    on a product, a sync of the product as stored issues one
    [product.update] against [n], and creates nothing. *)
Theorem X8_link_by_hand_then_sync_updates
    (productId : oid) (n : Z) (w : World) (client : Client) (p : Product) :
  JS.isSafeInteger n = true →
  getShopifyClient w = (Return (Some client), w) →
  find (fun q => Nat.eqb (p_id q) productId) (products w) = Some p →
  ∃ w1 stored,
    updateProductWithShopifyId productId (JS.toString n) w = (Return true, w1)
    ∧ find (fun q => Nat.eqb (p_id q) productId) (products w1) = Some stored
    ∧ ∀ (type : option ProductType) (code : option SKU),
        let again := {| base := stored; productType := type; sku := code |} in
        ∃ ok w2,
          syncProductToShopify again w1 = (Return ok, w2)
          ∧ calls w2 = calls w ++ [Call_product_update (Some n)
                                     (mapToShopifyProduct again)]
          ∧ products w2 = products w1.
Proof.
  intros Hsafe Hc Hfind.
  unfold updateProductWithShopifyId, try_catch, bind,
    prisma_product_findUnique.
  rewrite Hfind.
  erewrite prisma_product_update_ok by (exact Hfind || reflexivity).
  set (p' := apply_update _ p).
  set (w1 := with_products _ w).
  assert (p_id p' = productId) as Hid by exact (find_id_eq _ _ _ Hfind).
  exists w1, p'. split; [reflexivity|]. split.
  { simpl. rewrite <- Hid. apply find_replace_product.
    rewrite Hid, Hfind. eauto. }
  intros type code. set (again := {| base := p' |}).
  destruct (syncProductToShopify_linked again w1 client (JS.toString n))
    as (ok & w2 & Hrun & Hcalls & Hps & _).
  - eapply getShopifyClient_same_settings; [|exact Hc]. reflexivity.
  - simpl. apply lookup_insert_eq.
  - apply toString_truthy.
  - rewrite parseInt_toString in Hcalls by exact Hsafe. eauto.
Qed.

(** *** Saving the settings *)

Lemma find_update_first {A} (is_it : A → bool) (row : A) (rows : list A) :
  is_it row = true → is_Some (find is_it rows) →
  find is_it (update_first is_it row rows) = Some row.
Proof.
  intros Hrow. induction rows as [|r rest IH]; simpl; [intros [? [=]]|].
  destruct (is_it r) eqn:E; simpl.
  - rewrite Hrow. reflexivity.
  - rewrite E. exact IH.
Qed.

Lemma filter_update_first {A} (is_it : A → bool) (row : A) (rows : list A) :
  is_it row = true →
  length (List.filter is_it (update_first is_it row rows))
  = length (List.filter is_it rows)
  ∧ List.filter (fun r => negb (is_it r)) (update_first is_it row rows)
    = List.filter (fun r => negb (is_it r)) rows.
Proof.
  intros Hrow. induction rows as [|r rest [IH1 IH2]]; simpl; [auto|].
  destruct (is_it r) eqn:E; simpl; rewrite ?Hrow, ?E; simpl; auto.
  rewrite IH2. auto.
Qed.

Lemma find_app_none {A} (is_it : A → bool) (row : A) (rows : list A) :
  find is_it rows = None → is_it row = true →
  find is_it (rows ++ [row]) = Some row
  ∧ List.filter is_it rows = []
  ∧ List.filter is_it (rows ++ [row]) = [row]
  ∧ List.filter (fun r => negb (is_it r)) (rows ++ [row])
    = List.filter (fun r => negb (is_it r)) rows.
Proof.
  intros Hnone Hrow. induction rows as [|r rest IH]; simpl in *.
  - rewrite Hrow. auto.
  - destruct (is_it r) eqn:E; [discriminate|]. simpl.
    destruct (IH Hnone) as (-> & -> & -> & ->). auto.
Qed.

(** After a save, the row of the integration is the one saved. *)
Lemma saveShopifySettings_row
    (config : ShopifySettings) (enabled : bool) (w : World) :
  ∃ row w',
    saveShopifySettings config enabled w = (Return (Some row), w')
    ∧ find is_shopify_row (integrationSettings w') = Some row
    ∧ integrationType row = "shopify"
    ∧ isEnabled row = enabled
    ∧ settings row = config
    ∧ w' = with_integrationSettings (integrationSettings w') w
    ∧ length (List.filter is_shopify_row (integrationSettings w'))
      = Nat.max 1 (length (List.filter is_shopify_row (integrationSettings w)))
    ∧ List.filter (fun s => negb (is_shopify_row s)) (integrationSettings w')
      = List.filter (fun s => negb (is_shopify_row s)) (integrationSettings w).
Proof.
  unfold saveShopifySettings, try_catch, bind. fold is_shopify_row.
  destruct (find is_shopify_row (integrationSettings w)) as [existing|] eqn:Hf.
  - set (row := {| integrationType := integrationType existing |}).
    assert (is_shopify_row row = true) as Hrow.
    { apply find_some in Hf as [_ Hf]. exact Hf. }
    destruct (filter_update_first is_shopify_row row (integrationSettings w) Hrow)
      as [Hlen Hrest].
    eexists row, _. split; [reflexivity|]. simpl.
    split; [apply find_update_first; [exact Hrow|rewrite Hf; eauto]|].
    split; [apply String.eqb_eq; exact Hrow|].
    split; [reflexivity|]. split; [reflexivity|]. split; [reflexivity|].
    split; [|exact Hrest].
    rewrite Hlen. apply find_some in Hf as [Hin Hp].
    assert (In existing (List.filter is_shopify_row (integrationSettings w))) as Hin'
      by (apply filter_In; auto).
    destruct (List.filter is_shopify_row (integrationSettings w));
      [destruct Hin'|simpl; lia].
  - set (row := {| integrationType := "shopify" |}).
    destruct (find_app_none is_shopify_row row (integrationSettings w) Hf eq_refl)
      as (Hfind & Hnone & Hone & Hrest).
    eexists row, _. split; [reflexivity|]. simpl.
    split; [exact Hfind|]. do 4 (split; [reflexivity|]).
    rewrite Hone, Hnone. auto.
Qed.

(** X9. Saving and reading the settings is a round trip: after
    [saveShopifySettings], [getShopifySettings] returns a Shopify row with
    the flag and the settings that were saved.  The table holds as many
    Shopify rows as before, or one when it had none; the rows of other
    integrations, the products and the platform are not touched. *)
Theorem X9_saved_settings_are_read_back
    (config : ShopifySettings) (enabled : bool) (w : World) :
  ∃ row w',
    saveShopifySettings config enabled w = (Return (Some row), w')
    ∧ getShopifySettings w' = (Return (Some row), w')
    ∧ integrationType row = "shopify"
    ∧ isEnabled row = enabled
    ∧ settings row = config
    ∧ w' = with_integrationSettings (integrationSettings w') w
    ∧ length (List.filter is_shopify_row (integrationSettings w'))
      = Nat.max 1 (length (List.filter is_shopify_row (integrationSettings w)))
    ∧ List.filter (fun s => negb (is_shopify_row s)) (integrationSettings w')
      = List.filter (fun s => negb (is_shopify_row s)) (integrationSettings w).
Proof.
  destruct (saveShopifySettings_row config enabled w)
    as (row & w' & Hsave & Hfind & Hrest).
  exists row, w'. split; [exact Hsave|]. split; [|exact Hrest].
  unfold getShopifySettings. fold is_shopify_row. rewrite Hfind. reflexivity.
Qed.

Lemma getShopifyClient_of_row (w : World) (s : IntegrationSettings) :
  find is_shopify_row (integrationSettings w) = Some s →
  getShopifyClient w
  = (Return (if isEnabled s
                && JS.truthy_str (shopName (settings s))
                && JS.truthy_str (accessToken (settings s))
             then Some {| c_shopName := JS.or_str (shopName (settings s)) "";
                          c_accessToken := JS.or_str (accessToken (settings s)) "";
                          c_apiVersion := JS.or_str (apiVersion (settings s)) "2023-10" |}
             else None), w).
Proof.
  intros Hf.
  unfold getShopifyClient, try_catch, bind, getShopifySettings, ret.
  fold is_shopify_row. rewrite Hf.
  destruct (isEnabled s); simpl; [|reflexivity].
  destruct (JS.truthy_str (shopName (settings s))); simpl; [|reflexivity].
  destruct (JS.truthy_str (accessToken (settings s))); reflexivity.
Qed.

(** X10. Saving the settings switches the engine.  After a save with the
    flag off, every operation of the engine is a no-op on the world the
    save left.  After a save with the flag on, a shop name and an access
    token, the factory gives a client bound to them. *)
Theorem X10_saving_switches_the_engine
    (config : ShopifySettings) (enabled : bool) (w : World) :
  ∃ row w',
    saveShopifySettings config enabled w = (Return (Some row), w')
    ∧ (enabled = false →
       ∀ product productId quantity,
         syncProductToShopify product w' = (Return false, w')
         ∧ syncInventoryToShopify productId quantity w' = (Return false, w')
         ∧ deleteProductFromShopify productId w' = (Return false, w')
         ∧ (importProductsFromShopify w').2 = w'
         ∧ (syncAllProductsToShopify w').2 = w')
    ∧ (enabled = true →
       ∀ name token,
         shopName config = Some name → name ≠ "" →
         accessToken config = Some token → token ≠ "" →
         getShopifyClient w'
         = (Return (Some {| c_shopName := name; c_accessToken := token;
                            c_apiVersion := JS.or_str (apiVersion config) "2023-10" |}),
            w')).
Proof.
  destruct (saveShopifySettings_row config enabled w)
    as (row & w' & Hsave & Hfind & _ & Hen & Hcfg & _).
  exists row, w'. split; [exact Hsave|].
  pose proof (getShopifyClient_of_row w' row Hfind) as Hc.
  rewrite Hen, Hcfg in Hc. split.
  - intros ->. simpl in Hc. intros product productId quantity.
    destruct (no_client_no_effect w' product productId quantity Hc)
      as (Ha & Hb & Hd & He & Hf).
    rewrite He, Hf. auto.
  - intros -> name token Hn Hne Ht Hte. rewrite Hn, Ht in Hc. simpl in Hc.
    apply String.eqb_neq in Hne, Hte. rewrite Hne, Hte in Hc. exact Hc.
Qed.

(** *** What a sync may touch, and bulk sync *)

(** With a client, a sync issues exactly one call, the one [sync_call]
    names, and the only write it may do is the link of the product. *)
Lemma syncProductToShopify_with_client
    (product : ProductWithExternalIds) (w : World) (client : Client) :
  getShopifyClient w = (Return (Some client), w) →
  ∃ ok w',
    syncProductToShopify product w = (Return ok, w')
    ∧ calls w' = calls w ++ [sync_call product]
    ∧ productTypes w' = productTypes w
    ∧ skus w' = skus w
    ∧ sales w' = sales w
    ∧ integrationSettings w' = integrationSettings w
    ∧ next_oid w' = next_oid w
    ∧ (products w' = products w
       ∨ ∃ p0 p',
           find (fun q => Nat.eqb (p_id q) (p_id p')) (products w) = Some p0
           ∧ p_id p' = p_id (base product)
           ∧ without_links p' = without_links p0
           ∧ products w' = replace_product p' (products w)).
Proof.
  intros Hc. unfold syncProductToShopify, sync_call, try_catch, bind.
  rewrite Hc. destruct (JS.truthy_str _); unfold remote_call.
  - destruct (product_update _ _ _ _) as [[updated|] r']; simpl;
      eexists _, _; (split; [reflexivity|]); simpl; auto 10.
  - destruct (product_create _ _ _) as [[created|] r']; simpl.
    + destruct (negb (sp_id created =? 0)%Z).
      * match goal with
        | |- context [prisma_product_update ?i ?d ?w0] =>
            destruct (prisma_product_update_cases i d w0) as [[e ->]|(p0 & Hp0 & ->)]
        end; simpl.
        -- eexists _, _. split; [reflexivity|]. simpl. auto 10.
        -- eexists _, _. split; [reflexivity|]. simpl.
           do 6 (split; [reflexivity|]). right.
           eexists p0, _. split; [|split; [|split; [|reflexivity]]].
           ++ simpl. rewrite (find_id_eq _ _ _ Hp0). exact Hp0.
           ++ exact (find_id_eq _ _ _ Hp0).
           ++ reflexivity.
      * eexists _, _. split; [reflexivity|]. simpl. auto 10.
    + eexists _, _. split; [reflexivity|]. simpl. auto 10.
Qed.

(** A sync writes links only. *)
Lemma syncProductToShopify_frame
    (product : ProductWithExternalIds) (w : World) :
  NoDup (p_id <$> products w) →
  ∃ ok w',
    syncProductToShopify product w = (Return ok, w')
    ∧ only_links_differ w w'
    ∧ (∀ q, q ∈ products w → p_id q ≠ p_id (base product) → q ∈ products w')
    ∧ length (calls w') ≤ S (length (calls w)).
Proof.
  intros Hnd.
  destruct (getShopifyClient_reads w) as [[client|] Hc].
  - destruct (syncProductToShopify_with_client product w client Hc)
      as (ok & w' & Hrun & Hcalls & Ht & Hk & Hs & Hi & Hn & Hps).
    exists ok, w'. split; [exact Hrun|].
    split; [|split; [|rewrite Hcalls, length_app; simpl; lia]].
    + unfold only_links_differ. repeat split; auto.
      destruct Hps as [->|(p0 & p' & Hp0 & _ & Heq & ->)]; [reflexivity|].
      apply (replace_keeps_fields p' p0); auto.
    + intros q Hq Hne.
      destruct Hps as [->|(p0 & p' & _ & Hid & _ & ->)]; [exact Hq|].
      apply replace_keeps_others; congruence.
  - assert (syncProductToShopify product w = (Return false, w)) as Hrun
      by (unfold syncProductToShopify, try_catch, bind; rewrite Hc;
          reflexivity).
    exists false, w. split; [exact Hrun|]. split; [repeat split|].
    split; [auto|lia].
Qed.

(** X11. A sync never throws and never changes anything of the local
    store but links: on a table with distinct ids, every table is as
    before and every product has all its fields as before, its external
    ids apart; the products other than the one synced keep their external
    ids too.  At most one call is issued. *)
Theorem X11_sync_touches_only_the_link
    (product : ProductWithExternalIds) (w : World) :
  unique_ids (products w) = true →
  ∃ ok w',
    syncProductToShopify product w = (Return ok, w')
    ∧ only_links_differ w w'
    ∧ (∀ q, q ∈ products w → p_id q ≠ p_id (base product) → q ∈ products w')
    ∧ length (calls w') ≤ S (length (calls w)).
Proof.
  unfold unique_ids. rewrite bool_decide_eq_true.
  apply syncProductToShopify_frame.
Qed.

Lemma include_all_reads (ps : list Product) (w : World) :
  ∃ snapshot,
    include_all ps w = (Return snapshot, w) ∧ base <$> snapshot = ps.
Proof.
  induction ps as [|p rest [rest' [IH Hbase]]]; simpl.
  - exists []. auto.
  - unfold bind, include_relations. rewrite IH. unfold ret.
    eexists (_ :: rest'). split; [reflexivity|]. rewrite fmap_cons, Hbase.
    reflexivity.
Qed.

Lemma sync_loop_spec (client : Client) (snapshot : list ProductWithExternalIds) :
  ∀ (synced failed : nat) (w : World),
    getShopifyClient w = (Return (Some client), w) →
    ∃ synced' failed' w',
      sync_loop snapshot synced failed w = (Return (synced', failed'), w')
      ∧ synced' + failed' = synced + failed + length snapshot
      ∧ calls w' = calls w ++ (sync_call <$> snapshot)
      ∧ productTypes w' = productTypes w
      ∧ skus w' = skus w
      ∧ sales w' = sales w
      ∧ integrationSettings w' = integrationSettings w
      ∧ next_oid w' = next_oid w
      ∧ p_id <$> products w' = p_id <$> products w.
Proof.
  induction snapshot as [|product rest IH]; intros synced failed w Hc.
  - exists synced, failed, w. simpl. rewrite app_nil_r.
    repeat split; auto with lia.
  - simpl. unfold bind at 1.
    destruct (syncProductToShopify_with_client product w client Hc)
      as (ok & w1 & -> & Hcalls & Ht & Hk & Hs & Hi & Hn & Hps).
    assert (getShopifyClient w1 = (Return (Some client), w1)) as Hc1
      by (eapply getShopifyClient_same_settings; eauto).
    assert (p_id <$> products w1 = p_id <$> products w) as Hids.
    { destruct Hps as [->|(p0 & p' & _ & _ & _ & ->)]; [reflexivity|].
      apply replace_product_ids. }
    destruct ok.
    + destruct (IH (S synced) failed w1 Hc1)
        as (s' & f' & w' & -> & Hsum & Hc' & Ht' & Hk' & Hs' & Hi' & Hn' & Hids').
      exists s', f', w'. split; [reflexivity|]. split; [lia|].
      split; [rewrite Hc', Hcalls, <- app_assoc; reflexivity|].
      repeat split; congruence.
    + destruct (IH synced (S failed) w1 Hc1)
        as (s' & f' & w' & -> & Hsum & Hc' & Ht' & Hk' & Hs' & Hi' & Hn' & Hids').
      exists s', f', w'. split; [reflexivity|]. split; [lia|].
      split; [rewrite Hc', Hcalls, <- app_assoc; reflexivity|].
      repeat split; congruence.
Qed.

(** X12. Bulk sync, with a client: it reads the product table once and
    syncs each product of it, in order, with one call each, an update for
    a product that carries a Shopify id and a creation otherwise.  The
    total is the number of local products, [synced + failed] is the total,
    and [success] says that at least one product was synced (so it is
    [false] on an empty table).  No product is added or removed. *)
Theorem X12_bulk_sync_counts_and_calls (w : World) (client : Client) :
  getShopifyClient w = (Return (Some client), w) →
  ∃ res w' snapshot,
    syncAllProductsToShopify w = (Return res, w')
    ∧ include_all (products w) w = (Return snapshot, w)
    ∧ base <$> snapshot = products w
    ∧ calls w' = calls w ++ (sync_call <$> snapshot)
    ∧ all_total res = length (products w)
    ∧ all_synced res + all_failed res = all_total res
    ∧ (all_success res = true ↔ 0 < all_synced res)
    ∧ p_id <$> products w' = p_id <$> products w.
Proof.
  intros Hc.
  unfold syncAllProductsToShopify, try_catch, bind at 1. rewrite Hc.
  unfold bind at 1, prisma_product_findMany. unfold bind at 1.
  destruct (include_all_reads (products w) w) as (snapshot & Hsnap & Hbase).
  rewrite Hsnap. unfold bind at 1.
  destruct (sync_loop_spec client snapshot 0 0 w Hc)
    as (s' & f' & w' & -> & Hsum & Hcalls & _ & _ & _ & _ & _ & Hids).
  unfold ret.
  eexists _, w', snapshot. split; [reflexivity|]. simpl.
  assert (length snapshot = length (products w)) as Hlen
    by (rewrite <- Hbase, length_fmap; reflexivity).
  split; [reflexivity|]. split; [exact Hbase|]. split; [exact Hcalls|].
  split; [exact Hlen|]. split; [lia|]. split; [|exact Hids].
  destruct s'; simpl; split; (discriminate || lia || reflexivity).
Qed.

End EngineFacts.

(** ** More on bulk import *)

Section ImportFacts.
Context `{FloatOps} `{!ShopifyApi} `{Runtime}.

(** The first part of the loop body again, with what it computes: the
    product type it resolves and the stock count it reads. *)
Lemma import_product_resolves (client : Client) (sp : ShopifyProduct) (w : World) :
  let typeName := JS.or_str (sp_product_type sp) "General" in
  let item := match head (sp_variants sp) with
              | Some v => v_inventory_item_id v
              | None => None
              end in
  let stockCount :=
    if JS.truthy_num item then
      match (inventoryLevel_list client item (remote w)).1 with
      | Some (level :: _) => JS.or_zero (il_available level)
      | _ => 0%Z
      end
    else 0%Z in
  ∃ (w1 : World) (type : ProductType),
    products w1 = products w
    ∧ skus w1 = skus w
    ∧ sales w1 = sales w
    ∧ integrationSettings w1 = integrationSettings w
    ∧ pt_name type = typeName
    ∧ (productTypes w1 = productTypes w
       ∧ find (fun t => String.eqb (pt_name t) typeName) (productTypes w)
         = Some type
       ∨ find (fun t => String.eqb (pt_name t) typeName) (productTypes w) = None
         ∧ productTypes w1 = productTypes w ++ [type])
    ∧ import_product client sp w =
        let shopifyId := JS.toString (sp_id sp) in
        let firstVariant := head (sp_variants sp) in
        let price :=
          parseFloat (JS.or_str (match firstVariant with
                                 | Some v => v_price v
                                 | None => None
                                 end) "0") in
        let barcode :=
          JS.or_null (match firstVariant with
                      | Some v => v_barcode v
                      | None => None
                      end) in
        match find (has_shopify_id shopifyId) (products w) with
        | Some existing =>
            (prisma_product_update (p_id existing)
               {| set_name := Some (sp_title sp);
                  set_description := Some (sp_body_html sp);
                  set_price := Some price;
                  set_stockCount := Some stockCount;
                  set_barcode := Some barcode;
                  set_externalIds := Some {[ "shopify" := shopifyId ]} |} ;;
             ret Updated) w1
        | None =>
            (let! unique := uniqueBarcode barcode shopifyId in
             prisma_product_create
               {| new_name := sp_title sp;
                  new_description := sp_body_html sp;
                  new_price := price;
                  new_stockCount := stockCount;
                  new_barcode := unique;
                  new_productTypeId := pt_id type;
                  new_imageUrl := JS.or_null (sp_image sp);
                  new_externalIds := {[ "shopify" := shopifyId ]} |} ;;
             ret Imported) w1
        end.
Proof.
  intros typeName item stockCount. subst stockCount item.
  unfold import_product.
  unfold bind at 1, prisma_product_findMany.
  unfold bind at 1, prisma_productType_findFirst.
  fold typeName.
  assert (∃ wt type,
            products wt = products w
            ∧ skus wt = skus w
            ∧ sales wt = sales w
            ∧ integrationSettings wt = integrationSettings w
            ∧ remote wt = remote w
            ∧ pt_name type = typeName
            ∧ (productTypes wt = productTypes w
               ∧ find (fun t => String.eqb (pt_name t) typeName) (productTypes w)
                 = Some type
               ∨ find (fun t => String.eqb (pt_name t) typeName) (productTypes w) = None
                 ∧ productTypes wt = productTypes w ++ [type])
            ∧ match find (fun t => String.eqb (pt_name t) typeName) (productTypes w) with
              | Some t => ret (pt_id t)
              | None =>
                  let! newProductType :=
                    prisma_productType_create typeName
                      ("Imported from Shopify: " +:+ typeName) in
                  ret (pt_id newProductType)
              end w = (Return (pt_id type), wt))
    as (wt & type & Hp & Hk & Hs & Hi & Hr & Hname & Hty & Ht).
  { destruct (find _ (productTypes w)) as [t|] eqn:Hfind.
    - exists w, t. do 5 (split; [reflexivity|]).
      split; [apply find_some in Hfind as [_ E]; apply String.eqb_eq; exact E|].
      split; [left; eauto|reflexivity].
    - unfold bind, prisma_productType_create.
      rewrite (find_none_existsb _ _ Hfind). simpl.
      eexists (with_next_oid _ (with_productTypes _ w)),
        {| pt_id := next_oid w; pt_name := typeName;
           pt_description := Some ("Imported from Shopify: " +:+ typeName) |}.
      split; [|split; [|split; [|split; [|split; [|split; [|split]]]]]];
        [..|reflexivity]; try reflexivity.
      right. split; reflexivity. }
  unfold bind at 1. rewrite Ht.
  unfold bind at 1, try_catch at 1. rewrite <- Hr.
  destruct (JS.truthy_num _).
  - unfold bind at 1, remote_call.
    destruct (inventoryLevel_list _ _ _) as [[levels|] r'];
      [destruct levels as [|level levels]|]; simpl;
      eexists (with_remote r' _ wt), type;
      (split; [exact Hp|]); (split; [exact Hk|]); (split; [exact Hs|]);
      (split; [exact Hi|]); (split; [exact Hname|]); (split; [exact Hty|]);
      destruct (find (has_shopify_id _) _); reflexivity.
  - simpl. exists wt, type.
    split; [exact Hp|]. split; [exact Hk|]. split; [exact Hs|].
    split; [exact Hi|]. split; [exact Hname|]. split; [exact Hty|].
    destruct (find (has_shopify_id _) _); reflexivity.
Qed.

(** X13. What the import creates for a remote product that no local
    product records: one product, added at the end of the table, with the
    title, the HTML body, the image and the first variant's price of the
    remote product; linked to the remote id and to nothing else; of the
    product type named like the remote type ("General" when the remote
    product has none), which is in the table afterwards; with no SKU.
    Its barcode is the remote barcode when no local product holds it, the
    barcode followed by [-] and the remote id when one does, and
    [shopify-] followed by the remote id when the remote product has no
    barcode.  Its stock is the [available] of the first inventory level
    of the first variant, and 0 when the variant has no inventory item,
    when the platform rejects the lookup, when it lists no level or when
    the level has no count. *)
Theorem X13_what_the_import_creates
    (client : Client) (sp : ShopifyProduct) (w w' : World) (o : ImportOutcome) :
  find (has_shopify_id (JS.toString (sp_id sp))) (products w) = None →
  import_product client sp w = (Return o, w') →
  let firstVariant := head (sp_variants sp) in
  let item := match firstVariant with
              | Some v => v_inventory_item_id v
              | None => None
              end in
  o = Imported
  ∧ ∃ p type,
      products w' = products w ++ [p]
      ∧ p_name p = sp_title sp
      ∧ p_description p = sp_body_html sp
      ∧ p_imageUrl p = JS.or_null (sp_image sp)
      ∧ p_skuId p = None
      ∧ p_price p = parseFloat (JS.or_str (match firstVariant with
                                           | Some v => v_price v
                                           | None => None
                                           end) "0")
      ∧ p_externalIds p = Some {[ "shopify" := JS.toString (sp_id sp) ]}
      ∧ p_barcode p =
          Some match JS.or_null (match firstVariant with
                                 | Some v => v_barcode v
                                 | None => None
                                 end) with
               | None => "shopify-" +:+ JS.toString (sp_id sp)
               | Some b =>
                   if existsb (fun q => same_str (p_barcode q) b) (products w)
                   then b +:+ "-" +:+ JS.toString (sp_id sp)
                   else b
               end
      ∧ p_stockCount p =
          (if JS.truthy_num item then
             match (inventoryLevel_list client item (remote w)).1 with
             | Some (level :: _) => JS.or_zero (il_available level)
             | _ => 0%Z
             end
           else 0%Z)
      ∧ type ∈ productTypes w'
      ∧ pt_name type = JS.or_str (sp_product_type sp) "General"
      ∧ p_productTypeId p = pt_id type.
Proof.
  intros Hfind.
  destruct (import_product_resolves client sp w)
    as (w1 & type & Hp & _ & _ & _ & Hname & Hty & ->).
  cbv zeta. rewrite Hfind. unfold bind at 1. rewrite uniqueBarcode_spec.
  unfold bind, prisma_product_create. rewrite Hp.
  destruct (barcode_taken _ _ _); [discriminate|].
  intros [= <- <-]. split; [reflexivity|].
  eexists _, type. simpl.
  do 9 (split; [reflexivity|]).
  split; [|split; [exact Hname|reflexivity]].
  destruct Hty as [[-> Hf]|[_ ->]].
  - apply list_elem_of_In. eapply find_some; eauto.
  - apply elem_of_app. right. apply list_elem_of_singleton. reflexivity.
Qed.

(** X14. What the import writes on a product that records the remote id:
    name, description, price, stock and barcode are now the remote ones
    (the barcode is the raw remote barcode, or none), just as for a
    created product; the id, the image, the product type and the SKU of
    the product are as before, and the table keeps its length. *)
Theorem X14_what_the_import_updates
    (client : Client) (sp : ShopifyProduct) (w w' : World)
    (existing : Product) (o : ImportOutcome) :
  unique_ids (products w) = true →
  find (has_shopify_id (JS.toString (sp_id sp))) (products w) = Some existing →
  import_product client sp w = (Return o, w') →
  let firstVariant := head (sp_variants sp) in
  let item := match firstVariant with
              | Some v => v_inventory_item_id v
              | None => None
              end in
  ∃ p,
    find (fun q => Nat.eqb (p_id q) (p_id existing)) (products w') = Some p
    ∧ p_name p = sp_title sp
    ∧ p_description p = sp_body_html sp
    ∧ p_price p = parseFloat (JS.or_str (match firstVariant with
                                         | Some v => v_price v
                                         | None => None
                                         end) "0")
    ∧ p_barcode p = JS.or_null (match firstVariant with
                                | Some v => v_barcode v
                                | None => None
                                end)
    ∧ p_stockCount p =
        (if JS.truthy_num item then
           match (inventoryLevel_list client item (remote w)).1 with
           | Some (level :: _) => JS.or_zero (il_available level)
           | _ => 0%Z
           end
         else 0%Z)
    ∧ p_imageUrl p = p_imageUrl existing
    ∧ p_productTypeId p = p_productTypeId existing
    ∧ p_skuId p = p_skuId existing
    ∧ length (products w') = length (products w).
Proof.
  intros Hu Hfind.
  destruct (import_product_resolves client sp w)
    as (w1 & type & Hp & _ & _ & _ & _ & _ & ->).
  cbv zeta. rewrite Hfind. unfold bind.
  match goal with
  | |- context [prisma_product_update ?i ?d ?w0] =>
      destruct (prisma_product_update_cases i d w0) as [[e ->]|(p0 & Hp0 & ->)]
  end; [discriminate|].
  intros [= <- <-].
  rewrite Hp in Hp0. rewrite (find_by_id _ _ _ Hu Hfind) in Hp0.
  injection Hp0 as <-.
  eexists. split.
  - simpl. rewrite Hp.
    apply (find_replace_product (apply_update _ existing)).
    simpl. rewrite (find_by_id _ _ _ Hu Hfind). eauto.
  - simpl. rewrite Hp. unfold replace_product. rewrite length_map.
    repeat split; reflexivity.
Qed.

(** *** What a whole import keeps *)





End ImportFacts.


(** ** More on the webhook route *)

Section WebhookFacts.
Context `{FloatOps} `{!ShopifyApi} `{Runtime}.

(** What a request that is not verified gets. *)
Lemma webhook_POST_unverified (req : WebhookRequest) (w : World) :
  verified req w = false →
  ∃ resp,
    webhook_POST req w = (Return resp, w)
    ∧ (status resp = 400 ∨ status resp = 401 ∨ status resp = 500).
Proof.
  unfold verified, webhook_POST, try_catch, bind, getShopifySettings.
  destruct (find _ _) as [s|]; [|eauto].
  destruct (isEnabled s); simpl; [|eauto].
  destruct (JS.truthy_str (x_shopify_hmac_sha256 req)); simpl; [|eauto].
  destruct (JS.truthy_str (x_shopify_shop_domain req)); simpl; [|eauto].
  destruct (apiSecret (settings s)) as [secret|]; simpl; [|eauto].
  unfold ret. intros ->. simpl. eauto.
Qed.

(** X16. Only a verified request is acknowledged, and a request that is
    not verified changes nothing: whatever is wrong with it (integration
    missing or disabled, a header missing, no secret stored, a digest that
    does not match), the answer is not 200 and the world is returned as it
    was.  The status is 400 exactly when the integration is missing or
    disabled. *)
Theorem X16_unverified_requests_change_nothing
    (req : WebhookRequest) (w : World) :
  verified req w = false →
  ∃ resp,
    webhook_POST req w = (Return resp, w)
    ∧ status resp ≠ 200
    ∧ (status resp = 400 ↔
       ∀ s, find is_shopify_row (integrationSettings w) = Some s →
            isEnabled s = false).
Proof.
  intros Hv. unfold verified in Hv.
  unfold webhook_POST, try_catch, bind, getShopifySettings.
  fold is_shopify_row in Hv |- *.
  destruct (find is_shopify_row _) as [s|].
  - destruct (isEnabled s) eqn:He; simpl in *.
    + assert (∀ P : Prop, ¬ P → (401 = 400 ↔ P)) as E1
        by (intros P HP; split; [lia|tauto]).
      assert (∀ P : Prop, ¬ P → (500 = 400 ↔ P)) as E5
        by (intros P HP; split; [lia|tauto]).
      assert (¬ ∀ s0, Some s = Some s0 → isEnabled s0 = false) as Hno
        by (intros Hall; specialize (Hall s eq_refl); congruence).
      destruct (JS.truthy_str (x_shopify_hmac_sha256 req)); simpl in *;
        [|eexists; split; [reflexivity|]; simpl; split; [lia|apply E1, Hno]].
      destruct (JS.truthy_str (x_shopify_shop_domain req)); simpl in *;
        [|eexists; split; [reflexivity|]; simpl; split; [lia|apply E1, Hno]].
      destruct (apiSecret (settings s)) as [secret|]; simpl in *;
        [|eexists; split; [reflexivity|]; simpl; split; [lia|apply E5, Hno]].
      unfold ret. rewrite Hv. simpl.
      eexists; split; [reflexivity|]; simpl; split; [lia|apply E1, Hno].
    + eexists. split; [reflexivity|]. simpl. split; [lia|].
      split; [intros _ s0 [= <-]; exact He|reflexivity].
  - eexists. split; [reflexivity|]. simpl. split; [lia|].
    split; [intros _ s0 [=]|reflexivity].
Qed.

(** What a verified request gets. *)
Lemma webhook_POST_of_verified
    (req : WebhookRequest) (w : World) :
  verified req w = true →
  match JSON_parse (raw_body req) with
  | Some data =>
      ∃ w', webhook_POST req w = (Return acknowledged, w')
            ∧ (same_str (x_shopify_topic req) "products/update" = false →
               same_str (x_shopify_topic req) "products/delete" = false →
               w' = w)
  | None =>
      webhook_POST req w
      = (Return {| status := 500; json := Json_error "Failed to process webhook" |}, w)
  end.
Proof.
  intros Hv. destruct (JSON_parse (raw_body req)) as [data|] eqn:Hp.
  - rewrite (webhook_POST_verified req w data Hv Hp). cbv zeta.
    destruct (same_str (x_shopify_topic req) "products/update").
    + rewrite handleProductUpdate_writes_nothing.
      exists w. split; [reflexivity|discriminate].
    + destruct (same_str (x_shopify_topic req) "products/delete").
      * rewrite handleProductDelete_writes_nothing.
        exists w. split; [reflexivity|discriminate].
      * exists w. split; [|reflexivity].
        destruct (same_str _ "inventory_levels/update"); reflexivity.
  - apply verified_inv in Hv as (s & secret & Hf & He & Hh & Hd & Hs & Hm).
    unfold webhook_POST, try_catch, bind, getShopifySettings.
    rewrite Hf, He, Hh, Hd, Hs. simpl. unfold ret at 1. rewrite Hm, Hp.
    reflexivity.
Qed.

(** X17. A verified request is always acknowledged with 200 when its body
    parses, whatever the topic and whatever happens in the handler: the
    handlers catch what they throw.  With a topic other than
    [products/update] and [products/delete] (the inventory topic, an
    unknown topic, no topic) nothing is written.  When the body does not
    parse the answer is 500 and nothing is written. *)
Theorem X17_verified_requests_are_acknowledged
    (req : WebhookRequest) (w : World) :
  verified req w = true →
  match JSON_parse (raw_body req) with
  | Some data =>
      ∃ w', webhook_POST req w = (Return acknowledged, w')
            ∧ (same_str (x_shopify_topic req) "products/update" = false →
               same_str (x_shopify_topic req) "products/delete" = false →
               w' = w)
  | None =>
      webhook_POST req w
      = (Return {| status := 500; json := Json_error "Failed to process webhook" |}, w)
  end.
Proof. apply webhook_POST_of_verified. Qed.

(** *** What a notification may write *)

(** X18. No notification, verified or not, makes the route call the
    platform or write anything but names, descriptions and links: on a
    table with distinct ids, the state of the platform, the list of calls,
    the settings, the sales, the product types and the SKUs are as before,
    the product table has the same products in the same order, and each
    has its id, barcode, image, price, stock, type and SKU as before. *)
Theorem X18_notifications_write_text_and_links_only
    (req : WebhookRequest) (w : World) :
  unique_ids (products w) = true →
  ∃ resp w',
    webhook_POST req w = (Return resp, w')
    ∧ remote w' = remote w
    ∧ calls w' = calls w
    ∧ integrationSettings w' = integrationSettings w
    ∧ sales w' = sales w
    ∧ productTypes w' = productTypes w
    ∧ skus w' = skus w
    ∧ next_oid w' = next_oid w
    ∧ kept_by_webhooks <$> products w' = kept_by_webhooks <$> products w.
Proof.
  intros _.
  assert (∃ resp, webhook_POST req w = (Return resp, w)) as [resp Hrun].
  { destruct (verified req w) eqn:Hv.
    - destruct (JSON_parse (raw_body req)) as [data|] eqn:Hp.
      + rewrite (webhook_POST_verified req w data Hv Hp). cbv zeta.
        destruct (same_str (x_shopify_topic req) "products/update");
          [rewrite handleProductUpdate_writes_nothing; eauto|].
        destruct (same_str (x_shopify_topic req) "products/delete");
          [rewrite handleProductDelete_writes_nothing; eauto|].
        destruct (same_str _ "inventory_levels/update"); eauto.
      + pose proof (webhook_POST_of_verified req w Hv) as Hrun. rewrite Hp in Hrun. eauto.
    - destruct (webhook_POST_unverified req w Hv) as (resp & Hrun & _). eauto. }
  exists resp, w. split; [exact Hrun|]. repeat split; reflexivity.
Qed.

(** X19. A [products/update] notification delivered twice has the effect
    of one delivery: on a table with distinct ids, the second delivery of
    a verified notification gets the same answer and leaves the world the
    first one left. *)
Theorem X19_update_notification_twice
    (req : WebhookRequest) (w w1 : World) (resp : Outcome Response) :
  unique_ids (products w) = true →
  verified req w = true →
  x_shopify_topic req = Some "products/update" →
  webhook_POST req w = (resp, w1) →
  webhook_POST req w1 = (resp, w1).
Proof.
  intros _ Hv Ht Hrun.
  destruct (JSON_parse (raw_body req)) as [data|] eqn:Hp.
  - rewrite (webhook_POST_verified req w data Hv Hp), Ht in Hrun.
    simpl in Hrun. rewrite handleProductUpdate_writes_nothing in Hrun.
    injection Hrun as <- <-.
    rewrite (webhook_POST_verified req w data Hv Hp), Ht. simpl.
    rewrite handleProductUpdate_writes_nothing. reflexivity.
  - pose proof (webhook_POST_of_verified req w Hv) as Hbad. rewrite Hp in Hbad.
    rewrite Hbad in Hrun. injection Hrun as <- <-. exact Hbad.
Qed.

End WebhookFacts.

(** ** More on the sale route *)

Section SaleFacts.
Context `{FloatOps} `{!ShopifyApi} `{Runtime}.

(** The product after a sale of [q] units. *)
Lemma sold_is_an_update (p : Product) (q : Z) :
  apply_update
    {| set_name := None; set_description := None; set_price := None;
       set_stockCount := Some (p_stockCount p - q)%Z;
       set_barcode := None; set_externalIds := None |} p
  = {| p_id := p_id p; p_name := p_name p; p_description := p_description p;
       p_barcode := p_barcode p; p_imageUrl := p_imageUrl p;
       p_price := p_price p; p_stockCount := (p_stockCount p - q)%Z;
       p_productTypeId := p_productTypeId p; p_skuId := p_skuId p;
       p_externalIds := p_externalIds p |}.
Proof. reflexivity. Qed.

(** The ways a sale request ends: refused for one of four reasons, with
    the world as it was, or committed, with a sale recorded, the stock of
    the product reduced and then, at most, a sync of the product. *)
Lemma sales_POST_cases (req : SaleRequest) (w : World) :
  ∃ resp w',
    sales_POST req w = (Return resp, w')
    ∧ ((w' = w
        ∧ ((session req = false
            ∧ resp = {| status := 401; json := Json_error "Unauthorized" |})
           ∨ (session req = true
              ∧ (productId req = None ∨ quantity req = None
                 ∨ ∃ q, quantity req = Some q ∧ (q < 1)%Z)
              ∧ resp = {| status := 400;
                          json := Json_error "Product ID and quantity are required. Quantity must be at least 1." |})
           ∨ (∃ pid q,
                session req = true ∧ productId req = Some pid
                ∧ quantity req = Some q ∧ (1 ≤ q)%Z
                ∧ find (fun x => Nat.eqb (p_id x) pid) (products w) = None
                ∧ resp = {| status := 500;
                            json := Json_error "Product not found" |})
           ∨ (∃ pid q p,
                session req = true ∧ productId req = Some pid
                ∧ quantity req = Some q ∧ (1 ≤ q)%Z
                ∧ find (fun x => Nat.eqb (p_id x) pid) (products w) = Some p
                ∧ (p_stockCount p < q)%Z
                ∧ resp = {| status := 400;
                            json := Json_error "Not enough stock available" |})))
       ∨ ∃ pid q p sale sold committed,
           session req = true
           ∧ productId req = Some pid
           ∧ quantity req = Some q
           ∧ (1 ≤ q)%Z
           ∧ find (fun x => Nat.eqb (p_id x) pid) (products w) = Some p
           ∧ (q ≤ p_stockCount p)%Z
           ∧ sale = {| sale_id := next_oid w; sale_productId := pid;
                       sale_quantity := q;
                       sale_totalPrice := float_mul (p_price p) q |}
           ∧ sold = {| p_id := p_id p; p_name := p_name p;
                       p_description := p_description p;
                       p_barcode := p_barcode p; p_imageUrl := p_imageUrl p;
                       p_price := p_price p;
                       p_stockCount := (p_stockCount p - q)%Z;
                       p_productTypeId := p_productTypeId p;
                       p_skuId := p_skuId p;
                       p_externalIds := p_externalIds p |}
           ∧ committed
             = with_products (replace_product sold (products w))
                 (with_next_oid (S (next_oid w))
                    (with_sales (sales w ++ [sale]) w))
           ∧ resp = {| status := 201; json := Json_sale sale |}
           ∧ (w' = committed
              ∨ ∃ ok updated,
                  base updated = sold
                  ∧ syncProductToShopify updated committed = (Return ok, w'))).
Proof.
  unfold sales_POST, try_catch at 1.
  destruct (session req) eqn:Hs; simpl;
    [|unfold ret; eexists _, w; split; [reflexivity|]; left;
      split; [reflexivity|]; left; auto].
  destruct (productId req) as [pid|] eqn:Hp;
    [|unfold ret; eexists _, w; split; [reflexivity|]; left;
      split; [reflexivity|]; right; left; auto].
  destruct (quantity req) as [q|] eqn:Hq;
    [|unfold ret; eexists _, w; split; [reflexivity|]; left;
      split; [reflexivity|]; right; left; auto].
  destruct (Z.ltb_spec q 1) as [?|Hq1];
    [unfold ret; eexists _, w; split; [reflexivity|]; left;
     split; [reflexivity|]; right; left; eauto 7|].
  unfold bind at 1.
  unfold sale_transaction, prisma_transaction, bind at 1,
    prisma_product_findUnique.
  destruct (find _ (products w)) as [p|] eqn:Hfind.
  - destruct (Z.ltb_spec (p_stockCount p) q) as [?|Hstock].
    + unfold throw, ret. simpl. eexists _, w. split; [reflexivity|].
      left. split; [reflexivity|]. do 3 right. exists pid, q, p. auto 10.
    + unfold bind at 1, prisma_sale_create.
      set (sale := {| sale_id := next_oid w |}).
      set (ws := with_next_oid _ _).
      unfold bind at 1.
      erewrite (prisma_product_update_ok pid _ p ws) by (exact Hfind || reflexivity).
      rewrite sold_is_an_update.
      set (sold := {| p_id := p_id p |}).
      set (wu := with_products _ ws).
      unfold bind at 1, include_relations, ret at 1.
      set (updated := {| base := sold |}).
      unfold bind at 1, try_catch at 1, bind at 1, getShopifySettings at 1.
      cbn [fst snd].
      assert (∃ w', (match find (fun s => String.eqb (integrationType s) "shopify")
                             (integrationSettings wu) with
                     | Some s =>
                         if isEnabled s
                         then syncProductToShopify updated ;; ret tt
                         else ret tt
                     | None => ret tt
                     end) wu = (Return tt, w')
                    ∧ (w' = wu
                       ∨ ∃ ok, syncProductToShopify updated wu = (Return ok, w')))
        as (w' & Hrun & Hw).
      { destruct (find _ (integrationSettings wu)) as [s|]; [|eauto].
        destruct (isEnabled s); [|eauto].
        unfold bind.
        destruct (getShopifyClient_reads wu) as [[client|] Hc].
        - destruct (syncProductToShopify_with_client updated wu client Hc)
            as (ok & w' & Hsync & _).
          rewrite Hsync. unfold ret. eauto.
        - assert (syncProductToShopify updated wu = (Return false, wu)) as Hsync
            by (unfold syncProductToShopify, try_catch, bind; rewrite Hc;
                reflexivity).
          rewrite Hsync. unfold ret. eauto. }
      rewrite Hrun. unfold ret.
      eexists _, w'. split; [reflexivity|]. right.
      exists pid, q, p, sale, sold, wu.
      do 9 (split; [reflexivity || assumption|]).
      split; [reflexivity|].
      destruct Hw as [->|[ok Hsync]]; [left; reflexivity|right].
      exists ok, updated. split; [reflexivity|exact Hsync].
  - unfold throw, ret. simpl. eexists _, w. split; [reflexivity|].
    left. split; [reflexivity|]. do 2 right. left. exists pid, q. auto 10.
Qed.

(** X20. A sale request that is not answered with 201 changes nothing:
    no sale is recorded, no stock is moved, the platform is not called.
    The answer is then 401, 400 or 500; a request for more units than the
    product has in stock is answered with 400 and the message of the
    transaction, a request for an unknown product with 500. *)
Theorem X20_refused_sales_change_nothing (req : SaleRequest) (w : World) :
  ∃ resp w',
    sales_POST req w = (Return resp, w')
    ∧ (status resp ≠ 201 →
       w' = w ∧ (status resp = 401 ∨ status resp = 400 ∨ status resp = 500))
    ∧ (∀ pid q,
         session req = true → productId req = Some pid →
         quantity req = Some q → (1 ≤ q)%Z →
         match find (fun x => Nat.eqb (p_id x) pid) (products w) with
         | None =>
             resp = {| status := 500; json := Json_error "Product not found" |}
         | Some p =>
             (p_stockCount p < q)%Z →
             resp = {| status := 400;
                       json := Json_error "Not enough stock available" |}
         end).
Proof.
  destruct (sales_POST_cases req w) as (resp & w' & Hrun & Hcases).
  exists resp, w'. split; [exact Hrun|]. split.
  - intros Hne. destruct Hcases as [[-> Hwhy]|Hc].
    + split; [reflexivity|].
      destruct Hwhy as [[_ ->]|[(_ & _ & ->)|[(pid & q & Hc)|(pid & q & p & Hc)]]];
        simpl; auto.
      * destruct Hc as (_ & _ & _ & _ & _ & ->). simpl. auto.
      * destruct Hc as (_ & _ & _ & _ & _ & _ & ->). simpl. auto.
    + destruct Hc as (pid & q & p & sale & sold & wu & Hc).
      destruct Hc as (_ & _ & _ & _ & _ & _ & _ & _ & _ & -> & _).
      simpl in Hne. congruence.
  - intros pid q Hs Hp Hq Hq1.
    destruct Hcases as [[_ Hwhy]|Hc].
    + destruct Hwhy as [[Hs' _]|[(_ & Hbad & _)|[(pid' & q' & Hc)|(pid' & q' & p' & Hc)]]].
      * congruence.
      * destruct Hbad as [?|[?|(q' & Hq' & ?)]]; try congruence.
        rewrite Hq in Hq'. injection Hq' as <-. lia.
      * destruct Hc as (_ & Hp' & Hq' & _ & Hfind & ->).
        rewrite Hp in Hp'. injection Hp' as <-. rewrite Hfind. reflexivity.
      * destruct Hc as (_ & Hp' & Hq' & _ & Hfind & _ & ->).
        rewrite Hp in Hp'. injection Hp' as <-. rewrite Hfind. reflexivity.
    + destruct Hc as (pid' & q' & p' & sale & sold & wu & _ & Hp' & Hq' & _
                      & Hfind & Hstock & _).
      rewrite Hp in Hp'. injection Hp' as <-.
      rewrite Hq in Hq'. injection Hq' as <-.
      rewrite Hfind. intros. lia.
Qed.

(** X21. A valid sale is committed whatever the integration does: for a
    request with a session, at least one unit and a product that has that
    many in stock, the answer is 201 with the sale; exactly one sale is
    recorded, for the product, the quantity and the price times the
    quantity; the stock of the product is reduced by the quantity; and
    every other field of every product, its links apart, is as before.
    This holds with the integration off or on, and whether the platform
    accepts or rejects the sync that follows. *)
Theorem X21_a_valid_sale_is_committed
    (req : SaleRequest) (w : World) (pid : oid) (q : Z) (p : Product) :
  unique_ids (products w) = true →
  session req = true →
  productId req = Some pid →
  quantity req = Some q →
  (1 ≤ q)%Z →
  find (fun x => Nat.eqb (p_id x) pid) (products w) = Some p →
  (q ≤ p_stockCount p)%Z →
  ∃ w',
    sales_POST req w
    = (Return {| status := 201;
                 json := Json_sale
                           {| sale_id := next_oid w; sale_productId := pid;
                              sale_quantity := q;
                              sale_totalPrice := float_mul (p_price p) q |} |},
       w')
    ∧ sales w'
      = sales w ++ [{| sale_id := next_oid w; sale_productId := pid;
                       sale_quantity := q;
                       sale_totalPrice := float_mul (p_price p) q |}]
    ∧ without_links <$> products w'
      = without_links
          <$> replace_product
                {| p_id := p_id p; p_name := p_name p;
                   p_description := p_description p;
                   p_barcode := p_barcode p; p_imageUrl := p_imageUrl p;
                   p_price := p_price p;
                   p_stockCount := (p_stockCount p - q)%Z;
                   p_productTypeId := p_productTypeId p;
                   p_skuId := p_skuId p;
                   p_externalIds := p_externalIds p |} (products w)
    ∧ integrationSettings w' = integrationSettings w
    ∧ length (calls w') ≤ S (length (calls w)).
Proof.
  unfold unique_ids. rewrite bool_decide_eq_true.
  intros Hnd Hs Hp Hq Hq1 Hfind Hstock.
  destruct (sales_POST_cases req w) as (resp & w' & Hrun & Hcases).
  destruct Hcases as [[_ Hwhy]|Hc].
  - exfalso.
    destruct Hwhy as [[Hs' _]|[(_ & Hbad & _)|[(pid' & q' & Hc)|(pid' & q' & p' & Hc)]]].
    + congruence.
    + destruct Hbad as [?|[?|(q' & Hq' & ?)]]; try congruence.
      rewrite Hq in Hq'. injection Hq' as <-. lia.
    + destruct Hc as (_ & Hp' & _ & _ & Hfind' & _).
      rewrite Hp in Hp'. injection Hp' as <-. congruence.
    + destruct Hc as (_ & Hp' & Hq' & _ & Hfind' & Hlt & _).
      rewrite Hp in Hp'. injection Hp' as <-.
      rewrite Hq in Hq'. injection Hq' as <-.
      rewrite Hfind in Hfind'. injection Hfind' as <-. lia.
  - destruct Hc as (pid' & q' & p' & sale' & sold' & wu & _ & Hp' & Hq' & _
                    & Hfind' & _ & -> & -> & Hwu & -> & Hw).
    rewrite Hp in Hp'. injection Hp' as <-.
    rewrite Hq in Hq'. injection Hq' as <-.
    rewrite Hfind in Hfind'. injection Hfind' as <-.
    exists w'. split; [exact Hrun|].
    destruct Hw as [->|(ok & updated & Hbase & Hsync)].
    + subst wu. simpl. repeat split; auto with lia.
    + destruct (syncProductToShopify_frame updated wu)
        as (ok' & w'' & Hsync' & Hf & _ & Hcalls).
      { subst wu. simpl. rewrite replace_product_ids. exact Hnd. }
      rewrite Hsync in Hsync'. injection Hsync' as <- <-.
      unfold only_links_differ, same_tables in Hf.
      subst wu. simpl in Hf, Hcalls. intuition congruence.
Qed.

Lemma stock_without_links (P : Z → Prop) (ps ps' : list Product) :
  without_links <$> ps' = without_links <$> ps →
  Forall (fun p => P (p_stockCount p)) ps →
  Forall (fun p => P (p_stockCount p)) ps'.
Proof.
  revert ps'. induction ps as [|p ps IH]; intros [|p' ps'] Heq Hall;
    try discriminate; [constructor|].
  rewrite !fmap_cons in Heq.
  assert (p_stockCount p' = p_stockCount p) as Hp
    by (injection Heq; intros; assumption).
  assert (without_links <$> ps' = without_links <$> ps) as Hps
    by (injection Heq; intros; assumption).
  inversion Hall as [|? ? Hhd Htl]; subst. constructor.
  - rewrite Hp. exact Hhd.
  - apply IH; assumption.
Qed.

Lemma ids_without_links (ps ps' : list Product) :
  without_links <$> ps' = without_links <$> ps →
  p_id <$> ps' = p_id <$> ps.
Proof.
  intros Heq.
  change (p_id <$> ps') with ((p_id ∘ without_links) <$> ps').
  change (p_id <$> ps) with ((p_id ∘ without_links) <$> ps).
  rewrite !list_fmap_compose, Heq. reflexivity.
Qed.

Lemma stock_replace_product (P : Z → Prop) (p' : Product) (ps : list Product) :
  P (p_stockCount p') →
  Forall (fun p => P (p_stockCount p)) ps →
  Forall (fun p => P (p_stockCount p)) (replace_product p' ps).
Proof.
  intros Hp'. induction 1 as [|q ps Hq _ IH]; simpl; constructor; [|exact IH].
  destruct (Nat.eqb (p_id q) (p_id p')); assumption.
Qed.

(** X22. Sales keep the stock counts non-negative: on a table with
    distinct ids where no stock count is negative, whatever the request
    and whatever the platform answers, no stock count is negative after
    the request, and the ids are still distinct. *)
Theorem X22_sales_keep_the_stock_non_negative (req : SaleRequest) (w : World) :
  unique_ids (products w) = true →
  Forall (fun p => (0 ≤ p_stockCount p)%Z) (products w) →
  ∃ resp w',
    sales_POST req w = (Return resp, w')
    ∧ Forall (fun p => (0 ≤ p_stockCount p)%Z) (products w')
    ∧ unique_ids (products w') = true.
Proof.
  unfold unique_ids. rewrite !bool_decide_eq_true.
  intros Hnd Hall.
  destruct (sales_POST_cases req w) as (resp & w' & Hrun & Hcases).
  exists resp, w'. split; [exact Hrun|]. rewrite bool_decide_eq_true.
  destruct Hcases as [[-> _]|Hc]; [auto|].
  destruct Hc as (pid & q & p & sale & sold & wu & _ & _ & _ & _
                  & Hfind & Hstock & _ & -> & Hwu & _ & Hw).
  set (sold := {| p_id := p_id p |}) in *.
  assert (Forall (fun p => (0 ≤ p_stockCount p)%Z) (products wu)
          ∧ NoDup (p_id <$> products wu)) as [Hall' Hnd'].
  { subst wu. simpl. split.
    - apply (stock_replace_product (fun z => (0 ≤ z)%Z)); [simpl; lia|exact Hall].
    - rewrite replace_product_ids. exact Hnd. }
  destruct Hw as [->|(ok & updated & Hbase & Hsync)]; [auto|].
  destruct (syncProductToShopify_frame updated wu Hnd')
    as (ok' & w'' & Hsync' & Hf & _).
  rewrite Hsync in Hsync'. injection Hsync' as <- <-.
  destruct Hf as (Hps & _). split.
  - exact (stock_without_links (fun z => (0 ≤ z)%Z) _ _ Hps Hall').
  - rewrite (ids_without_links _ _ Hps). exact Hnd'.
Qed.

End SaleFacts.

(** ** The stock route *)

Section StockFacts.
Context `{FloatOps} `{!ShopifyApi}.

(** The write of the stock route and what follows it, for a product of
    the table: a count that is no [Int] is refused with nothing written;
    another count is written, and then, when the integration is enabled,
    the inventory sync is run for it, whose failure is swallowed. *)
Lemma stock_update_cases (pid : oid) (p : Product) (n : Z) (w : World) :
  find (fun x => Nat.eqb (p_id x) pid) (products w) = Some p →
  let written :=
    with_products (replace_product (with_stockCount n p) (products w)) w in
  let route :=
    let! updatedProduct := prisma_product_update_stockCount pid n in
    try_catch
      (let! shopifySettings := getShopifySettings in
       match shopifySettings with
       | Some s =>
           if isEnabled s
           then syncInventoryToShopify pid n ;; ret tt
           else ret tt
       | None => ret tt
       end)
      (fun _ => ret tt) ;;
    ret {| stock_status := 200;
           stock_json := Stock_updated updatedProduct (p_stockCount p) n |} in
  if is_Int n then
    ∃ w',
      route w
      = (Return {| stock_status := 200;
                   stock_json :=
                     Stock_updated (with_stockCount n p) (p_stockCount p) n |},
         w')
      ∧ match find is_shopify_row (integrationSettings w) with
        | Some s =>
            if isEnabled s
            then ∃ ok, syncInventoryToShopify pid n written = (Return ok, w')
            else w' = written
        | None => w' = written
        end
  else ∃ e, route w = (Throw e, w).
Proof.
  intros Hfind written route. subst route.
  unfold bind at 1, prisma_product_update_stockCount.
  destruct (is_Int n); [|unfold throw; eauto].
  erewrite (prisma_product_update_ok pid _ p w) by (exact Hfind || reflexivity).
  change (apply_update _ p) with (with_stockCount n p). fold written.
  unfold bind at 1, try_catch at 1, bind at 1, getShopifySettings.
  fold is_shopify_row.
  change (integrationSettings written) with (integrationSettings w).
  destruct (find is_shopify_row (integrationSettings w)) as [s|];
    [|unfold ret; eexists; split; reflexivity].
  destruct (isEnabled s);
    [|unfold ret; eexists; split; reflexivity].
  unfold bind.
  destruct (syncInventoryToShopify_frame pid n written)
    as (ok & w' & issued & Hsync & _).
  rewrite Hsync. unfold ret.
  exists w'. split; [reflexivity|]. exists ok. reflexivity.
Qed.

(** The ways a stock request ends: refused, with the world as it was, or
    applied. *)
Lemma stock_POST_cases (req : StockRequest) (w : World) :
  ∃ resp w',
    stock_POST req w = (Return resp, w')
    ∧ ((stock_role req = None ∧ w' = w
        ∧ resp = {| stock_status := 401;
                    stock_json := Stock_error "Unauthorized" |})
       ∨ ((∃ role, stock_role req = Some role
                   ∧ role ≠ "admin" ∧ role ≠ "user")
          ∧ w' = w
          ∧ resp = {| stock_status := 403;
                      stock_json :=
                        Stock_error "Forbidden: Insufficient permissions" |})
       ∨ ((∃ role, stock_role req = Some role
                   ∧ (role = "admin" ∨ role = "user"))
          ∧ w' = w
          ∧ ((stock_body req = None
              ∧ resp = {| stock_status := 500;
                          stock_json := Stock_error "Failed to update stock" |})
             ∨ ∃ data,
                 stock_body req = Some data
                 ∧ (((body_productId data = None ∨ body_quantity data = None
                      ∨ JS.truthy_str (body_operation data) = false)
                     ∧ resp = {| stock_status := 400;
                                 stock_json :=
                                   Stock_error "Invalid request data" |})
                    ∨ ∃ q op,
                        body_quantity data = Some q
                        ∧ body_operation data = Some op
                        ∧ op ≠ ""
                        ∧ ((body_productId data = Some Malformed
                            ∧ resp = {| stock_status := 500;
                                        stock_json :=
                                          Stock_error "Failed to update stock" |})
                           ∨ ∃ pid,
                               body_productId data = Some (ObjectId pid)
                               ∧ ((find (fun x => Nat.eqb (p_id x) pid)
                                     (products w) = None
                                   ∧ resp = {| stock_status := 404;
                                               stock_json :=
                                                 Stock_error "Product not found" |})
                                  ∨ ∃ p,
                                      find (fun x => Nat.eqb (p_id x) pid)
                                        (products w) = Some p
                                      ∧ ((op ≠ "set" ∧ op ≠ "add"
                                          ∧ op ≠ "subtract"
                                          ∧ resp
                                            = {| stock_status := 400;
                                                 stock_json :=
                                                   Stock_error "Invalid operation" |})
                                         ∨ ((op = "set" ∨ op = "add"
                                             ∨ op = "subtract")
                                            ∧ is_Int (newStockCount op
                                                        (p_stockCount p) q)
                                              = false
                                            ∧ resp
                                              = {| stock_status := 500;
                                                   stock_json :=
                                                     Stock_error
                                                       "Failed to update stock" |})))))))
       ∨ ∃ role data q op pid p,
           stock_role req = Some role ∧ (role = "admin" ∨ role = "user")
           ∧ stock_body req = Some data
           ∧ body_productId data = Some (ObjectId pid)
           ∧ body_quantity data = Some q
           ∧ body_operation data = Some op
           ∧ (op = "set" ∨ op = "add" ∨ op = "subtract")
           ∧ find (fun x => Nat.eqb (p_id x) pid) (products w) = Some p
           ∧ let n := newStockCount op (p_stockCount p) q in
             let written :=
               with_products
                 (replace_product (with_stockCount n p) (products w)) w in
             is_Int n = true
             ∧ resp = {| stock_status := 200;
                         stock_json :=
                           Stock_updated (with_stockCount n p)
                             (p_stockCount p) n |}
             ∧ match find is_shopify_row (integrationSettings w) with
               | Some s =>
                   if isEnabled s
                   then ∃ ok, syncInventoryToShopify pid n written
                              = (Return ok, w')
                   else w' = written
               | None => w' = written
               end).
Proof.
  unfold stock_POST, try_catch at 1.
  destruct (stock_role req) as [role|] eqn:Hrole;
    [|unfold ret; eexists _, w; split; [reflexivity || assumption|]; left; auto].
  destruct (negb (String.eqb role "admin") && negb (String.eqb role "user"))
    eqn:Hgate.
  { apply andb_true_iff in Hgate as [Ha Hu].
    apply negb_true_iff, String.eqb_neq in Ha, Hu.
    unfold ret. eexists _, w. split; [reflexivity || assumption|]. right. left.
    split; [eauto|auto]. }
  assert (role = "admin" ∨ role = "user") as Hok.
  { destruct (String.eqb_spec role "admin"); [auto|].
    destruct (String.eqb_spec role "user"); [auto|discriminate]. }
  clear Hgate.
  unfold bind at 1, req_json.
  destruct (stock_body req) as [data|] eqn:Hbody.
  2:{ unfold throw, ret. eexists _, w. split; [reflexivity || assumption|].
      do 2 right. left. split; [eauto|]. split; [reflexivity || assumption|]. left. auto. }
  unfold ret at 1.
  destruct (body_productId data) as [rid|] eqn:Hp;
    [|unfold ret; eexists _, w; split; [reflexivity || assumption|]; do 2 right; left;
      split; [eauto|]; split; [reflexivity || assumption|]; right; exists data;
      split; [reflexivity || assumption|]; left; auto].
  destruct (body_quantity data) as [q|] eqn:Hq;
    [|unfold ret; eexists _, w; split; [reflexivity || assumption|]; do 2 right; left;
      split; [eauto|]; split; [reflexivity || assumption|]; right; exists data;
      split; [reflexivity || assumption|]; left; auto].
  destruct (JS.truthy_str (body_operation data)) eqn:Ht; cbn [negb];
    [|unfold ret; eexists _, w; split; [reflexivity || assumption|]; do 2 right; left;
      split; [eauto|]; split; [reflexivity || assumption|]; right; exists data;
      split; [reflexivity || assumption|]; left; auto].
  destruct (body_operation data) as [op|] eqn:Hop; [|discriminate].
  assert (op ≠ "") as Hne.
  { intros ->. discriminate. }
  clear Ht. change (default "" (Some op)) with op.
  destruct rid as [pid|].
  2:{ unfold throw, ret. eexists _, w. split; [reflexivity || assumption|].
      do 2 right. left. split; [eauto|]. split; [reflexivity || assumption|].
      right. exists data. split; [reflexivity || assumption|]. right.
      exists q, op. do 3 (split; [reflexivity || assumption|]). left. auto. }
  unfold bind at 1, prisma_product_findUnique.
  destruct (find _ (products w)) as [p|] eqn:Hfind.
  2:{ unfold ret. eexists _, w. split; [reflexivity || assumption|].
      do 2 right. left. split; [eauto|]. split; [reflexivity || assumption|].
      right. exists data. split; [reflexivity || assumption|]. right.
      exists q, op. do 3 (split; [reflexivity || assumption|]). right.
      exists pid. split; [reflexivity || assumption|]. left. auto. }
  destruct (decide (op = "set" ∨ op = "add" ∨ op = "subtract")) as [Hops|Hnone].
  - pose proof (stock_update_cases pid p (newStockCount op (p_stockCount p) q)
                  w Hfind) as Hupdate.
    cbv zeta in Hupdate.
    destruct (is_Int (newStockCount op (p_stockCount p) q)) eqn:Hint.
    + destruct Hupdate as (w' & Hrun & Hw).
      exists {| stock_status := 200;
                stock_json :=
                  Stock_updated
                    (with_stockCount (newStockCount op (p_stockCount p) q) p)
                    (p_stockCount p) (newStockCount op (p_stockCount p) q) |}, w'.
      split.
      { clear -Hrun Hops.
        destruct Hops as [-> | [-> | ->]];
          [change (newStockCount "set" (p_stockCount p) q) with q in Hrun
          |change (newStockCount "add" (p_stockCount p) q)
             with (p_stockCount p + q)%Z in Hrun
          |change (newStockCount "subtract" (p_stockCount p) q)
             with (Z.max 0 (p_stockCount p - q)) in Hrun];
          cbn [String.eqb Ascii.eqb Bool.eqb];
          cbv beta iota zeta; rewrite Hrun; reflexivity. }
      do 3 right. exists role, data, q, op, pid, p.
      do 8 (split; [reflexivity || assumption|]).
      cbv zeta. split; [reflexivity || assumption|]. split; [reflexivity|exact Hw].
    + destruct Hupdate as (e & Hrun).
      exists {| stock_status := 500;
                stock_json := Stock_error "Failed to update stock" |}, w.
      split.
      { clear -Hrun Hops.
        destruct Hops as [-> | [-> | ->]];
          [change (newStockCount "set" (p_stockCount p) q) with q in Hrun
          |change (newStockCount "add" (p_stockCount p) q)
             with (p_stockCount p + q)%Z in Hrun
          |change (newStockCount "subtract" (p_stockCount p) q)
             with (Z.max 0 (p_stockCount p - q)) in Hrun];
          cbn [String.eqb Ascii.eqb Bool.eqb];
          cbv beta iota zeta; rewrite Hrun; reflexivity. }
      do 2 right. left. split; [eauto|]. split; [reflexivity || assumption|].
      right. exists data. split; [reflexivity || assumption|]. right.
      exists q, op. do 3 (split; [reflexivity || assumption|]). right.
      exists pid. split; [reflexivity || assumption|]. right. exists p.
      split; [reflexivity || assumption|]. right. auto.
  - assert (op ≠ "set" ∧ op ≠ "add" ∧ op ≠ "subtract") as (Hset & Hadd & Hsub)
      by (repeat split; intros ->; apply Hnone; auto).
    apply String.eqb_neq in Hset as Eset, Hadd as Eadd, Hsub as Esub.
    rewrite Eset, Eadd, Esub. unfold ret.
    eexists _, w. split; [reflexivity || assumption|].
    do 2 right. left. split; [eauto|]. split; [reflexivity || assumption|].
    right. exists data. split; [reflexivity || assumption|]. right.
    exists q, op. do 3 (split; [reflexivity || assumption|]). right.
    exists pid. split; [reflexivity || assumption|]. right. exists p.
    split; [reflexivity || assumption|]. left. auto.
Qed.

(** X23. A stock request that is not answered with 200 changes nothing.
    The answer is 200, 400, 401, 403, 404 or 500.  A request without a
    session gets 401, one of a role other than admin and user 403, also
    when the rest of the request is valid.  From an admin or a user, a
    body that is not JSON gets 500, and so does a product id that is no
    ObjectId in a body that has a quantity and an operation. *)
Theorem X23_refused_stock_requests_change_nothing
    (req : StockRequest) (w : World) :
  ∃ resp w',
    stock_POST req w = (Return resp, w')
    ∧ (stock_status resp ≠ 200 → w' = w)
    ∧ stock_status resp ∈ [200; 400; 401; 403; 404; 500]
    ∧ (stock_role req = None → stock_status resp = 401)
    ∧ (∀ role, stock_role req = Some role → role ≠ "admin" → role ≠ "user" →
               stock_status resp = 403)
    ∧ (∀ role, stock_role req = Some role → role = "admin" ∨ role = "user" →
               stock_body req = None
               ∨ (stock_productId req = Some Malformed
                  ∧ is_Some (stock_quantity req)
                  ∧ JS.truthy_str (stock_operation req) = true) →
               stock_status resp = 500).
Proof.
  destruct (stock_POST_cases req w) as (resp & w' & Hrun & Hcases).
  exists resp, w'. split; [exact Hrun|].
  unfold stock_productId, stock_quantity, stock_operation.
  destruct Hcases as [(Hr & -> & ->)|[((role & Hr & Ha & Hu) & -> & ->)|[Hc|Hc]]].
  - cbn. repeat split; try (apply list_elem_of_In; simpl; auto 10; fail); intros; congruence.
  - cbn. repeat split; try (apply list_elem_of_In; simpl; auto 10; fail); intros; try congruence.
    match goal with
    | Hr' : stock_role _ = Some ?r, Hok : ?r = _ ∨ _ |- _ =>
        rewrite Hr in Hr'; injection Hr' as <-; destruct Hok; congruence
    end.
  - destruct Hc as ((role & Hr & Hok) & -> & Hc).
    assert (∀ r, stock_role req = Some r → r ≠ "admin" → r ≠ "user" → False)
      as Hgate.
    { intros r Hr'. rewrite Hr in Hr'. injection Hr' as <-.
      destruct Hok; congruence. }
    destruct Hc as [(Hb & ->)|(data & Hb & Hc)]; rewrite Hb.
    { cbn. repeat split; try (apply list_elem_of_In; simpl; auto 10; fail); intros; try congruence.
      exfalso; eauto. }
    destruct Hc as [(Hbad & ->)|(q & op & Hq & Hop & Hne & Hc)].
    { cbn. repeat split; try (apply list_elem_of_In; simpl; auto 10; fail); intros; try congruence; [exfalso; eauto|].
      match goal with
      | Hwhy : _ ∨ _ |- _ =>
          destruct Hwhy as [?|(Hm & [? Hsome] & Ht)]; [congruence|]
      end.
      destruct Hbad as [?|[?|?]]; congruence. }
    destruct Hc as [(Hp & ->)|(pid & Hp & Hc)].
    { cbn. repeat split; try (apply list_elem_of_In; simpl; auto 10; fail); intros; try congruence.
      exfalso; eauto. }
    assert (∀ n : nat,
              stock_body req = None
              ∨ (body_productId data = Some Malformed
                 ∧ is_Some (body_quantity data)
                 ∧ JS.truthy_str (body_operation data) = true) → n = 500)
      as Hnot500.
    { intros n [?|(Hm & _)]; congruence. }
    rewrite Hb in Hnot500.
    destruct Hc as [(Hf & ->)|(p & Hf & Hc)].
    { cbn. repeat split; try (apply list_elem_of_In; simpl; auto 10; fail); intros; try congruence; [exfalso; eauto|].
      apply Hnot500. assumption. }
    destruct Hc as [(_ & _ & _ & ->)|(_ & _ & ->)].
    { cbn. repeat split; try (apply list_elem_of_In; simpl; auto 10; fail); intros; try congruence; [exfalso; eauto|].
      apply Hnot500. assumption. }
    cbn. repeat split; try (apply list_elem_of_In; simpl; auto 10; fail); intros; try congruence.
    exfalso; eauto.
  - destruct Hc as (role & data & q & op & pid & p & Hr & Hok & Hb & Hp & Hq
                    & Hop & Hops & Hf & Hc).
    cbv zeta in Hc. destruct Hc as (Hint & -> & Hw).
    rewrite Hb. cbn. repeat split; try (apply list_elem_of_In; simpl; auto 10; fail); intros; try congruence.
    + match goal with
      | Hr' : stock_role _ = Some ?r |- _ =>
          rewrite Hr in Hr'; injection Hr' as <-
      end.
      destruct Hok; congruence.
    + match goal with
      | Hwhy : _ ∨ _ |- _ =>
          destruct Hwhy as [?|(Hm & _)]; congruence
      end.
Qed.


(** X25. Subtracting keeps the stock counts non-negative: on a table
    with distinct ids where no stock count is negative, a request of the
    [subtract] operation, whatever its quantity, leaves no stock count
    negative, and the ids distinct. *)
Theorem X25_subtracting_keeps_the_stock_non_negative
    (req : StockRequest) (w : World) :
  stock_operation req = Some "subtract" →
  unique_ids (products w) = true →
  Forall (fun p => (0 ≤ p_stockCount p)%Z) (products w) →
  ∃ resp w',
    stock_POST req w = (Return resp, w')
    ∧ Forall (fun p => (0 ≤ p_stockCount p)%Z) (products w')
    ∧ unique_ids (products w') = true.
Proof.
  unfold unique_ids. rewrite !bool_decide_eq_true.
  intros Hop Hnd Hall.
  destruct (stock_POST_cases req w) as (resp & w' & Hrun & Hcases).
  exists resp, w'. split; [exact Hrun|]. rewrite bool_decide_eq_true.
  destruct Hcases as [(_ & -> & _)|[(_ & -> & _)|[(_ & -> & _)|Hc]]]; auto.
  destruct Hc as (role & data & q & op & pid & p & _ & _ & Hb & _ & _
                  & Hop' & _ & Hf & Hc).
  unfold stock_operation in Hop. rewrite Hb, Hop' in Hop. injection Hop as ->.
  cbv zeta in Hc. destruct Hc as (_ & _ & Hw).
  set (n := newStockCount "subtract" (p_stockCount p) q) in *.
  assert (0 ≤ n)%Z as Hpos by (subst n; unfold newStockCount; simpl; lia).
  set (wu := with_products _ w) in *.
  assert (Forall (fun p => (0 ≤ p_stockCount p)%Z) (products wu)
          ∧ NoDup (p_id <$> products wu)) as [Hall' Hnd'].
  { subst wu. simpl. split.
    - apply (stock_replace_product (fun z => (0 ≤ z)%Z)); [exact Hpos|exact Hall].
    - rewrite replace_product_ids. exact Hnd. }
  destruct (find is_shopify_row (integrationSettings w)) as [s|];
    [|subst w'; auto].
  destruct (isEnabled s); [|subst w'; auto].
  destruct Hw as [ok Hsync].
  destruct (syncInventoryToShopify_frame pid n wu)
    as (ok' & w'' & issued & Hsync' & Hsame & _).
  rewrite Hsync in Hsync'. injection Hsync' as <- <-.
  destruct Hsame as (-> & _). auto.
Qed.

End StockFacts.

(** ** The integration route *)

Section IntegrationFacts.
Context `{FloatOps} `{!ShopifyApi}.

(** The import always returns a result whose counters add up. *)
Lemma importProductsFromShopify_returns (w : World) :
  ∃ res w',
    importProductsFromShopify w = (Return res, w')
    ∧ imported res + updated res + failed res = total res.
Proof.
  unfold importProductsFromShopify, try_catch, bind at 1.
  destruct (getShopifyClient_reads w) as [[client|] ->].
  - unfold bind at 1, remote_call.
    destruct (product_list client 50 (remote w)) as [[page|] r'].
    + set (w1 := with_remote _ _ _).
      unfold bind at 1.
      destruct (import_loop_spec client page 0 0 0 w1)
        as (i & f & u & w' & l & -> & Hsum & _).
      unfold ret. eexists _, w'. split; [reflexivity|]. simpl. lia.
    + unfold throw, ret. eexists _, _. split; [reflexivity|]. reflexivity.
  - unfold ret. eexists _, w. split; [reflexivity|]. reflexivity.
Qed.

(** The bulk sync always returns a result whose counters add up. *)
Lemma syncAllProductsToShopify_returns (w : World) :
  ∃ res w',
    syncAllProductsToShopify w = (Return res, w')
    ∧ all_synced res + all_failed res = all_total res.
Proof.
  unfold syncAllProductsToShopify, try_catch, bind at 1.
  destruct (getShopifyClient_reads w) as [[client|] Hc]; rewrite Hc.
  - unfold bind at 1, prisma_product_findMany. unfold bind at 1.
    destruct (include_all_reads (products w) w) as (snapshot & Hsnap & Hbase).
    rewrite Hsnap. unfold bind at 1.
    destruct (sync_loop_spec client snapshot 0 0 w Hc)
      as (s' & f' & w' & -> & Hsum & _).
    unfold ret. eexists _, w'. split; [reflexivity|]. simpl. lia.
  - unfold ret. eexists _, w. split; [reflexivity|]. reflexivity.
Qed.

(** X26. The integration route is for admins only: without a session
    every handler answers 401, with a session of any other role 403, and
    in both cases nothing is read or written, locally or remotely,
    whatever the request asks for. *)
Theorem X26_integration_route_is_admin_only
    (role action : option string) (data : SettingsForm) (w : World) :
  role ≠ Some "admin" →
  ∃ resp,
    integration_GET role action w = (Return resp, w)
    ∧ integration_POST role data w = (Return resp, w)
    ∧ integration_PATCH role w = (Return resp, w)
    ∧ integration_status resp = match role with Some _ => 403 | None => 401 end
    ∧ ∃ message, integration_json resp = Integration_error message.
Proof.
  intros Hrole.
  unfold integration_GET, integration_POST, integration_PATCH, try_catch,
    admin_only.
  destruct role as [r|].
  - destruct (String.eqb_spec r "admin") as [->|_]; [congruence|].
    simpl. unfold ret. eexists. repeat split; eauto.
  - unfold ret. eexists. repeat split; eauto.
Qed.

(** X27. The settings form is a round trip for an admin: what [POST]
    answers is what a [GET] after it answers, a Shopify row with the flag
    and the fields of the form; its API version is never empty, since a
    form without one is saved as "2023-10".  Saving touches no other
    table and issues no call. *)
Theorem X27_settings_form_round_trip
    (data : SettingsForm) (action : option string) (w : World) :
  same_str action "import" = false →
  ∃ row w',
    integration_POST (Some "admin") data w
    = (Return {| integration_status := 200;
                 integration_json := Integration_settings (Some row) |}, w')
    ∧ integration_GET (Some "admin") action w'
      = (Return {| integration_status := 200;
                   integration_json := Integration_settings (Some row) |}, w')
    ∧ integrationType row = "shopify"
    ∧ isEnabled row = form_isEnabled data
    ∧ shopName (settings row) = form_shopName data
    ∧ accessToken (settings row) = form_accessToken data
    ∧ apiKey (settings row) = form_apiKey data
    ∧ apiSecret (settings row) = form_apiSecret data
    ∧ (∃ v, apiVersion (settings row) = Some v ∧ v ≠ ""
            ∧ (JS.truthy_str (form_apiVersion data) = true →
               form_apiVersion data = Some v)
            ∧ (JS.truthy_str (form_apiVersion data) = false → v = "2023-10"))
    ∧ w' = with_integrationSettings (integrationSettings w') w.
Proof.
  intros Haction.
  set (config := {| shopName := form_shopName data;
                    apiKey := form_apiKey data;
                    apiSecret := form_apiSecret data;
                    apiVersion := Some (JS.or_str (form_apiVersion data) "2023-10");
                    accessToken := form_accessToken data |}).
  destruct (saveShopifySettings_row config (form_isEnabled data) w)
    as (row & w' & Hsave & Hfind & Htype & Hen & Hset & Hw & _).
  exists row, w'.
  split.
  { unfold integration_POST, try_catch, admin_only. simpl.
    unfold bind. fold config. rewrite Hsave. reflexivity. }
  split.
  { unfold integration_GET, try_catch, admin_only. simpl.
    rewrite Haction. unfold bind, getShopifySettings.
    fold is_shopify_row. rewrite Hfind. reflexivity. }
  rewrite Hset. simpl.
  do 6 (split; [reflexivity || assumption|]).
  split; [|exact Hw].
  exists (JS.or_str (form_apiVersion data) "2023-10").
  split; [reflexivity|].
  unfold JS.or_str, JS.truthy_str.
  destruct (form_apiVersion data) as [v|]; simpl.
  - destruct (String.eqb_spec v "") as [->|Hv]; simpl.
    + repeat split; (discriminate || reflexivity).
    + repeat split; (discriminate || reflexivity || assumption).
  - repeat split; (discriminate || reflexivity).
Qed.

(** X28. The import and the bulk sync of the integration route never
    answer an admin with an error status: the answer is 200 with the
    result of the engine, whose counters add up to its total, also when
    the integration is off or the platform rejects every call; a failure
    shows in the [success] flag and the message only. *)
Theorem X28_import_and_bulk_sync_always_answer_200 (w : World) :
  (∃ res w',
     importProductsFromShopify w = (Return res, w')
     ∧ integration_GET (Some "admin") (Some "import") w
       = (Return {| integration_status := 200;
                    integration_json :=
                      Integration_import (success res)
                        (if success res
                         then "Successfully imported " +:+ number (imported res)
                              +:+ " new products and updated "
                              +:+ number (updated res)
                              +:+ " existing products from Shopify"
                         else "Failed to import products from Shopify")
                        (total res) (imported res) (updated res)
                        (failed res) |}, w')
     ∧ imported res + updated res + failed res = total res)
  ∧ (∃ res w',
       syncAllProductsToShopify w = (Return res, w')
       ∧ integration_PATCH (Some "admin") w
         = (Return {| integration_status := 200;
                      integration_json :=
                        Integration_sync (all_success res)
                          (if all_success res
                           then "Successfully synced " +:+ number (all_synced res)
                                +:+ " products to Shopify"
                           else "Failed to sync products to Shopify")
                          (all_total res) (all_synced res)
                          (all_failed res) |}, w')
       ∧ all_synced res + all_failed res = all_total res).
Proof.
  split.
  - destruct (importProductsFromShopify_returns w) as (res & w' & Hrun & Hsum).
    exists res, w'. split; [exact Hrun|]. split; [|exact Hsum].
    unfold integration_GET, try_catch, admin_only. simpl.
    unfold bind. rewrite Hrun. reflexivity.
  - destruct (syncAllProductsToShopify_returns w) as (res & w' & Hrun & Hsum).
    exists res, w'. split; [exact Hrun|]. split; [|exact Hsum].
    unfold integration_PATCH, try_catch, admin_only. simpl.
    unfold bind. rewrite Hrun. reflexivity.
Qed.

End IntegrationFacts.

(** ** The properties above, on the demo shop *)

Section RunsRest.
Import Mock MockRest Inputs InputsRest.

Lemma X2_witness :
  let product := {| base := linked_widget; productType := None; sku := None |} in
  getShopifyClient paused_world = (Return None, paused_world)
  ∧ syncProductToShopify product paused_world = (Return false, paused_world)
  ∧ syncInventoryToShopify 1 7 paused_world = (Return false, paused_world)
  ∧ deleteProductFromShopify 1 paused_world = (Return false, paused_world)
  ∧ (importProductsFromShopify paused_world).2 = paused_world
  ∧ (syncAllProductsToShopify paused_world).2 = paused_world.
Proof.
  intros product. split; [reflexivity|].
  destruct (X2_no_client_no_effect paused_world product 1 7%Z)
    as (H1 & H2 & H3 & H4 & H5); [reflexivity|].
  rewrite H4, H5. auto.
Defined.

Lemma X3_witness :
  shopify_id_of (find (fun p => Nat.eqb (p_id p) 2) (products linked_world))
  = None
  ∧ deleteProductFromShopify 2 linked_world = (Return true, linked_world)
  ∧ deleteProductFromShopify 2 paused_world = (Return false, paused_world).
Proof.
  split; [reflexivity|]. split.
  - destruct (X3_delete_unlinked_is_a_no_op 2 linked_world eq_refl)
      as (client & Hc & Hrun).
    assert (getShopifyClient linked_world
            = (Return (Some demo_client), linked_world)) as Hc' by reflexivity.
    rewrite Hc' in Hc. injection Hc as <-. exact Hrun.
  - destruct (X3_delete_unlinked_is_a_no_op 2 paused_world eq_refl)
      as (client & Hc & Hrun).
    assert (getShopifyClient paused_world = (Return None, paused_world))
      as Hc' by reflexivity.
    rewrite Hc' in Hc. injection Hc as <-. exact Hrun.
Defined.

Lemma X5_witness :
  getShopifyClient linked_world = (Return (Some demo_client), linked_world)
  ∧ shopify_id_of (find (fun p => Nat.eqb (p_id p) 2) (products linked_world))
    = None
  ∧ syncInventoryToShopify 2 7 linked_world = (Return false, linked_world).
Proof.
  split; [reflexivity|]. split; [reflexivity|].
  apply (X5_inventory_sync_needs_a_link 2 7%Z linked_world demo_client);
    reflexivity.
Defined.

Lemma X8_witness :
  ∃ w1 stored,
    updateProductWithShopifyId 2 "900" linked_world = (Return true, w1)
    ∧ find (fun q => Nat.eqb (p_id q) 2) (products w1) = Some stored
    ∧ ∃ ok w2,
        syncProductToShopify
          {| base := stored; productType := None; sku := None |} w1
        = (Return ok, w2)
        ∧ calls w2
          = [Call_product_update (Some 900%Z)
               (mapToShopifyProduct
                  {| base := stored; productType := None; sku := None |})].
Proof.
  destruct (X8_link_by_hand_then_sync_updates 2 900%Z linked_world demo_client
              gadget) as (w1 & stored & Hlink & Hfind & Hsync);
    [reflexivity|reflexivity|reflexivity|].
  exists w1, stored. split; [exact Hlink|]. split; [exact Hfind|].
  destruct (Hsync None None) as (ok & w2 & Hrun & Hcalls & _).
  exists ok, w2. split; [exact Hrun|exact Hcalls].
Defined.

Lemma X11_witness :
  unique_ids (products fresh_world) = true
  ∧ ∃ ok w',
      syncProductToShopify
        {| base := gadget; productType := None; sku := None |} fresh_world
      = (Return ok, w')
      ∧ only_links_differ fresh_world w'
      ∧ length (calls w') ≤ 1.
Proof.
  split; [reflexivity|].
  destruct (X11_sync_touches_only_the_link
              {| base := gadget; productType := None; sku := None |} fresh_world)
    as (ok & w' & Hrun & Hframe & _ & Hcalls); [reflexivity|].
  exists ok, w'. split; [exact Hrun|]. split; [exact Hframe|exact Hcalls].
Defined.

Lemma X12_witness :
  getShopifyClient linked_world = (Return (Some demo_client), linked_world)
  ∧ ∃ res w',
      syncAllProductsToShopify linked_world = (Return res, w')
      ∧ all_total res = 2
      ∧ all_synced res + all_failed res = 2
      ∧ length (calls w') = 2.
Proof.
  split; [reflexivity|].
  destruct (X12_bulk_sync_counts_and_calls linked_world demo_client)
    as (res & w' & snapshot & Hrun & _ & Hbase & Hcalls & Htotal & Hsum & _);
    [reflexivity|].
  exists res, w'. split; [exact Hrun|]. split; [exact Htotal|].
  split; [rewrite Hsum; exact Htotal|].
  rewrite Hcalls, length_app, length_fmap.
  rewrite <- (length_fmap base), Hbase. reflexivity.
Defined.

Lemma X13_witness :
  let sp := listing 5 "Remote widget" (Some "A") in
  let w' := (import_product demo_client sp collision_world).2 in
  find (has_shopify_id "5") (products collision_world) = None
  ∧ import_product demo_client sp collision_world = (Return Imported, w')
  ∧ ∃ p,
      products w' = products collision_world ++ [p]
      ∧ p_name p = "Remote widget"
      ∧ p_barcode p = Some "A-5"
      ∧ p_stockCount p = 4%Z
      ∧ p_externalIds p = Some {[ "shopify" := "5" ]}.
Proof.
  intros sp w'. split; [reflexivity|]. split; [reflexivity|].
  destruct (X13_what_the_import_creates demo_client sp collision_world w'
              Imported)
    as (_ & p & type & Hps & Hname & _ & _ & _ & _ & Hids & Hbarcode & Hstock & _);
    [reflexivity|reflexivity|].
  exists p. split; [exact Hps|]. split; [exact Hname|].
  split; [exact Hbarcode|]. split; [exact Hstock|exact Hids].
Defined.

Lemma X14_witness :
  let sp := listing 900 "Widget" (Some "A") in
  let w' := (import_product demo_client sp linked_world).2 in
  unique_ids (products linked_world) = true
  ∧ find (has_shopify_id "900") (products linked_world) = Some linked_widget
  ∧ import_product demo_client sp linked_world = (Return Updated, w')
  ∧ ∃ p,
      find (fun q => Nat.eqb (p_id q) 1) (products w') = Some p
      ∧ p_name p = "Widget"
      ∧ p_stockCount p = 4%Z
      ∧ p_productTypeId p = 1
      ∧ length (products w') = 2.
Proof.
  intros sp w'. split; [reflexivity|]. split; [reflexivity|].
  split; [reflexivity|].
  destruct (X14_what_the_import_updates demo_client sp linked_world w'
              linked_widget Updated)
    as (p & Hfind & Hname & _ & _ & _ & Hstock & _ & Htype & _ & Hlen);
    [reflexivity|reflexivity|reflexivity|].
  exists p. split; [exact Hfind|]. split; [exact Hname|].
  split; [exact Hstock|]. split; [exact Htype|exact Hlen].
Defined.


Lemma X16_witness :
  verified unsigned_request linked_world = false
  ∧ ∃ resp,
      webhook_POST unsigned_request linked_world = (Return resp, linked_world)
      ∧ status resp ≠ 200.
Proof.
  split; [reflexivity|].
  destruct (X16_unverified_requests_change_nothing unsigned_request linked_world)
    as (resp & Hrun & Hstatus & _); [reflexivity|].
  exists resp. split; [exact Hrun|exact Hstatus].
Defined.

Lemma X17_witness :
  verified (signed_request "products/update") linked_world = true
  ∧ ∃ w',
      webhook_POST (signed_request "products/update") linked_world
      = (Return acknowledged, w').
Proof.
  split; [reflexivity|].
  pose proof (X17_verified_requests_are_acknowledged
                (signed_request "products/update") linked_world eq_refl) as Hrun.
  change (∃ w', webhook_POST (signed_request "products/update") linked_world
                = (Return acknowledged, w')
                ∧ (same_str (x_shopify_topic (signed_request "products/update"))
                     "products/update" = false →
                   same_str (x_shopify_topic (signed_request "products/update"))
                     "products/delete" = false →
                   w' = linked_world)) in Hrun.
  destruct Hrun as (w' & Hrun & _). exists w'. exact Hrun.
Defined.

Lemma X18_witness :
  unique_ids (products linked_world) = true
  ∧ ∃ resp w',
      webhook_POST (signed_request "products/delete") linked_world
      = (Return resp, w')
      ∧ calls w' = []
      ∧ sales w' = []
      ∧ kept_by_webhooks <$> products w'
        = kept_by_webhooks <$> products linked_world.
Proof.
  split; [reflexivity|].
  destruct (X18_notifications_write_text_and_links_only
              (signed_request "products/delete") linked_world)
    as (resp & w' & Hrun & _ & Hcalls & _ & Hsales & _ & _ & _ & Hkept);
    [reflexivity|].
  exists resp, w'. split; [exact Hrun|]. split; [exact Hcalls|].
  split; [exact Hsales|exact Hkept].
Defined.

Lemma X19_witness :
  let req := signed_request "products/update" in
  let w1 := (webhook_POST req linked_world).2 in
  webhook_POST req linked_world = (Return acknowledged, w1)
  ∧ webhook_POST req w1 = (Return acknowledged, w1).
Proof.
  intros req w1. split; [reflexivity|].
  apply (X19_update_notification_twice req linked_world w1 (Return acknowledged));
    reflexivity.
Defined.

Lemma X21_witness :
  let sale := {| sale_id := 100; sale_productId := 1; sale_quantity := 3%Z;
                 sale_totalPrice := 75%Z |} in
  ∃ w',
    sales_POST sale_of_three linked_world
    = (Return {| status := 201; json := Json_sale sale |}, w')
    ∧ sales w' = [sale]
    ∧ length (calls w') ≤ 1.
Proof.
  intros sale.
  destruct (X21_a_valid_sale_is_committed sale_of_three linked_world 1 3%Z
              linked_widget)
    as (w' & Hrun & Hsales & _ & _ & Hcalls);
    [reflexivity|reflexivity|reflexivity|reflexivity|lia|reflexivity
    |simpl; lia|].
  exists w'. split; [exact Hrun|]. split; [exact Hsales|exact Hcalls].
Defined.

Lemma X22_witness :
  ∃ resp w',
    sales_POST sale_of_three linked_world = (Return resp, w')
    ∧ Forall (fun p => (0 ≤ p_stockCount p)%Z) (products w')
    ∧ unique_ids (products w') = true.
Proof.
  apply (X22_sales_keep_the_stock_non_negative sale_of_three linked_world);
    [reflexivity|].
  repeat constructor; simpl; lia.
Defined.


Lemma X25_witness :
  ∃ resp w',
    stock_POST (take_off 40) linked_world = (Return resp, w')
    ∧ Forall (fun p => (0 ≤ p_stockCount p)%Z) (products w')
    ∧ unique_ids (products w') = true.
Proof.
  apply (X25_subtracting_keeps_the_stock_non_negative (take_off 40) linked_world);
    [reflexivity|reflexivity|].
  repeat constructor; simpl; lia.
Defined.

Lemma X26_witness :
  ∃ resp,
    integration_GET (Some "user") (Some "import") linked_world
    = (Return resp, linked_world)
    ∧ integration_POST (Some "user") demo_form linked_world
      = (Return resp, linked_world)
    ∧ integration_PATCH (Some "user") linked_world = (Return resp, linked_world)
    ∧ integration_status resp = 403.
Proof.
  destruct (X26_integration_route_is_admin_only (Some "user") (Some "import")
              demo_form linked_world)
    as (resp & Hget & Hpost & Hpatch & Hstatus & _); [discriminate|].
  exists resp. auto.
Defined.

Lemma X27_witness :
  ∃ row w',
    integration_POST (Some "admin") demo_form paused_world
    = (Return {| integration_status := 200;
                 integration_json := Integration_settings (Some row) |}, w')
    ∧ integration_GET (Some "admin") None w'
      = (Return {| integration_status := 200;
                   integration_json := Integration_settings (Some row) |}, w')
    ∧ isEnabled row = true
    ∧ apiVersion (settings row) = Some "2023-10".
Proof.
  destruct (X27_settings_form_round_trip demo_form None paused_world)
    as (row & w' & Hpost & Hget & _ & Hen & _ & _ & _ & _
        & (v & Hv & _ & _ & Hdefault) & _); [reflexivity|].
  exists row, w'. split; [exact Hpost|]. split; [exact Hget|].
  split; [exact Hen|]. rewrite Hv, (Hdefault eq_refl). reflexivity.
Defined.

End RunsRest.
